(** * PyFITS [compressionmodule.c]: tile-compression session set-up

    A shallow embedding of the C extension module [src/compressionmodule.c]
    and the properties its specification states about it.

    Conventions of the embedding.
    - The data model is LP64: [int] is 32 bits, [long], [long long],
      [size_t] and [Py_ssize_t] are 64 bits.  Every C integer is a [Z];
      each assignment or arithmetic step writes its wrap-around out
      through the functions of module [C].
    - A [char*] is an [option string] ([None] is the NULL pointer); a
      fixed [char] array is a [list ascii] of the array's length.
    - Python objects are values of [PyObject]; a PyFITS header is a finite
      map from keyword to value.  Reference counts are not modelled.
    - Code that calls the Python C API runs in the monad [M]: a state
      [PyState] (error indicator, log of item lookups, PyMem blocks,
      reads of the HDU data buffer) threaded through the calls, with
      [None] for a run whose behaviour is undefined in C (a store through
      a NULL pointer, an array index out of bounds).
    - A local that is read before anything is assigned to it is a
      parameter of the function that declares it: the value it happens
      to hold.
    - [printf] output is not modelled. *)

From Stdlib Require Import ZArith Floats Ascii String.
From stdpp Require Import gmap strings list pretty.

Set Warnings "-register-all".
Open Scope Z_scope.

(** ** C integer types *)

Module C.

(** Value of [z] converted to an unsigned type of [w] bits. *)
Definition unsigned (w z : Z) : Z := z mod 2 ^ w.

(** Value of [z] converted to a signed type of [w] bits (two's
    complement, as gcc and clang do). *)
Definition signed (w z : Z) : Z := (z + 2 ^ (w - 1)) mod 2 ^ w - 2 ^ (w - 1).

Definition to_int : Z → Z := signed 32.
Definition to_uint : Z → Z := unsigned 32.
Definition to_long : Z → Z := signed 64.
Definition to_ulong : Z → Z := unsigned 64.
Definition to_longlong : Z → Z := signed 64.
Definition to_ulonglong : Z → Z := unsigned 64.
Definition to_size_t : Z → Z := unsigned 64.

Definition INT_MAX : Z := 2 ^ 31 - 1.
Definition UINT_MAX : Z := 2 ^ 32 - 1.
Definition LONG_MIN : Z := - 2 ^ 63.
Definition LONG_MAX : Z := 2 ^ 63 - 1.
Definition ULONG_MAX : Z := 2 ^ 64 - 1.

Definition is_int (z : Z) : Prop := - 2 ^ 31 ≤ z ≤ INT_MAX.
Definition is_long (z : Z) : Prop := LONG_MIN ≤ z ≤ LONG_MAX.
Definition is_ulong (z : Z) : Prop := 0 ≤ z ≤ ULONG_MAX.

(** [strncpy(dst, src, n)] with [dst] an array of at least [n] chars:
    the chars of [src] up to its terminating NUL, at most [n] of them,
    then NUL padding up to [n]; the rest of [dst] is left alone. *)
Fixpoint strncpy_chars (src : string) (n : nat) : list ascii :=
  match n with
  | O => []
  | S n' =>
      match src with
      | EmptyString => "000"%char :: strncpy_chars EmptyString n'
      | String c rest =>
          if Ascii.eqb c "000" then "000"%char :: strncpy_chars EmptyString n'
          else c :: strncpy_chars rest n'
      end
  end.

Definition strncpy (dst : list ascii) (src : string) (n : nat) : list ascii :=
  strncpy_chars src n ++ drop n dst.

(** The C string held in a char array: the chars before the first NUL. *)
Fixpoint c_str (a : list ascii) : string :=
  match a with
  | [] => EmptyString
  | c :: rest => if Ascii.eqb c "000" then EmptyString else String c (c_str rest)
  end.

(** The C string a [char*] into a Python string's buffer denotes: the
    buffer may carry a NUL char inside, where the C string ends. *)
Definition c_str_of (s : string) : string := c_str (list_ascii_of_string s).

End C.

(** ** Python objects and interpreter state *)

Inductive PyObject : Type :=
| PyNone
| PyInt (z : Z)
| PyFloat (f : float)
| PyStr (s : string)
| PyList (items : list PyObject)
| PyHeader (cards : gmap string PyObject).

Inductive PyExc : Type :=
| PyExc_KeyError
| PyExc_TypeError
| PyExc_ValueError
| PyExc_OverflowError
| PyExc_MemoryError.

(** Modelled from the spec: the [tcolumn] structure, declared in
    [fitsio.h] outside the module; it is the spec's ColumnDescriptor
    (name, format string, type code, repeat count, width, scale, zero
    point, null sentinel) with the two further members the module
    assigns.  [ttype] is [char[70]], [tform] is [char[10]].  Of [strnull]
    only the first char is ever written here, so the field holds the C
    string. *)
Record tcolumn : Type := {
  ttype : list ascii;
  tbcol : Z;
  tdatatype : Z;
  trepeat : Z;
  tscale : float;
  tzero : float;
  tnull : Z;
  strnull : string;
  tform : list ascii;
  twidth : Z
}.

(** A block handed out by [PyMem_Malloc]. *)
Inductive block : Type :=
| Longs (a : list Z)
| Columns (a : list tcolumn).

Record PyState : Type := {
  py_err : option PyExc;          (* the error indicator *)
  py_getitem : list string;       (* keys given to PyObject_GetItem, oldest first *)
  py_mem : gmap nat block;        (* live PyMem blocks, by address *)
  py_oom : bool;                  (* the allocator has nothing left to give *)
  buf_reads : nat                 (* reads made into the HDU data buffer *)
}.

Definition set_err (e : option PyExc) (st : PyState) : PyState :=
  {| py_err := e; py_getitem := py_getitem st; py_mem := py_mem st;
     py_oom := py_oom st; buf_reads := buf_reads st |}.

Definition log_getitem (k : string) (st : PyState) : PyState :=
  {| py_err := py_err st; py_getitem := py_getitem st ++ [k]; py_mem := py_mem st;
     py_oom := py_oom st; buf_reads := buf_reads st |}.

Definition set_mem (m : gmap nat block) (st : PyState) : PyState :=
  {| py_err := py_err st; py_getitem := py_getitem st; py_mem := m;
     py_oom := py_oom st; buf_reads := buf_reads st |}.

(** ** The monad of API calls *)

Definition M (A : Type) : Type := PyState → option (A * PyState).

Definition ret {A} (a : A) : M A := λ st, Some (a, st).

Definition bind {A B} (m : M A) (k : A → M B) : M B :=
  λ st, match m st with
        | Some (a, st') => k a st'
        | None => None
        end.

(** Undefined behaviour. *)
Definition crash {A} : M A := λ _, None.

Notation "'let*' x ':=' c 'in' k" := (bind c (λ x, k))
  (at level 10, x name, c at level 100, k at level 200).
Notation "'let*' ' p ':=' c 'in' k" := (bind c (λ p, k))
  (at level 10, p pattern, c at level 100, k at level 200).
Notation "'run' c 'then' k" := (bind c (λ _, k))
  (at level 10, c at level 100, k at level 200).

Definition modify (f : PyState → PyState) : M unit := λ st, Some (tt, f st).
Definition gets {A} (f : PyState → A) : M A := λ st, Some (f st, st).

(** ** The Python C API, as far as the module uses it *)

Definition PyErr_Set (e : PyExc) : M unit := modify (set_err (Some e)).
Definition PyErr_Clear : M unit := modify (set_err None).
Definition PyErr_NoMemory : M unit := PyErr_Set PyExc_MemoryError.
Definition PyErr_Occurred : M bool := gets (λ st, bool_decide (is_Some (py_err st))).

(** The item [o[key]], or the exception the lookup raises. *)
Definition getitem (o : PyObject) (key : string) : PyObject + PyExc :=
  match o with
  | PyHeader cards =>
      match cards !! key with
      | Some v => inl v
      | None => inr PyExc_KeyError
      end
  | _ => inr PyExc_TypeError
  end.

(** [PyObject_GetItem]: NULL with the error indicator set when the lookup
    fails.  A PyFITS header is an instance of a Python class, so that its
    [__getitem__] is Python code: entered while an exception is pending,
    the call does not run to its end but fails on that exception, which
    stays pending.  The getters below do make such lookups, since none of
    them looks at the error a conversion has left.  For an object that
    is no mapping the [TypeError] comes from C code and is raised
    whatever is pending. *)
Definition PyObject_GetItem (o : PyObject) (key : string) : M (option PyObject) :=
  run modify (log_getitem key) then
  let* pending := PyErr_Occurred in
  match o with
  | PyHeader _ =>
      if (pending : bool) then ret None
      else
        match getitem o key with
        | inl v => ret (Some v)
        | inr e => run PyErr_Set e then ret None
        end
  | _ => run PyErr_Set PyExc_TypeError then ret None
  end.

(** [PyString_AsString] ([PyBytes_AsString] on Python 3). *)
Definition PyString_AsString (o : PyObject) : M (option string) :=
  match o with
  | PyStr s => ret (Some s)
  | _ => run PyErr_Set PyExc_TypeError then ret None
  end.

(** The C [long] an object converts to, or the exception the conversion
    raises: a [TypeError] for an object that is no integer, an
    [OverflowError] for an integer out of range. *)
Definition long_of (o : PyObject) : Z + PyExc :=
  match o with
  | PyInt z => if bool_decide (C.is_long z) then inl z else inr PyExc_OverflowError
  | _ => inr PyExc_TypeError
  end.

(** [PyLong_AsLong] and [PyLong_AsLongLong]: -1 with the error indicator
    set when the conversion fails; a pending error is left alone when it
    succeeds. *)
Definition PyLong_AsLong (o : PyObject) : M Z :=
  match long_of o with
  | inl z => ret z
  | inr e => run PyErr_Set e then ret (-1)
  end.

Definition PyLong_AsLongLong (o : PyObject) : M Z := PyLong_AsLong o.

Definition double_of_Z (z : Z) : float :=
  SF2Prim (binary_normalize 53 1024 z 0 false).

(** [PyLong_AsDouble]: -1.0 with the error indicator set when [o] is no
    integer or is too large for a double. *)
Definition PyLong_AsDouble (o : PyObject) : M float :=
  match o with
  | PyInt z =>
      let d := double_of_Z z in
      if PrimFloat.is_infinity d
      then run PyErr_Set PyExc_OverflowError then ret (-1)%float
      else ret d
  | _ => run PyErr_Set PyExc_TypeError then ret (-1)%float
  end.

(** ** Header keyword getters *)

(** [get_header_string]: the value of [keyword] as a [char*], [def] when
    the lookup fails. *)
Definition get_header_string (header : PyObject) (keyword : string)
    (def : option string) : M (option string) :=
  let keystr := keyword in
  let* keyval := PyObject_GetItem header keystr in
  match keyval with
  | Some v => PyString_AsString v
  | None => run PyErr_Clear then ret def
  end.

(** [get_header_long]: the local [longvalue] is an [unsigned long long],
    the result an [unsigned long]. *)
Definition get_header_long (header : PyObject) (keyword : string) (def : Z) : M Z :=
  let keystr := keyword in
  let* keyval := PyObject_GetItem header keystr in
  let* longvalue :=
    match keyval with
    | Some v => let* x := PyLong_AsLong v in ret (C.to_ulonglong x)
    | None => run PyErr_Clear then ret (C.to_ulonglong def)
    end in
  ret (C.to_ulong longvalue).

Definition get_header_double (header : PyObject) (keyword : string) (def : float) : M float :=
  let keystr := keyword in
  let* keyval := PyObject_GetItem header keystr in
  match keyval with
  | Some v => PyLong_AsDouble v
  | None => run PyErr_Clear then ret def
  end.

Definition get_header_longlong (header : PyObject) (keyword : string) (def : Z) : M Z :=
  let keystr := keyword in
  let* keyval := PyObject_GetItem header keystr in
  let* longvalue :=
    match keyval with
    | Some v => let* x := PyLong_AsLongLong v in ret (C.to_ulonglong x)
    | None => run PyErr_Clear then ret (C.to_ulonglong def)
    end in
  ret longvalue.

(** ** CFITSIO: what [fitsio.h] and [fitsio2.h] declare *)

(** Modelled from the spec: the constants the module takes from
    [fitsio2.h], which it includes and which is not part of it.
    [MAX_COMPRESS_DIM] is the spec's MAX_DIM, the length of the per-axis
    arrays (the module's own [__znaxis] and [__tilesize] have 6
    entries); the others are the table type and the undefined-null
    sentinel. *)
Definition MAX_COMPRESS_DIM : nat := 6.
Definition BINARY_TBL : Z := 2.
Definition NULL_UNDEFINED : Z := 1234554321.

(** Modelled from the spec: the codes of the four compression algorithm
    tags, declared in [fitsio.h].  The module writes a plain 0 for the
    spec's NONE. *)
Definition RICE_1 : Z := 11.
Definition GZIP_1 : Z := 21.
Definition PLIO_1 : Z := 31.
Definition HCOMPRESS_1 : Z := 41.
Definition COMPRESS_NONE : Z := 0.

(** The four locals of [tcolumns_from_header] that [fits_binary_tform]
    reads and writes through pointers. *)
Record tform_vars : Type := {
  dtcode : Z;       (* int *)
  v_trepeat : Z;    (* long *)
  v_twidth : Z;     (* long *)
  status : Z        (* int *)
}.

(** The CFITSIO routines the module calls and that are defined outside
    it, taken as parameters.  [fits_binary_tform tform vars] is the
    content of the four variables after the call
    [fits_binary_tform(tform, &dtcode, &trepeat, &twidth, &status)];
    [imcomp_calc_max_elem] is a function of its four [int] arguments. *)
Class Cfitsio : Type := {
  fits_binary_tform : string → tform_vars → tform_vars;
  imcomp_calc_max_elem : Z → Z → Z → Z → Z
}.

(** Modelled from the spec: the [FITSfile] structure behind a
    [fitsfile*], declared in [fitsio.h]; it carries the spec's HeapLayout
    and TileConfig.  Only the members this module assigns are kept, and
    [memsize]: the buffer size the memory driver was given for the
    file. *)
Record FITSfile : Type := {
  memsize : Z;            (* size_t *)
  tableptr : option nat;  (* tcolumn* *)
  hdutype : Z;
  datastart : Z;
  tfield : Z;             (* int *)
  origrows : Z;           (* LONGLONG *)
  numrows : Z;            (* LONGLONG *)
  rowlength : Z;          (* LONGLONG *)
  heapstart : Z;          (* LONGLONG *)
  heapsize : Z;           (* LONGLONG *)
  compressimg : Z;
  zcmptype : string;      (* char[12], as a C string *)
  compress_type : Z;
  zbitpix : Z;
  zndim : Z;
  znaxis : list Z;        (* long[MAX_COMPRESS_DIM] *)
  tilesize : list Z;      (* long[MAX_COMPRESS_DIM] *)
  maxtilelen : Z;         (* long *)
  maxelem : Z;            (* long *)
  rice_blocksize : Z;
  rice_bytepix : Z;
  hcomp_smooth : Z;
  cn_compressed : Z;
  cn_uncompressed : Z;
  cn_gzip_data : Z;
  cn_zscale : Z;
  cn_zzero : Z;
  cn_zblank : Z;
  zscale : float;
  cn_bscale : float
}.

(** Modelled from the spec: [fits_create_memfile(fileptr, &buf,
    &bufsize, 0, NULL, &status)], a CFITSIO routine; the spec has the
    buffer "treated as opaque bytes", with a declared total length.
    Entered with a positive [status] it does nothing, like every CFITSIO
    routine, and [*fileptr] is not assigned ([None]); otherwise it yields
    a fresh file structure over the caller's buffer, of declared size
    [bufsize], and reads nothing from the buffer. *)
Definition fits_create_memfile (bufsize : Z) (status : Z) : option FITSfile :=
  if bool_decide (status > 0) then None else Some
  {| memsize := bufsize; tableptr := None; hdutype := 0; datastart := 0;
     tfield := 0; origrows := 0; numrows := 0; rowlength := 0;
     heapstart := 0; heapsize := 0; compressimg := 0; zcmptype := "";
     compress_type := 0; zbitpix := 0; zndim := 0;
     znaxis := replicate MAX_COMPRESS_DIM 0;
     tilesize := replicate MAX_COMPRESS_DIM 0;
     maxtilelen := 0; maxelem := 0; rice_blocksize := 0; rice_bytepix := 0;
     hcomp_smooth := 0; cn_compressed := 0; cn_uncompressed := 0;
     cn_gzip_data := 0; cn_zscale := 0; cn_zzero := 0; cn_zblank := 0;
     zscale := 0%float; cn_bscale := 0%float |}.

(** ** PyMem *)

(** [PyMem_Malloc]: the address of a fresh block, NULL when the allocator
    is exhausted.  [init] is the content the block is about to be given;
    the module writes every element before it reads any. *)
Definition PyMem_Malloc (init : block) : M (option nat) :=
  λ st, if py_oom st then Some (None, st)
        else let p := fresh (dom (py_mem st)) in
             Some (Some p, set_mem (<[p := init]> (py_mem st)) st).

Definition PyMem_Free (p : nat) : M unit :=
  modify (λ st, set_mem (delete p (py_mem st)) st).

(** A store through pointer [p] that replaces the block's content. *)
Definition store (p : nat) (b : block) : M unit :=
  modify (λ st, set_mem (<[p := b]> (py_mem st)) st).

(** ** Argument conversion *)

(** [out[i] = v] on a block of longs. *)
Definition poke (out : nat) (i : nat) (v : Z) : M unit :=
  λ st, match py_mem st !! out with
        | Some (Longs a) =>
            if bool_decide (i < length a)%nat
            then Some (tt, set_mem (<[out := Longs (<[i := v]> a)]> (py_mem st)) st)
            else None
        | _ => None
        end.

(** The loop [for (i = 0; i < size; i++) out[i] = PyLong_AsLong(
    PyList_GetItem(data, i))], entered at index [i] with the items from
    [i] on. *)
Fixpoint fill_longs (out : nat) (items : list PyObject) (i : nat) : M unit :=
  match items with
  | [] => ret tt
  | x :: rest =>
      let* v := PyLong_AsLong x in
      run poke out i v then
      fill_longs out rest (S i)
  end.

(** [get_long_array(data, description, data_size)].  The result is the
    returned pointer and the value stored through [data_size], if any;
    [data_size] says whether that pointer is non-NULL.  [description]
    only feeds the exception's message, which is not modelled. *)
Definition get_long_array (data : PyObject) (data_size : bool)
    : M (option nat * option Z) :=
  match data with
  | PyList items =>
      let size := C.to_int (Z.of_nat (length items)) in
      if bool_decide (size < 0) then
        run PyErr_Set PyExc_ValueError then ret (None, None)
      else
        let written := if data_size then Some size else None in
        let* out := PyMem_Malloc (Longs (replicate (Z.to_nat size) 0)) in
        match out with
        | None => run PyErr_NoMemory then ret (None, written)
        | Some p =>
            run fill_longs p (take (Z.to_nat size) items) 0 then
            let* failed := PyErr_Occurred in
            if failed then run PyMem_Free p then ret (None, written)
            else ret (Some p, written)
        end
  | _ => run PyErr_Set PyExc_TypeError then ret (None, None)
  end.

(** ** Column descriptors *)

(** [snprintf(tkw, 9, "<name>%u", idx)]: the keyword, cut to the 8 chars
    the buffer has room for. *)
Definition snprintf_tkw (name : string) (idx : Z) : string :=
  string_of_list_ascii
    (take 8 (list_ascii_of_string (name +:+ pretty (Z.to_N (C.to_uint idx))))).

Definition NUL : ascii := "000"%char.

Section Columns.
Context `{Cfitsio}.

(** One turn of the loop of [tcolumns_from_header]: the descriptor of
    column [idx], and the four locals after it.  [strncpy] from a NULL
    source is undefined. *)
Definition tcolumn_from_header (header : PyObject) (idx : Z) (vars : tform_vars)
    : M (tcolumn * tform_vars) :=
  let ttype0 := <[0%nat := NUL]> (replicate 70 NUL) in
  let tform0 := <[0%nat := NUL]> (replicate 10 NUL) in
  let tkw := snprintf_tkw "TTYPE" idx in
  let* name := get_header_string header tkw (Some "") in
  match name with
  | None => crash
  | Some name =>
      let ttype1 := <[69%nat := NUL]> (C.strncpy ttype0 name 69) in
      let tkw := snprintf_tkw "TBCOL" idx in
      let* bcol := get_header_longlong header tkw 0 in
      let tkw := snprintf_tkw "TFORM" idx in
      let* form := get_header_string header tkw (Some "") in
      match form with
      | None => crash
      | Some form =>
          let tform1 := <[9%nat := NUL]> (C.strncpy tform0 form 9) in
          let vars' := fits_binary_tform (C.c_str_of form) vars in
          let tkw := snprintf_tkw "TSCAL" idx in
          let* scale := get_header_double header tkw 1%float in
          let tkw := snprintf_tkw "TZERO" idx in
          let* zero := get_header_double header tkw 0%float in
          let tkw := snprintf_tkw "TNULL" idx in
          let* null := get_header_longlong header tkw NULL_UNDEFINED in
          ret ({| ttype := ttype1;
                  tbcol := C.to_longlong bcol;
                  tdatatype := dtcode vars';
                  trepeat := C.to_longlong (v_trepeat vars');
                  tscale := scale;
                  tzero := zero;
                  tnull := C.to_longlong null;
                  strnull := "";
                  tform := tform1;
                  twidth := v_twidth vars' |}, vars')
      end
  end.

(** [n] turns of the loop, from index [idx] on. *)
Fixpoint columns_loop (header : PyObject) (n : nat) (idx : Z) (vars : tform_vars)
    : M (list tcolumn) :=
  match n with
  | O => ret []
  | S n' =>
      let* '(column, vars') := tcolumn_from_header header idx vars in
      let* rest := columns_loop header n' (idx + 1) vars' in
      ret (column :: rest)
  end.

(** [tcolumns_from_header(header, &columns, &tfields)]: the returned
    int, [*columns] and [*tfields].  [indet] gives the indeterminate
    contents of the uninitialised locals [dtcode], [trepeat], [twidth].
    The counter [idx] is an [unsigned int]: with [*tfields] at
    [UINT_MAX] or above it wraps before the loop can end, and the
    writes run past the array. *)
Definition tcolumns_from_header (indet : Z * Z * Z) (header : PyObject)
    : M (Z * option nat * Z) :=
  let vars := {| dtcode := indet.1.1; v_trepeat := indet.1.2;
                 v_twidth := indet.2; status := 0 |} in
  let* tfields := get_header_long header "TFIELDS" 0 in
  let* columns := PyMem_Malloc (Columns []) in
  if bool_decide (tfields = 0) then ret (0, columns, tfields)
  else if bool_decide (C.UINT_MAX ≤ tfields) then crash
  else
    match columns with
    | None => crash
    | Some p =>
        let* cols := columns_loop header (Z.to_nat tfields) 1 vars in
        run store p (Columns cols) then
        ret (0, columns, tfields)
    end.

(** ** Compression set-up *)

Definition __znaxis : list Z := [440; 300; 0; 0; 0; 0].
Definition __tilesize : list Z := [440; 1; 0; 0; 0; 0].

(** [memcpy(dst, src, sizeof(long) * n)] on arrays of longs. *)
Definition memcpy_longs (dst src : list Z) (n : nat) : list Z :=
  take n src ++ drop n dst.

(** [configure_compression(fileptr, header)]. *)
Definition configure_compression (f : FITSfile) (header : PyObject) : FITSfile :=
  {| memsize := memsize f; tableptr := tableptr f; hdutype := hdutype f;
     datastart := datastart f; tfield := tfield f; origrows := origrows f;
     numrows := numrows f; rowlength := rowlength f;
     heapstart := heapstart f; heapsize := heapsize f;
     compressimg := 1;
     zcmptype := "RICE_1";
     compress_type := RICE_1;
     zbitpix := 16;
     zndim := 2;
     znaxis := memcpy_longs (znaxis f) __znaxis MAX_COMPRESS_DIM;
     tilesize := memcpy_longs (tilesize f) __tilesize MAX_COMPRESS_DIM;
     maxtilelen := 440;
     maxelem := C.to_int (imcomp_calc_max_elem RICE_1 (C.to_int 440) 16 32);
     rice_blocksize := 32;
     rice_bytepix := 2;
     hcomp_smooth := hcomp_smooth f;
     cn_compressed := 1;
     cn_uncompressed := -1;
     cn_gzip_data := -1;
     cn_zscale := -1;
     cn_zzero := -1;
     cn_zblank := -1;
     zscale := 1%float;
     cn_bscale := 1%float |}.

End Columns.

(** ** Opening a decode session *)

(** A [CompImageHDU] as the module reads it: the attributes [_header],
    [data] (a numpy array, here its bytes) and [_file]. *)
Record PyHDU : Type := {
  hdu_header : PyObject;
  hdu_data : list Byte.byte;
  hdu_file : PyObject
}.

Definition PyArray_NBYTES (data : list Byte.byte) : Z := Z.of_nat (length data).

(** Modelled from the spec: a random-access read of byte [i] of the data
    buffer, [((char* )PyArray_DATA(data))[i]], as the decoder behind
    [fits_read_img] makes them.  [buf_reads] counts them; a read past the
    end is undefined.  No function of this module calls it. *)
Definition PyArray_GETBYTE (data : list Byte.byte) (i : nat) : M Byte.byte :=
  λ st, match data !! i with
        | Some b =>
            Some (b, {| py_err := py_err st; py_getitem := py_getitem st;
                        py_mem := py_mem st; py_oom := py_oom st;
                        buf_reads := S (buf_reads st) |})
        | None => None
        end.

Section Open.
Context `{Cfitsio}.

(** [open_from_pyfits_hdu(&fileptr, hdu, columns)]: the file structure
    [*fileptr] ends up pointing to.  The parameter [columns] is
    overwritten before it is read, so it is left out.  The local
    [status] is never initialised and goes to [fits_create_memfile] by
    address: [status] here is the indeterminate value it has then.  When
    that call has created nothing, the stores through [*fileptr] that
    follow are undefined. *)
Definition open_from_pyfits_hdu (indet : Z * Z * Z) (status : Z) (hdu : PyHDU)
    : M FITSfile :=
  let header := hdu_header hdu in
  let data := hdu_data hdu in
  let* '(_, columns, tfields) := tcolumns_from_header indet header in
  let* rowlen := get_header_longlong header "NAXIS1" 0 in
  let* nrows := get_header_longlong header "NAXIS2" 0 in
  let* pcount := get_header_longlong header "PCOUNT" 0 in
  let bufsize := C.to_size_t (C.to_size_t (PyArray_NBYTES data) + C.to_size_t pcount) in
  let bufsize := if bool_decide (bufsize < 2880) then 2880 else bufsize in
  match fits_create_memfile bufsize status with
  | None => crash
  | Some f =>
      let f :=
        {| memsize := memsize f;
           tableptr := columns;
           hdutype := BINARY_TBL;
           datastart := 0;
           tfield := C.to_int tfields;
           origrows := C.to_longlong nrows;
           numrows := C.to_longlong nrows;
           rowlength := C.to_longlong rowlen;
           heapstart := C.to_longlong (C.to_ulonglong (rowlen * nrows));
           heapsize := C.to_longlong pcount;
           compressimg := compressimg f; zcmptype := zcmptype f;
           compress_type := compress_type f; zbitpix := zbitpix f;
           zndim := zndim f; znaxis := znaxis f; tilesize := tilesize f;
           maxtilelen := maxtilelen f; maxelem := maxelem f;
           rice_blocksize := rice_blocksize f; rice_bytepix := rice_bytepix f;
           hcomp_smooth := hcomp_smooth f; cn_compressed := cn_compressed f;
           cn_uncompressed := cn_uncompressed f; cn_gzip_data := cn_gzip_data f;
           cn_zscale := cn_zscale f; cn_zzero := cn_zzero f;
           cn_zblank := cn_zblank f; zscale := zscale f;
           cn_bscale := cn_bscale f |} in
      ret (configure_compression f header)
  end.

End Open.

(** ** The list-based wrappers (kept in the file as commented code) *)

(** Signed [long] arithmetic: a result out of range is undefined. *)
Definition long_result (z : Z) : option Z :=
  if bool_decide (C.is_long z) then Some z else None.

(** Codec selection of [compression_decompressData] (and, identically,
    of [compression_compressData]): [strcmp] of [compressTypeStr] with
    the four tags.  [zval] is the array [get_long_array] made of the
    ZVALn list, [numzVals] its length; a read past its end is undefined.
    The result is [compress_type], [rice_blocksize], [rice_bytepix] and
    [hcomp_smooth]. *)
Definition select_codec (compressTypeStr : string) (zval : list Z)
    : option (Z * Z * Z * Z) :=
  let numzVals := C.to_int (Z.of_nat (length zval)) in
  let rice_blocksize := 32 in
  let hcomp_smooth := 0 in
  let rice_bytepix := 4 in
  if String.eqb compressTypeStr "RICE_1" then
    if bool_decide (numzVals > 0) then
      z0 ← zval !! 0%nat;
      if bool_decide (numzVals > 1) then
        z1 ← zval !! 1%nat;
        Some (RICE_1, C.to_int z0, C.to_int z1, hcomp_smooth)
      else Some (RICE_1, C.to_int z0, rice_bytepix, hcomp_smooth)
    else Some (RICE_1, rice_blocksize, rice_bytepix, hcomp_smooth)
  else if String.eqb compressTypeStr "GZIP_1" then
    Some (GZIP_1, rice_blocksize, rice_bytepix, hcomp_smooth)
  else if String.eqb compressTypeStr "HCOMPRESS_1" then
    if bool_decide (numzVals > 0) then
      z1 ← zval !! 1%nat;
      Some (HCOMPRESS_1, rice_blocksize, rice_bytepix, C.to_int z1)
    else Some (HCOMPRESS_1, rice_blocksize, rice_bytepix, hcomp_smooth)
  else if String.eqb compressTypeStr "PLIO_1" then
    Some (PLIO_1, rice_blocksize, rice_bytepix, hcomp_smooth)
  else Some (0, rice_blocksize, rice_bytepix, hcomp_smooth).

(** The tiling state the loops of [compression_compressData] work on. *)
Record tiling : Type := {
  t_znaxis : list Z;      (* long[MAX_COMPRESS_DIM] *)
  t_tilesize : list Z;    (* long[MAX_COMPRESS_DIM] *)
  t_maxtilelen : Z;       (* long *)
  ntiles : Z              (* int *)
}.

(** The number of tiles along one axis, [(naxes[ii] - 1) / tileSize[ii]
    + 1] in [long] arithmetic; C division truncates toward zero. *)
Definition tiles_along (naxes_ii tileSize_ii : Z) : option Z :=
  a ← long_result (naxes_ii - 1);
  if bool_decide (tileSize_ii = 0) then None
  else q ← long_result (Z.quot a tileSize_ii); long_result (q + 1).

(** One turn of [for (ii = 0; ii < naxis; ii++)]. *)
Definition tiling_step (naxes tileSize : list Z) (ii : nat) (t : tiling)
    : option tiling :=
  n ← naxes !! ii;
  ts ← tileSize !! ii;
  if bool_decide (ii < MAX_COMPRESS_DIM)%nat then
    len ← long_result (t_maxtilelen t * ts);
    c ← tiles_along n ts;
    prod ← long_result (ntiles t * c);
    Some {| t_znaxis := <[ii := n]> (t_znaxis t);
            t_tilesize := <[ii := ts]> (t_tilesize t);
            t_maxtilelen := len;
            ntiles := C.to_int prod |}
  else None.

Fixpoint tiling_loop (naxes tileSize : list Z) (n : nat) (ii : nat) (t : tiling)
    : option tiling :=
  match n with
  | O => Some t
  | S n' => t' ← tiling_step naxes tileSize ii t; tiling_loop naxes tileSize n' (S ii) t'
  end.

(** The tiling set-up of [compression_compressData]: [maxtilelen = 1],
    both arrays filled with 1, [ntiles = 1], then the loop over the
    [naxis] axes. *)
Definition compressData_tiling (naxis : Z) (naxes tileSize : list Z) : option tiling :=
  let t0 := {| t_znaxis := replicate MAX_COMPRESS_DIM 1;
               t_tilesize := replicate MAX_COMPRESS_DIM 1;
               t_maxtilelen := 1;
               ntiles := 1 |} in
  tiling_loop naxes tileSize (Z.to_nat naxis) 0 t0.

(** ** A model of the CFITSIO routines *)

Module CfitsioModel.

Definition BAD_TFORM : Z := 261.
Definition BAD_TFORM_DTYPE : Z := 262.

Definition is_digit (c : ascii) : bool :=
  let n := nat_of_ascii c in (48 <=? n)%nat && (n <=? 57)%nat.

Definition digit_value (c : ascii) : Z := Z.of_nat (nat_of_ascii c) - 48.

(** The leading decimal number of [l], if it starts with a digit, and
    what follows it. *)
Fixpoint read_number (l : list ascii) (acc : option Z) : option Z * list ascii :=
  match l with
  | c :: rest =>
      if is_digit c
      then read_number rest (Some (10 * default 0 acc + digit_value c))
      else (acc, l)
  | [] => (acc, l)
  end.

(** Modelled from the spec: the type letters of a TFORM value
    (logical, bit, byte, 16/32/64-bit integer, 32/64-bit float, single
    and double complex), with CFITSIO's type code and the element
    width in bytes. *)
Definition type_letter (c : ascii) : option (Z * Z) :=
  if Ascii.eqb c "L" then Some (14, 1)        (* logical *)
  else if Ascii.eqb c "X" then Some (1, 1)    (* bit *)
  else if Ascii.eqb c "B" then Some (11, 1)   (* byte *)
  else if Ascii.eqb c "I" then Some (21, 2)   (* 16-bit integer *)
  else if Ascii.eqb c "J" then Some (41, 4)   (* 32-bit integer *)
  else if Ascii.eqb c "K" then Some (81, 8)   (* 64-bit integer *)
  else if Ascii.eqb c "E" then Some (42, 4)   (* 32-bit float *)
  else if Ascii.eqb c "D" then Some (82, 8)   (* 64-bit float *)
  else if Ascii.eqb c "C" then Some (83, 8)   (* single complex *)
  else if Ascii.eqb c "M" then Some (163, 16) (* double complex *)
  else None.

(** Modelled from the spec: the format mini-parser.  A format is
    [[repeat]<type-letter>[width]]; the repeat count is 1 when absent;
    the result is type code, repeat count and width, and [None] for an
    empty format or one with no recognised type letter.  The letter P
    introduces an array descriptor, whose code is the element type's,
    negated; A is a character column, whose width is the number after
    the letter, or the repeat count. *)
Definition parse_tform (tform : string) : option (Z * Z * Z) :=
  let '(rep, rest) := read_number (list_ascii_of_string tform) None in
  let repeat := default 1 rep in
  match rest with
  | [] => None
  | c :: rest' =>
      if Ascii.eqb c "P" then
        match rest' with
        | e :: _ => '(code, width) ← type_letter e; Some (- code, repeat, width)
        | [] => None
        end
      else if Ascii.eqb c "A" then
        Some (16, repeat, default repeat (read_number rest' None).1)
      else '(code, width) ← type_letter c; Some (code, repeat, width)
  end.

(** Modelled from the spec: [fits_binary_tform], the format-string
    parser of the column descriptor builder, which CFITSIO's [fitsio.h]
    declares and this module only calls.  Like every CFITSIO routine it
    does nothing when entered with a positive status; on a format it
    cannot parse it sets the status and leaves the three outputs as
    they were. *)
Definition binary_tform (tform : string) (vars : tform_vars) : tform_vars :=
  if bool_decide (status vars > 0) then vars
  else
    match parse_tform tform with
    | Some (code, repeat, width) =>
        {| dtcode := code; v_trepeat := repeat; v_twidth := width;
           status := status vars |}
    | None =>
        {| dtcode := dtcode vars; v_trepeat := v_trepeat vars;
           v_twidth := v_twidth vars;
           status := if bool_decide (tform = "") then BAD_TFORM else BAD_TFORM_DTYPE |}
    end.

(** Modelled from the spec: [imcomp_calc_max_elem], declared in
    [fitsio2.h]; the spec leaves the codecs and their buffers a black
    box.  It is given the bound CFITSIO documents for a compressed
    tile, so that examples can run; no property depends on its
    value. *)
Definition calc_max_elem (comptype nx zbitpix blocksize : Z) : Z :=
  if bool_decide (comptype = RICE_1) then
    (if bool_decide (zbitpix = 16) then 2 else 4) * nx + Z.quot nx blocksize + 2 + 4
  else 4 * nx.

#[global] Instance model : Cfitsio :=
  {| fits_binary_tform := binary_tform; imcomp_calc_max_elem := calc_max_elem |}.

End CfitsioModel.

(** ** Reading the specification's words *)

(** A failed lookup: the key is missing, or the object is no mapping. *)
Definition lookup_fails (header : PyObject) (key : string) : Prop :=
  ∃ e, getitem header key = inr e.

(** [m] makes exactly one item lookup, of [key], when run from [st]. *)
Definition one_lookup {A} (m : M A) (key : string) (st : PyState) : Prop :=
  ∃ v st', m st = Some (v, st') ∧ py_getitem st' = py_getitem st ++ [key].

(** The state a getter leaves behind when the lookup fails: the lookup is
    logged and the error indicator is clear; nothing else differs. *)
Definition after_failed_lookup (key : string) (st : PyState) : PyState :=
  set_err None (log_getitem key st).

(** An interpreter with no error pending, no live block and memory to
    give. *)
Definition clean_state : PyState :=
  {| py_err := None; py_getitem := []; py_mem := ∅; py_oom := false; buf_reads := 0 |}.

Definition empty_header : PyObject := PyHeader ∅.

(** [ceil (n / t)] for a positive [t]. *)
Definition ceil_div (n t : Z) : Z := - ((- n) / t).

Definition product (l : list Z) : Z := foldr Z.mul 1 l.

(** The product over the axes of [ceil (image_extent / tile_extent)]. *)
Definition tile_count (naxes tileSize : list Z) : Z :=
  product (zip_with ceil_div naxes tileSize).

(** A value of C type [long] that is at least 1. *)
Definition extent (z : Z) : Prop := 1 ≤ z ≤ C.LONG_MAX.

(** The tag a header carries under ZCMPTYPE selects this codec by exact
    match, COMPRESS_NONE when it is none of the four. *)
Definition codec_of_tag (tag : string) : Z :=
  if String.eqb tag "RICE_1" then RICE_1
  else if String.eqb tag "GZIP_1" then GZIP_1
  else if String.eqb tag "HCOMPRESS_1" then HCOMPRESS_1
  else if String.eqb tag "PLIO_1" then PLIO_1
  else COMPRESS_NONE.

Definition header_gzip : PyObject :=
  PyHeader {[ "ZCMPTYPE" := PyStr "GZIP_1" ]}.

(** A 65536 x 65536 image cut into tiles of one pixel. *)
Definition huge_naxes : list Z := [65536; 65536].
Definition pixel_tiles : list Z := [1; 1].

(** The object converts to a C [long]. *)
Definition converts (o : PyObject) : Prop := ∃ z, long_of o = inl z.

(** What [PyLong_AsLong] returns for the object. *)
Definition long_value (o : PyObject) : Z :=
  match long_of o with
  | inl z => z
  | inr _ => -1
  end.

(** The error indicator after converting the items in turn, from [e]. *)
Definition err_after (items : list PyObject) (e : option PyExc) : option PyExc :=
  foldl (λ e x, match long_of x with inl _ => e | inr ex => Some ex end) e items.

Definition oom_state : PyState :=
  {| py_err := None; py_getitem := []; py_mem := ∅; py_oom := true; buf_reads := 0 |}.

Definition pending_state : PyState :=
  {| py_err := Some PyExc_KeyError; py_getitem := []; py_mem := ∅;
     py_oom := false; buf_reads := 0 |}.

(** A list of 2^31 zeros. *)
Definition oversize_list : list PyObject := replicate (Z.to_nat 2147483648) (PyInt 0).

(** The integer a header gives for a keyword as [PyLong_AsLong] reads it,
    [def] when the lookup fails. *)
Definition header_long (header : PyObject) (key : string) (def : Z) : Z :=
  match getitem header key with
  | inl v => long_value v
  | inr _ => def
  end.

(** The [char*] a header gives for a keyword, [def] when the lookup
    fails, NULL when the value is no string. *)
Definition header_string (header : PyObject) (key : string) (def : string)
    : option string :=
  match getitem header key with
  | inl (PyStr s) => Some s
  | inl _ => None
  | inr _ => Some def
  end.

(** The keyword is absent or holds a string. *)
Definition string_valued (header : PyObject) (key : string) : Prop :=
  is_Some (header_string header key "").

(** The first [n] chars of [s]. *)
Definition truncate (n : nat) (s : string) : string :=
  string_of_list_ascii (take n (list_ascii_of_string s)).

(** The FITS keyword [name] followed by the decimal index [n], as in
    TTYPE12. *)
Definition keyword (name : string) (n : Z) : string := name +:+ pretty (Z.to_N n).

(** The name and format of a column as the specification wants them
    stored, [kt] and [kf] being its TTYPE and TFORM keywords: the header's
    values (the empty string when absent) cut to 69 and 9 chars, in
    arrays of 70 and 10 chars that end in a NUL. *)
Definition column_strings_ok (header : PyObject) (kt kf : string) (col : tcolumn) : Prop :=
  ∃ name form,
    header_string header kt "" = Some name ∧
    header_string header kf "" = Some form ∧
    length (ttype col) = 70%nat ∧ ttype col !! 69%nat = Some NUL ∧
    C.c_str (ttype col) = truncate 69 (C.c_str_of name) ∧
    (String.length (C.c_str (ttype col)) ≤ 69)%nat ∧
    length (tform col) = 10%nat ∧ tform col !! 9%nat = Some NUL ∧
    C.c_str (tform col) = truncate 9 (C.c_str_of form) ∧
    (String.length (C.c_str (tform col)) ≤ 9)%nat.

(** The names and formats of columns [1] to [n] are strings or absent. *)
Definition columns_string_valued (header : PyObject) (n : Z) : Prop :=
  ∀ idx, 1 ≤ idx ≤ n →
    string_valued header (keyword "TTYPE" idx) ∧
    string_valued header (keyword "TFORM" idx).

(** The largest column count a FITS table can declare: a keyword has 8
    chars. *)
Definition MAX_TFIELDS : Z := 999.

(** ** Sample HDUs *)

(** A table of 100 rows of 100 bytes that declares a heap of 5000 bytes,
    over a data buffer of 100 bytes. *)
Definition hdu_heap_past_buffer : PyHDU :=
  {| hdu_header := PyHeader {[ "NAXIS1" := PyInt 100; "NAXIS2" := PyInt 100;
                               "PCOUNT" := PyInt 5000 ]};
     hdu_data := replicate 100 Byte.x00;
     hdu_file := PyNone |}.

(** A table that declares 2^32 rows of 2^32 bytes. *)
Definition hdu_huge_table : PyHDU :=
  {| hdu_header := PyHeader {[ "NAXIS1" := PyInt 4294967296;
                               "NAXIS2" := PyInt 4294967296 ]};
     hdu_data := [];
     hdu_file := PyNone |}.

(** Ten bytes of data under a header with no table keywords. *)
Definition hdu_small : PyHDU :=
  {| hdu_header := empty_header; hdu_data := replicate 10 Byte.x00; hdu_file := PyNone |}.

(** One column whose format has the type letter Z, which is no
    binary-table type. *)
Definition header_bad_tform : PyObject :=
  PyHeader {[ "TFIELDS" := PyInt 1; "TTYPE1" := PyStr "COMPRESSED_DATA";
              "TFORM1" := PyStr "1Z" ]}.

(** One column whose name has 75 chars and whose format has 12. *)
Definition header_long_strings : PyObject :=
  PyHeader {[ "TFIELDS" := PyInt 1;
              "TTYPE1" := PyStr "COMPRESSED_DATA_OF_A_VERY_LONG_COLUMN_NAME_THAT_RUNS_PAST_THE_FIELD_WIDTH__";
              "TFORM1" := PyStr "1PB(1200000)" ]}.

(** Every run of [m] leaves the count of buffer reads as it was. *)
Definition reads_nothing {A} (m : M A) : Prop :=
  ∀ st a st', m st = Some (a, st') → buf_reads st' = buf_reads st.

(** A program that reads the buffer is told apart: the count goes up. *)
Definition first_byte (hdu : PyHDU) : M Byte.byte := PyArray_GETBYTE (hdu_data hdu) 0.

(** ** What a getter returns and leaves, by the error it is entered with *)

(** The value a lookup finds when it is entered with the error indicator
    at [e]: none while an exception is pending. *)
Definition found (e : option PyExc) (header : PyObject) (key : string)
    : option PyObject :=
  match e, getitem header key with
  | None, inl v => Some v
  | _, _ => None
  end.

(** What the three conversions return for the value found, the default
    when there is none, and the exception they leave. *)
Definition long_read (v : option PyObject) (def : Z) : Z :=
  match v with
  | Some v => long_value v
  | None => def
  end.

Definition long_error (v : option PyObject) : option PyExc :=
  match v with
  | Some v => match long_of v with inl _ => None | inr ex => Some ex end
  | None => None
  end.

Definition double_read (v : option PyObject) (def : float) : float :=
  match v with
  | Some (PyInt z) =>
      if PrimFloat.is_infinity (double_of_Z z) then (-1)%float else double_of_Z z
  | Some _ => (-1)%float
  | None => def
  end.

Definition double_error (v : option PyObject) : option PyExc :=
  match v with
  | Some (PyInt z) =>
      if PrimFloat.is_infinity (double_of_Z z) then Some PyExc_OverflowError else None
  | Some _ => Some PyExc_TypeError
  | None => None
  end.

Definition string_read (v : option PyObject) (def : string) : option string :=
  match v with
  | Some (PyStr s) => Some s
  | Some _ => None
  | None => Some def
  end.

Definition string_error (v : option PyObject) : option PyExc :=
  match v with
  | Some (PyStr _) => None
  | Some _ => Some PyExc_TypeError
  | None => None
  end.

(** The state after the lookups [keys] and whatever else set the error
    indicator to [e]. *)
Definition after_lookups (keys : list string) (e : option PyExc) (st : PyState) : PyState :=
  {| py_err := e; py_getitem := py_getitem st ++ keys; py_mem := py_mem st;
     py_oom := py_oom st; buf_reads := buf_reads st |}.

(** The six keywords [tcolumns_from_header] looks up for column [idx],
    in the order of the lookups. *)
Definition column_keys (idx : Z) : list string :=
  [snprintf_tkw "TTYPE" idx; snprintf_tkw "TBCOL" idx; snprintf_tkw "TFORM" idx;
   snprintf_tkw "TSCAL" idx; snprintf_tkw "TZERO" idx; snprintf_tkw "TNULL" idx].

(** The keywords of [n] columns, from column [idx] on. *)
Definition columns_keys (idx : Z) (n : nat) : list string :=
  concat (column_keys <$> seqZ idx (Z.of_nat n)).

(** The values the lookups of TSCALn, TZEROn and TNULLn find: a lookup
    that follows a failed conversion finds nothing. *)
Definition tscal_found (header : PyObject) (idx : Z) : option PyObject :=
  found None header (snprintf_tkw "TSCAL" idx).

Definition tzero_found (header : PyObject) (idx : Z) : option PyObject :=
  found (double_error (tscal_found header idx)) header (snprintf_tkw "TZERO" idx).

Definition tnull_found (header : PyObject) (idx : Z) : option PyObject :=
  found (double_error (tzero_found header idx)) header (snprintf_tkw "TNULL" idx).

(** The exception pending after the turn of the loop for column [idx]:
    that of its last conversion. *)
Definition column_err (header : PyObject) (idx : Z) : option PyExc :=
  long_error (tnull_found header idx).

(** The exception pending after [n] turns from column [idx] on, entered
    with [e]. *)
Definition columns_err (e : option PyExc) (header : PyObject) (idx : Z) (n : nat)
    : option PyExc :=
  match n with
  | O => e
  | S n' => column_err header (idx + Z.of_nat n')
  end.

Section ColumnValue.
Context `{Cfitsio}.

(** The descriptor one turn of the loop builds for column [idx], with
    the locals after it, when the turn is entered with the error
    indicator at [e] and the locals [vars]; [None] when a name or a
    format is no string. *)
Definition column_value (header : PyObject) (idx : Z) (vars : tform_vars)
    (e : option PyExc) : option (tcolumn * tform_vars) :=
  name ← string_read (found e header (snprintf_tkw "TTYPE" idx)) "";
  let bcol := found None header (snprintf_tkw "TBCOL" idx) in
  form ← string_read (found (long_error bcol) header (snprintf_tkw "TFORM" idx)) "";
  let vars' := fits_binary_tform (C.c_str_of form) vars in
  Some ({| ttype := <[69%nat := NUL]> (C.strncpy (<[0%nat := NUL]> (replicate 70 NUL)) name 69);
           tbcol := C.to_longlong (C.to_ulonglong (long_read bcol 0));
           tdatatype := dtcode vars';
           trepeat := C.to_longlong (v_trepeat vars');
           tscale := double_read (tscal_found header idx) 1%float;
           tzero := double_read (tzero_found header idx) 0%float;
           tnull := C.to_longlong
                      (C.to_ulonglong (long_read (tnull_found header idx) NULL_UNDEFINED));
           strnull := "";
           tform := <[9%nat := NUL]> (C.strncpy (<[0%nat := NUL]> (replicate 10 NUL)) form 9);
           twidth := v_twidth vars' |}, vars').

Fixpoint columns_value (header : PyObject) (n : nat) (idx : Z) (vars : tform_vars)
    (e : option PyExc) : option (list tcolumn) :=
  match n with
  | O => Some []
  | S n' =>
      '(col, vars') ← column_value header idx vars e;
      rest ← columns_value header n' (idx + 1) vars' (column_err header idx);
      Some (col :: rest)
  end.

End ColumnValue.

(** The six keywords of column [idx], as FITS writes them. *)
Definition column_keywords (idx : Z) : list string :=
  [keyword "TTYPE" idx; keyword "TBCOL" idx; keyword "TFORM" idx;
   keyword "TSCAL" idx; keyword "TZERO" idx; keyword "TNULL" idx].

(** The keywords a table of [n] columns is described by, in the order
    [tcolumns_from_header] looks them up. *)
Definition table_keywords (n : Z) : list string :=
  "TFIELDS" :: concat (column_keywords <$> seqZ 1 n).

(** The keyword is absent or holds an integer in the range of a C
    [long]. *)
Definition integer_valued (header : PyObject) (key : string) : Prop :=
  match getitem header key with
  | inl v => converts v
  | inr _ => True
  end.

(** The TBCOLn and TNULLn values of columns [1] to [n] are integers or
    absent. *)
Definition columns_integer_valued (header : PyObject) (n : Z) : Prop :=
  ∀ idx, 1 ≤ idx ≤ n →
    integer_valued header (keyword "TBCOL" idx) ∧
    integer_valued header (keyword "TNULL" idx).

(** A table that declares 1000 columns and names two of them. *)
Definition header_1000_columns : PyObject :=
  PyHeader {[ "TFIELDS" := PyInt 1000; "TTYPE100" := PyStr "HUNDRED";
              "TTYPE1000" := PyStr "THOUSAND" ]}.

(** One column whose TBCOL1 holds text. *)
Definition header_text_tbcol : PyObject :=
  PyHeader {[ "TFIELDS" := PyInt 1; "TBCOL1" := PyStr "x"; "TFORM1" := PyStr "1PB" ]}.

(** A heap size of -1 over no data. *)
Definition hdu_negative_pcount : PyHDU :=
  {| hdu_header := PyHeader {[ "PCOUNT" := PyInt (-1) ]};
     hdu_data := [];
     hdu_file := PyNone |}.


(** ** Further reading aids: what the getters return and log *)

(** A header that holds an integer, a string and a float. *)
Definition header_mixed : PyObject :=
  PyHeader {[ "NAXIS1" := PyInt (-8); "TTYPE1" := PyStr "FLUX";
              "TSCAL1" := PyFloat 2.5%float; "TZERO1" := PyInt 32768 ]}.

(** No NUL among the chars of the string. *)
Definition nul_free (s : string) : Prop := Forall (λ c, c ≠ NUL) (list_ascii_of_string s).



(** The name and format of column [idx] are stored whole when they are
    short enough. *)
Definition column_strings_kept (header : PyObject) (idx : Z) (col : tcolumn) : Prop :=
  (∀ name, getitem header (keyword "TTYPE" idx) = inl (PyStr name) →
     nul_free name → (String.length name ≤ 69)%nat → C.c_str (ttype col) = name) ∧
  (∀ form, getitem header (keyword "TFORM" idx) = inl (PyStr form) →
     nul_free form → (String.length form ≤ 9)%nat → C.c_str (tform col) = form) ∧
  (lookup_fails header (keyword "TTYPE" idx) → C.c_str (ttype col) = "") ∧
  (lookup_fails header (keyword "TFORM" idx) → C.c_str (tform col) = "").



(** A table of two columns, the second with a null value and a scale. *)
Definition header_two_columns : PyObject :=
  PyHeader {[ "TFIELDS" := PyInt 2; "NAXIS1" := PyInt 16; "NAXIS2" := PyInt 300;
              "PCOUNT" := PyInt 4000;
              "TTYPE1" := PyStr "COMPRESSED_DATA"; "TFORM1" := PyStr "1PB(440)";
              "TTYPE2" := PyStr "ZSCALE"; "TFORM2" := PyStr "1D";
              "TNULL2" := PyInt (-32768); "TSCAL2" := PyInt 2 ]}.

Definition hdu_two_columns : PyHDU :=
  {| hdu_header := header_two_columns; hdu_data := replicate 4800 Byte.x00;
     hdu_file := PyNone |}.

(** A header whose column count is negative. *)
Definition header_negative_tfields : PyObject :=
  PyHeader {[ "TFIELDS" := PyInt (-1) ]}.

(** The codec and its parameters as [select_codec] sets them, when it
    reads no array element that is not there: the code of the tag; for
    RICE_1 the block size and the bytes per pixel from the first and
    second ZVAL, 32 and 4 otherwise; for HCOMPRESS_1 the smoothing flag
    from the second ZVAL, 0 otherwise. *)
Definition codec_params (tag : string) (zval : list Z) : Z * Z * Z * Z :=
  (codec_of_tag tag,
   if String.eqb tag "RICE_1" then default 32 (C.to_int <$> zval !! 0%nat) else 32,
   if String.eqb tag "RICE_1" then default 4 (C.to_int <$> zval !! 1%nat) else 4,
   if String.eqb tag "HCOMPRESS_1" then default 0 (C.to_int <$> zval !! 1%nat) else 0).

(** The loop of [compression_compressData] cannot get past axis [i]: an
    array has no element there, or the tile extent there is 0. *)
Definition axis_breaks (naxes tileSize : list Z) (i : nat) : Prop :=
  naxes !! i = None ∨ tileSize !! i = None ∨ tileSize !! i = Some 0 ∨
  (MAX_COMPRESS_DIM ≤ i)%nat.

(** ** The heap of the list-based wrappers

    [compression_compressData] and [compression_decompressData] (both
    commented out in the source) allocate arrays of [double], [float],
    [int] and pointers besides the arrays of [long] of [get_long_array].
    These live in a second heap, [xs_heap]; a pointer's C type says which
    heap it points into. *)

(** A block of this heap.  An [int] or a pointer of a [void**] array is
    [None] until it is first written: [PyMem_Malloc] does not clear what
    it hands out.  A written pointer is [Some None] when it is NULL.  An
    element of an [unsigned char**] array is the string whose buffer it
    points to, [None] for NULL. *)
Inductive xblock : Type :=
| Doubles (a : list float)                     (* double* *)
| Floats (a : list spec_float)                 (* float*, binary32 values *)
| Ints (a : list (option Z))                   (* int* *)
| Strings (a : list (option string))           (* unsigned char**, into Python strings *)
| Pointers (a : list (option (option nat))).   (* void** *)

Record XState : Type := {
  xs_py : PyState;
  xs_heap : gmap nat xblock
}.

Definition set_py (py : PyState) (st : XState) : XState :=
  {| xs_py := py; xs_heap := xs_heap st |}.

Definition set_heap (h : gmap nat xblock) (st : XState) : XState :=
  {| xs_py := xs_py st; xs_heap := h |}.

Definition MX (A : Type) : Type := XState → option (A * XState).

Definition xret {A} (a : A) : MX A := λ st, Some (a, st).

Definition xbind {A B} (m : MX A) (k : A → MX B) : MX B :=
  λ st, match m st with
        | Some (a, st') => k a st'
        | None => None
        end.

Definition xcrash {A} : MX A := λ _, None.

Notation "'let+' x ':=' c 'in' k" := (xbind c (λ x, k))
  (at level 10, x name, c at level 100, k at level 200).
Notation "'let+' ' p ':=' c 'in' k" := (xbind c (λ p, k))
  (at level 10, p pattern, c at level 100, k at level 200).
Notation "'run+' c 'then' k" := (xbind c (λ _, k))
  (at level 10, c at level 100, k at level 200).

(** A call that only touches the Python state. *)
Definition lift {A} (m : M A) : MX A :=
  λ st, match m (xs_py st) with
        | Some (a, py) => Some (a, set_py py st)
        | None => None
        end.

Definition PY_SSIZE_T_MAX : Z := 2 ^ 63 - 1.

(** [PyMem_Malloc(nbytes)] for a block of this heap: NULL for a request
    above [PY_SSIZE_T_MAX] and when the allocator has nothing left. *)
Definition xmalloc (nbytes : Z) (init : xblock) : MX (option nat) :=
  λ st, if bool_decide (PY_SSIZE_T_MAX < nbytes) || py_oom (xs_py st)
        then Some (None, st)
        else let p := fresh (dom (xs_heap st)) in
             Some (Some p, set_heap (<[p := init]> (xs_heap st)) st).

(** [PyMem_Free(p)]; nothing happens for NULL. *)
Definition xfree (p : option nat) : MX unit :=
  match p with
  | None => xret tt
  | Some p => λ st, Some (tt, set_heap (delete p (xs_heap st)) st)
  end.

Definition PyMem_Free_ptr (p : option nat) : M unit :=
  match p with
  | None => ret tt
  | Some p => PyMem_Free p
  end.

(** [out[i] = v] for the element types of this heap. *)
Definition poke_double (out : nat) (i : nat) (v : float) : MX unit :=
  λ st, match xs_heap st !! out with
        | Some (Doubles a) =>
            if bool_decide (i < length a)%nat
            then Some (tt, set_heap (<[out := Doubles (<[i := v]> a)]> (xs_heap st)) st)
            else None
        | _ => None
        end.

Definition poke_float (out : nat) (i : nat) (v : spec_float) : MX unit :=
  λ st, match xs_heap st !! out with
        | Some (Floats a) =>
            if bool_decide (i < length a)%nat
            then Some (tt, set_heap (<[out := Floats (<[i := v]> a)]> (xs_heap st)) st)
            else None
        | _ => None
        end.

Definition poke_int (out : nat) (i : nat) (v : Z) : MX unit :=
  λ st, match xs_heap st !! out with
        | Some (Ints a) =>
            if bool_decide (i < length a)%nat
            then Some (tt, set_heap (<[out := Ints (<[i := Some v]> a)]> (xs_heap st)) st)
            else None
        | _ => None
        end.

Definition poke_ptr (out : nat) (i : nat) (v : option nat) : MX unit :=
  λ st, match xs_heap st !! out with
        | Some (Pointers a) =>
            if bool_decide (i < length a)%nat
            then Some (tt, set_heap (<[out := Pointers (<[i := Some v]> a)]> (xs_heap st)) st)
            else None
        | _ => None
        end.

(** The pointer [arr[i]]: undefined through NULL, out of bounds, and for
    an element that was never written (the value of an object allocated
    by [malloc] is used). *)
Definition peek_ptr (arr : option nat) (i : nat) : MX (option nat) :=
  λ st, match arr with
        | Some p =>
            match xs_heap st !! p with
            | Some (Pointers a) =>
                match a !! i with
                | Some (Some v) => Some (v, st)
                | _ => None
                end
            | _ => None
            end
        | None => None
        end.

(** The C [double] an object converts to through [PyFloat_AsDouble], or
    the exception the conversion raises: a float gives its value, an
    integer the nearest double ([OverflowError] when that is no finite
    double), and an object of another type a [TypeError]. *)
Definition double_of (o : PyObject) : float + PyExc :=
  match o with
  | PyFloat f => inl f
  | PyInt z =>
      let d := double_of_Z z in
      if PrimFloat.is_infinity d then inr PyExc_OverflowError else inl d
  | _ => inr PyExc_TypeError
  end.

(** [PyFloat_AsDouble]: -1.0 with the error indicator set when the
    conversion fails. *)
Definition PyFloat_AsDouble (o : PyObject) : M float :=
  match double_of o with
  | inl d => ret d
  | inr e => run PyErr_Set e then ret (-1)%float
  end.

(** The conversion of a [double] to [float]: rounding to the nearest
    binary32 value, to an infinity beyond its range (IEC 60559, as gcc
    and clang do). *)
Definition float_of_double (d : float) : spec_float :=
  match Prim2SF d with
  | S754_finite s m e => binary_round 24 128 s m e
  | x => x
  end.

(** The loops [for (i = 0; i < size; i++) out[i] = PyFloat_AsDouble(
    PyList_GetItem(data, i))] of the two functions. *)
Fixpoint fill_doubles (out : nat) (items : list PyObject) (i : nat) : MX unit :=
  match items with
  | [] => xret tt
  | x :: rest =>
      let+ v := lift (PyFloat_AsDouble x) in
      run+ poke_double out i v then
      fill_doubles out rest (S i)
  end.

Fixpoint fill_floats (out : nat) (items : list PyObject) (i : nat) : MX unit :=
  match items with
  | [] => xret tt
  | x :: rest =>
      let+ v := lift (PyFloat_AsDouble x) in
      run+ poke_float out i (float_of_double v) then
      fill_floats out rest (S i)
  end.

(** [get_float_array(data, description, data_size)], with the result and
    the value stored through [data_size] as for [get_long_array]. *)
Definition get_float_array (data : PyObject) (data_size : bool)
    : MX (option nat * option Z) :=
  match data with
  | PyList items =>
      let size := C.to_int (Z.of_nat (length items)) in
      if bool_decide (size < 0) then
        run+ lift (PyErr_Set PyExc_ValueError) then xret (None, None)
      else
        let written := if data_size then Some size else None in
        let+ out := xmalloc (C.to_size_t (size * 4))
                      (Floats (replicate (Z.to_nat size) (S754_zero false))) in
        match out with
        | None => run+ lift PyErr_NoMemory then xret (None, written)
        | Some p =>
            run+ fill_floats p (take (Z.to_nat size) items) 0 then
            let+ failed := lift PyErr_Occurred in
            if failed then run+ xfree (Some p) then xret (None, written)
            else xret (Some p, written)
        end
  | _ => run+ lift (PyErr_Set PyExc_TypeError) then xret (None, None)
  end.

(** [get_double_array(data, description, data_size)]. *)
Definition get_double_array (data : PyObject) (data_size : bool)
    : MX (option nat * option Z) :=
  match data with
  | PyList items =>
      let size := C.to_int (Z.of_nat (length items)) in
      if bool_decide (size < 0) then
        run+ lift (PyErr_Set PyExc_ValueError) then xret (None, None)
      else
        let written := if data_size then Some size else None in
        let+ out := xmalloc (C.to_size_t (size * 8))
                      (Doubles (replicate (Z.to_nat size) 0%float)) in
        match out with
        | None => run+ lift PyErr_NoMemory then xret (None, written)
        | Some p =>
            run+ fill_doubles p (take (Z.to_nat size) items) 0 then
            let+ failed := lift PyErr_Occurred in
            if failed then run+ xfree (Some p) then xret (None, written)
            else xret (Some p, written)
        end
  | _ => run+ lift (PyErr_Set PyExc_TypeError) then xret (None, None)
  end.

(** ** The argument stage of the list-based wrappers *)

(** Image types and data type codes of [fitsio.h]. *)
Definition BYTE_IMG : Z := 8.
Definition SHORT_IMG : Z := 16.
Definition LONG_IMG : Z := 32.
Definition LONGLONG_IMG : Z := 64.
Definition FLOAT_IMG : Z := -32.
Definition DOUBLE_IMG : Z := -64.

Definition TBYTE : Z := 11.
Definition TSHORT : Z := 21.
Definition TINT : Z := 31.
Definition TFLOAT : Z := 42.
Definition TLONGLONG : Z := 81.
Definition TDOUBLE : Z := 82.

(** The pointers and counts among the local variables of
    [compression_decompressData], with their initial values. *)
Record decompress_locals : Type := {
  d_naxes : option nat;                 (* long*, = 0 *)
  d_tileSize : option nat;              (* long*, = 0 *)
  d_zval : option nat;                  (* long*, = 0 *)
  d_numzVals : option Z;                (* int, not initialised *)
  d_nUcTiles : Z;                       (* int, = 0 *)
  d_uncompressedData : option nat;      (* void**, = 0 *)
  d_numUncompressedVals : option nat;   (* int*, = 0 *)
  d_datatype : option Z                 (* int, not initialised *)
}.

Definition decompress_locals0 : decompress_locals :=
  {| d_naxes := None; d_tileSize := None; d_zval := None; d_numzVals := None;
     d_nUcTiles := 0; d_uncompressedData := None; d_numUncompressedVals := None;
     d_datatype := None |}.

Definition set_naxes (p : option nat) (l : decompress_locals) : decompress_locals :=
  {| d_naxes := p; d_tileSize := d_tileSize l; d_zval := d_zval l;
     d_numzVals := d_numzVals l; d_nUcTiles := d_nUcTiles l;
     d_uncompressedData := d_uncompressedData l;
     d_numUncompressedVals := d_numUncompressedVals l; d_datatype := d_datatype l |}.

Definition set_tileSize (p : option nat) (l : decompress_locals) : decompress_locals :=
  {| d_naxes := d_naxes l; d_tileSize := p; d_zval := d_zval l;
     d_numzVals := d_numzVals l; d_nUcTiles := d_nUcTiles l;
     d_uncompressedData := d_uncompressedData l;
     d_numUncompressedVals := d_numUncompressedVals l; d_datatype := d_datatype l |}.

Definition set_zval (p : option nat) (n : option Z) (l : decompress_locals)
    : decompress_locals :=
  {| d_naxes := d_naxes l; d_tileSize := d_tileSize l; d_zval := p;
     d_numzVals := match n with Some _ => n | None => d_numzVals l end;
     d_nUcTiles := d_nUcTiles l;
     d_uncompressedData := d_uncompressedData l;
     d_numUncompressedVals := d_numUncompressedVals l; d_datatype := d_datatype l |}.

Definition set_datatype (t : Z) (l : decompress_locals) : decompress_locals :=
  {| d_naxes := d_naxes l; d_tileSize := d_tileSize l; d_zval := d_zval l;
     d_numzVals := d_numzVals l; d_nUcTiles := d_nUcTiles l;
     d_uncompressedData := d_uncompressedData l;
     d_numUncompressedVals := d_numUncompressedVals l; d_datatype := Some t |}.

Definition set_nUcTiles (n : Z) (l : decompress_locals) : decompress_locals :=
  {| d_naxes := d_naxes l; d_tileSize := d_tileSize l; d_zval := d_zval l;
     d_numzVals := d_numzVals l; d_nUcTiles := n;
     d_uncompressedData := d_uncompressedData l;
     d_numUncompressedVals := d_numUncompressedVals l; d_datatype := d_datatype l |}.

Definition set_uncompressedData (p : option nat) (l : decompress_locals)
    : decompress_locals :=
  {| d_naxes := d_naxes l; d_tileSize := d_tileSize l; d_zval := d_zval l;
     d_numzVals := d_numzVals l; d_nUcTiles := d_nUcTiles l;
     d_uncompressedData := p;
     d_numUncompressedVals := d_numUncompressedVals l; d_datatype := d_datatype l |}.

Definition set_numUncompressedVals (p : option nat) (l : decompress_locals)
    : decompress_locals :=
  {| d_naxes := d_naxes l; d_tileSize := d_tileSize l; d_zval := d_zval l;
     d_numzVals := d_numzVals l; d_nUcTiles := d_nUcTiles l;
     d_uncompressedData := d_uncompressedData l;
     d_numUncompressedVals := p; d_datatype := d_datatype l |}.

(** Where the argument stage of [compression_decompressData] leaves:
    [goto error], [return NULL], or on to the set-up of the file
    parameters. *)
Inductive flow : Type :=
| Goto_error (l : decompress_locals)
| Return_NULL
| Fall_through (l : decompress_locals).

(** The three calls of [get_long_array] at the head of
    [compression_decompressData]; [inr] is [goto error]. *)
Definition decompressData_arrays (naxesObj tileSizeObj zvalObj : PyObject)
    : M (decompress_locals + decompress_locals) :=
  let l := decompress_locals0 in
  let* ' (naxes, _) := get_long_array naxesObj false in
  let l := set_naxes naxes l in
  match naxes with
  | None => ret (inr l)
  | Some _ =>
      let* ' (tileSize, _) := get_long_array tileSizeObj false in
      let l := set_tileSize tileSize l in
      match tileSize with
      | None => ret (inr l)
      | Some _ =>
          let* ' (zval, numzVals) := get_long_array zvalObj true in
          let l := set_zval zval numzVals l in
          match zval with
          | None => ret (inr l)
          | Some _ => ret (inl l)
          end
      end
  end.

Section Tiles.

(** [get_float_array] or [get_double_array]. *)
Variable get_array : PyObject → bool → MX (option nat * option Z).

(** The loop [for (i = 0; i < nUcTiles; i++)] over the tiles from [i]
    on: the callee stores the tile's size in [numUncompressedVals[i]],
    its result goes to [uncompressedData[i]].  [true] is [goto error]. *)
Fixpoint load_tiles_loop (ud nv : nat) (tiles : list PyObject) (i : nat) : MX bool :=
  match tiles with
  | [] => xret false
  | x :: rest =>
      let+ ' (p, size) := get_array x true in
      run+ match size with
           | Some n => poke_int nv i n
           | None => xret tt
           end then
      run+ poke_ptr ud i p then
      match p with
      | None => xret true
      | Some _ => load_tiles_loop ud nv rest (S i)
      end
  end.

(** The body of [if (cn_uncompressed == 1)] in the cases [FLOAT_IMG] and
    [DOUBLE_IMG]; a pointer takes 8 bytes and an [int] 4. *)
Definition load_tiles (tiles : list PyObject) (l : decompress_locals) : MX flow :=
  let nUcTiles := C.to_int (Z.of_nat (length tiles)) in
  let l := set_nUcTiles nUcTiles l in
  let+ ud := xmalloc (C.to_size_t (nUcTiles * 8))
               (Pointers (replicate (Z.to_nat nUcTiles) None)) in
  let l := set_uncompressedData ud l in
  match ud with
  | None => xret (Goto_error l)
  | Some ud' =>
      let+ nv := xmalloc (C.to_size_t (nUcTiles * 4))
                   (Ints (replicate (Z.to_nat nUcTiles) None)) in
      let l := set_numUncompressedVals nv l in
      match nv with
      | None => xret (Goto_error l)
      | Some nv' =>
          let+ failed := load_tiles_loop ud' nv' (take (Z.to_nat nUcTiles) tiles) 0 in
          if (failed : bool) then xret (Goto_error l) else xret (Fall_through l)
      end
  end.

End Tiles.

(** [compression_decompressData] from the first [get_long_array] to the
    end of [switch (bitpix)], after [PyArg_ParseTuple] has succeeded.
    [tiles] are the items of [uncompressedDataObj], which is taken to be
    a list. *)
Definition decompressData_arguments (naxesObj tileSizeObj zvalObj : PyObject)
    (bitpix cn_uncompressed : Z) (tiles : list PyObject) : MX flow :=
  let+ arrays := lift (decompressData_arrays naxesObj tileSizeObj zvalObj) in
  match arrays with
  | inr l => xret (Goto_error l)
  | inl l =>
      if bool_decide (bitpix = BYTE_IMG) then xret (Fall_through (set_datatype TBYTE l))
      else if bool_decide (bitpix = SHORT_IMG) then
        xret (Fall_through (set_datatype TSHORT l))
      else if bool_decide (bitpix = LONG_IMG) then
        xret (Fall_through (set_datatype TINT l))
      else if bool_decide (bitpix = LONGLONG_IMG) then
        xret (Fall_through (set_datatype TLONGLONG l))
      else if bool_decide (bitpix = FLOAT_IMG) then
        let l := set_datatype TFLOAT l in
        if bool_decide (cn_uncompressed = 1) then load_tiles get_float_array tiles l
        else xret (Fall_through l)
      else if bool_decide (bitpix = DOUBLE_IMG) then
        let l := set_datatype TDOUBLE l in
        if bool_decide (cn_uncompressed = 1) then load_tiles get_double_array tiles l
        else xret (Fall_through l)
      else
        run+ lift (PyErr_Set PyExc_ValueError) then xret Return_NULL
  end.

(** [for (i = 0; i < nUcTiles; i++) PyMem_Free(uncompressedData[i])],
    with [n] turns left. *)
Fixpoint free_tiles (ud : option nat) (n : nat) (i : nat) : MX unit :=
  match n with
  | O => xret tt
  | S n' =>
      let+ p := peek_ptr ud i in
      run+ xfree p then
      free_tiles ud n' (S i)
  end.

(** The code at the label [error] of [compression_decompressData], for
    the value [status] has there; the result is the function's ([None] is
    NULL, [Py_BuildValue("i", status)] a Python integer). *)
Definition decompressData_error (l : decompress_locals) (cn_uncompressed status : Z)
    : MX (option PyObject) :=
  run+ lift (PyMem_Free_ptr (d_naxes l)) then
  run+ lift (PyMem_Free_ptr (d_tileSize l)) then
  run+ lift (PyMem_Free_ptr (d_zval l)) then
  run+ (if bool_decide (cn_uncompressed = 1) then
          run+ free_tiles (d_uncompressedData l) (Z.to_nat (d_nUcTiles l)) 0 then
          run+ xfree (d_uncompressedData l) then
          xfree (d_numUncompressedVals l)
        else xret tt) then
  if bool_decide (status ≠ 0) then xret None else xret (Some (PyInt status)).

(** How a run of [compression_decompressData] ends that does not reach
    the set-up of the file parameters: [Some] of the function's result,
    [None] for a run that goes on to the set-up.  [status] is assigned
    only before the call of [fits_read_img], so that a run that jumps to
    [error] from the argument stage reads it uninitialised; [status] here
    is the indeterminate value it then has. *)
Definition decompressData_exit (cn_uncompressed status : Z) (fl : flow)
    : MX (option (option PyObject)) :=
  match fl with
  | Goto_error l =>
      let+ r := decompressData_error l cn_uncompressed status in xret (Some r)
  | Return_NULL => xret (Some None)
  | Fall_through _ => xret None
  end.

(** [compression_decompressData] up to the set-up of the file
    parameters, after [PyArg_ParseTuple] has succeeded. *)
Definition decompressData_early (naxesObj tileSizeObj zvalObj : PyObject)
    (bitpix cn_uncompressed : Z) (tiles : list PyObject) (status : Z)
    : MX (option (option PyObject)) :=
  let+ fl := decompressData_arguments naxesObj tileSizeObj zvalObj
               bitpix cn_uncompressed tiles in
  decompressData_exit cn_uncompressed status fl.

(** The image types [compression_compressData] accepts, with the data
    type code of each ([switch (bitpix)]). *)
Definition compress_datatype (bitpix : Z) : option Z :=
  if bool_decide (bitpix = BYTE_IMG) then Some TBYTE
  else if bool_decide (bitpix = SHORT_IMG) then Some TSHORT
  else if bool_decide (bitpix = LONG_IMG) then Some TINT
  else if bool_decide (bitpix = LONGLONG_IMG) then Some TLONGLONG
  else if bool_decide (bitpix = FLOAT_IMG) then Some TFLOAT
  else if bool_decide (bitpix = DOUBLE_IMG) then Some TDOUBLE
  else None.

(** The arrays [compression_compressData] frees on its way out. *)
Record compress_pointers : Type := {
  c_dataLen : option nat;      (* int* *)
  c_data : option nat;         (* unsigned char** *)
  c_cn_zscale : option nat;    (* double* *)
  c_cn_zzero : option nat;     (* double* *)
  c_ucData : option nat;       (* void** *)
  c_ucDataLen : option nat;    (* int* *)
  c_naxes : option nat;        (* long* *)
  c_tileSize : option nat;     (* long* *)
  c_zval : option nat          (* long* *)
}.

(** The head of the loop body of [compression_compressData]: the three
    calls of [get_long_array]; [inr] is [break].  The pointers of the
    file parameters were zeroed before the loop. *)
Definition compressData_arrays (naxesObj tileSizeObj zvalObj : PyObject)
    : M (compress_pointers * option Z + compress_pointers) :=
  let ptrs naxes tileSize zval :=
    {| c_dataLen := None; c_data := None; c_cn_zscale := None; c_cn_zzero := None;
       c_ucData := None; c_ucDataLen := None;
       c_naxes := naxes; c_tileSize := tileSize; c_zval := zval |} in
  let* ' (naxes, _) := get_long_array naxesObj false in
  match naxes with
  | None => ret (inr (ptrs None None None))
  | Some _ =>
      let* ' (tileSize, _) := get_long_array tileSizeObj false in
      match tileSize with
      | None => ret (inr (ptrs naxes None None))
      | Some _ =>
          let* ' (zval, numzVals) := get_long_array zvalObj true in
          match zval with
          | None => ret (inr (ptrs naxes tileSize None))
          | Some _ => ret (inl (ptrs naxes tileSize zval, numzVals))
          end
      end
  end.

(** [/* Free any allocated memory */] at the end of
    [compression_compressData]. *)
Definition compressData_free (p : compress_pointers) : MX unit :=
  run+ xfree (c_dataLen p) then
  run+ xfree (c_data p) then
  run+ xfree (c_cn_zscale p) then
  run+ xfree (c_cn_zzero p) then
  run+ xfree (c_ucData p) then
  run+ xfree (c_ucDataLen p) then
  run+ lift (PyMem_Free_ptr (c_naxes p)) then
  run+ lift (PyMem_Free_ptr (c_tileSize p)) then
  lift (PyMem_Free_ptr (c_zval p)).

(** Where the argument stage of [compression_compressData] leaves:
    [return NULL] (an image type that is not accepted, or a [break] with
    [loop == 0]), or on to the set-up of the file parameters with these
    arrays, [numzVals] and data type. *)
Inductive compress_flow : Type :=
| Compress_return_NULL
| Compress_set_up (p : compress_pointers) (numzVals : option Z) (datatype : Z).

(** [compression_compressData] from [switch (bitpix)] to the third call
    of [get_long_array], after [PyArg_ParseTuple] has succeeded, and from
    a [break] there to the [return]. *)
Definition compressData_arguments (naxesObj tileSizeObj zvalObj : PyObject) (bitpix : Z)
    : MX compress_flow :=
  match compress_datatype bitpix with
  | None => run+ lift (PyErr_Set PyExc_ValueError) then xret Compress_return_NULL
  | Some datatype =>
      let+ arrays := lift (compressData_arrays naxesObj tileSizeObj zvalObj) in
      match arrays with
      | inr p => run+ compressData_free p then xret Compress_return_NULL
      | inl (p, numzVals) => xret (Compress_set_up p numzVals datatype)
      end
  end.

(** The memory after [PyMem_Free(p)]. *)
Definition release {B} (p : option nat) (m : gmap nat B) : gmap nat B :=
  match p with
  | Some p => delete p m
  | None => m
  end.

(** The image types [switch (bitpix)] knows. *)
Definition image_types : list Z :=
  [BYTE_IMG; SHORT_IMG; LONG_IMG; LONGLONG_IMG; FLOAT_IMG; DOUBLE_IMG].

(** What [PyFloat_AsDouble] returns for the object. *)
Definition double_value (o : PyObject) : float :=
  match double_of o with
  | inl d => d
  | inr _ => (-1)%float
  end.

(** The error indicator after converting the items in turn with
    [PyFloat_AsDouble], from [e]. *)
Definition double_err_after (items : list PyObject) (e : option PyExc) : option PyExc :=
  foldl (λ e x, match double_of x with inl _ => e | inr ex => Some ex end) e items.

(** A tile the two functions convert: a list, of a length that fits an
    [int], of floats and of integers that have a finite double. *)
Definition tile_ok (o : PyObject) : Prop :=
  ∃ items, o = PyList items ∧ Z.of_nat (length items) ≤ C.INT_MAX ∧
           Forall (λ x, ∃ d, double_of x = inl d) items.

(** A tile the two functions reject: no list, or a list (of a length
    that fits an [int]) with an item that does not convert. *)
Definition tile_fails (o : PyObject) : Prop :=
  ∀ items, o = PyList items →
    Z.of_nat (length items) ≤ C.INT_MAX ∧
    Exists (λ x, ∃ e, double_of x = inr e) items.

Definition tile_items (o : PyObject) : list PyObject :=
  match o with
  | PyList items => items
  | _ => []
  end.

(** The array a tile converts to. *)
Definition double_block (o : PyObject) : xblock :=
  Doubles (double_value <$> tile_items o).

Definition float_block (o : PyObject) : xblock :=
  Floats ((λ x, float_of_double (double_value x)) <$> tile_items o).

Definition tile_size (o : PyObject) : Z := Z.of_nat (length (tile_items o)).

(** The heap while the tiles are loaded, against the heap [h0] before:
    [uncompressedData] (at [ud]) holds the pointers [ps] to the arrays of
    the tiles [loaded] and [k] elements not yet written,
    [numUncompressedVals] (at [nv]) the sizes of these tiles, each
    pointer its own live block, and every other address is as in [h0]. *)
Definition tiles_heap (blk : PyObject → xblock) (ud nv : nat)
    (h0 h : gmap nat xblock) (ps : list nat) (loaded : list PyObject) (k : nat) : Prop :=
  h !! ud = Some (Pointers (((λ p, Some (Some p)) <$> ps) ++ replicate k None)) ∧
  h !! nv = Some (Ints (((λ o, Some (tile_size o)) <$> loaded) ++ replicate k None)) ∧
  ud ≠ nv ∧ (ud ∉ ps) ∧ (nv ∉ ps) ∧ NoDup ps ∧ length ps = length loaded ∧
  (∀ i p o, ps !! i = Some p → loaded !! i = Some o → h !! p = Some (blk o)) ∧
  h0 !! ud = None ∧ h0 !! nv = None ∧
  (∀ p, p ∈ ps → h0 !! p = None) ∧
  (∀ q, q ≠ ud → q ≠ nv → q ∉ ps → h !! q = h0 !! q).

(** The heap after [PyMem_Free] of each pointer in turn. *)
Definition release_all {B} (ps : list (option nat)) (m : gmap nat B) : gmap nat B :=
  foldl (λ m p, release p m) m ps.

(** A state with nothing allocated and no exception pending. *)
Definition clean_xstate : XState := {| xs_py := clean_state; xs_heap := ∅ |}.

Definition tile_of_two : PyObject := PyList [PyFloat 1.5%float; PyInt 2].

(** ** [get_char_array] *)

(** [PyString_Size]: -1 with a [TypeError] for an object that is no
    string. *)
Definition PyString_Size (o : PyObject) : M Z :=
  match o with
  | PyStr s => ret (Z.of_nat (String.length s))
  | _ => run PyErr_Set PyExc_TypeError then ret (-1)
  end.

Definition poke_str (out : nat) (i : nat) (v : option string) : MX unit :=
  λ st, match xs_heap st !! out with
        | Some (Strings a) =>
            if bool_decide (i < length a)%nat
            then Some (tt, set_heap (<[out := Strings (<[i := v]> a)]> (xs_heap st)) st)
            else None
        | _ => None
        end.

(** The loop [for (i = 0; i < size; i++)] of [get_char_array]:
    [out[i]] is the buffer of item [i], [( *dataLen)[i]] its size as an
    [int]. *)
Fixpoint fill_chars (out dataLen : nat) (items : list PyObject) (i : nat) : MX unit :=
  match items with
  | [] => xret tt
  | x :: rest =>
      let+ s := lift (PyString_AsString x) in
      run+ poke_str out i s then
      let+ n := lift (PyString_Size x) in
      run+ poke_int dataLen i (C.to_int n) then
      fill_chars out dataLen rest (S i)
  end.

(** [get_char_array(data, description, data_size, dataLen)].  The result
    is the returned pointer, the value stored through [data_size] as for
    [get_long_array], and the pointer stored in [*dataLen]: [None] when
    nothing is stored there, [Some None] for a stored NULL. *)
Definition get_char_array (data : PyObject) (data_size : bool)
    : MX (option nat * option Z * option (option nat)) :=
  match data with
  | PyList items =>
      let size := C.to_int (Z.of_nat (length items)) in
      if bool_decide (size < 0) then
        run+ lift (PyErr_Set PyExc_ValueError) then xret (None, None, None)
      else
        let written := if data_size then Some size else None in
        let+ out := xmalloc (C.to_size_t (size * 8))
                      (Strings (replicate (Z.to_nat size) None)) in
        match out with
        | None => run+ lift PyErr_NoMemory then xret (None, written, None)
        | Some p =>
            let+ dataLen := xmalloc (C.to_size_t (size * 4))
                              (Ints (replicate (Z.to_nat size) None)) in
            match dataLen with
            | None =>
                run+ xfree (Some p) then
                run+ lift PyErr_NoMemory then
                xret (None, written, Some None)
            | Some q =>
                run+ fill_chars p q (take (Z.to_nat size) items) 0 then
                let+ failed := lift PyErr_Occurred in
                if failed then
                  run+ xfree (Some p) then
                  run+ xfree (Some q) then
                  xret (None, written, Some (Some q))
                else xret (Some p, written, Some (Some q))
            end
        end
  | _ => run+ lift (PyErr_Set PyExc_TypeError) then xret (None, None, None)
  end.

(** The buffer and the size [get_char_array] stores for an item. *)
Definition string_buffer (o : PyObject) : option string :=
  match o with
  | PyStr s => Some s
  | _ => None
  end.

Definition string_size (o : PyObject) : Z :=
  match o with
  | PyStr s => Z.of_nat (String.length s)
  | _ => -1
  end.

(** The error indicator after [PyString_AsString] and [PyString_Size] on
    each item in turn, from [e]. *)
Definition string_err_after (items : list PyObject) (e : option PyExc) : option PyExc :=
  foldl (λ e x, match x with PyStr _ => e | _ => Some PyExc_TypeError end) e items.

Definition is_string (o : PyObject) : Prop := ∃ s, o = PyStr s.

(** ** The tiling set-up of [compression_decompressData] *)

(** The members of the file parameters the loops of
    [compression_decompressData] work on; there is no tile count here. *)
Record decompress_tiling : Type := {
  dt_znaxis : list Z;      (* long[MAX_COMPRESS_DIM] *)
  dt_tilesize : list Z;    (* long[MAX_COMPRESS_DIM] *)
  dt_maxtilelen : Z        (* long *)
}.

(** One turn of [for (ii = 0; ii < naxis; ii++)]. *)
Definition decompress_tiling_step (naxes tileSize : list Z) (ii : nat)
    (t : decompress_tiling) : option decompress_tiling :=
  n ← naxes !! ii;
  ts ← tileSize !! ii;
  if bool_decide (ii < MAX_COMPRESS_DIM)%nat then
    len ← long_result (dt_maxtilelen t * ts);
    Some {| dt_znaxis := <[ii := n]> (dt_znaxis t);
            dt_tilesize := <[ii := ts]> (dt_tilesize t);
            dt_maxtilelen := len |}
  else None.

Fixpoint decompress_tiling_loop (naxes tileSize : list Z) (n : nat) (ii : nat)
    (t : decompress_tiling) : option decompress_tiling :=
  match n with
  | O => Some t
  | S n' =>
      t' ← decompress_tiling_step naxes tileSize ii t;
      decompress_tiling_loop naxes tileSize n' (S ii) t'
  end.

(** [maxtilelen = 1], both arrays filled with 1, then the loop over the
    [naxis] axes. *)
Definition decompressData_tiling (naxis : Z) (naxes tileSize : list Z)
    : option decompress_tiling :=
  let t0 := {| dt_znaxis := replicate MAX_COMPRESS_DIM 1;
               dt_tilesize := replicate MAX_COMPRESS_DIM 1;
               dt_maxtilelen := 1 |} in
  decompress_tiling_loop naxes tileSize (Z.to_nat naxis) 0 t0.

(** * Properties *)

(** ** The format parser on the specification's examples *)

Example parse_1E : CfitsioModel.parse_tform "1E" = Some (42, 1, 4).
Proof. reflexivity. Qed.

Example parse_320B : CfitsioModel.parse_tform "320B" = Some (11, 320, 1).
Proof. reflexivity. Qed.

Example parse_empty : CfitsioModel.parse_tform "" = None.
Proof. reflexivity. Qed.

Example parse_letterless : CfitsioModel.parse_tform "12" = None.
Proof. reflexivity. Qed.

Example parse_1PB : CfitsioModel.parse_tform "1PB(1200)" = Some (-11, 1, 1).
Proof. reflexivity. Qed.

Example snprintf_tkw_12 : snprintf_tkw "TTYPE" 12 = "TTYPE12".
Proof. reflexivity. Qed.

Example snprintf_tkw_1000 : snprintf_tkw "TTYPE" 1000 = "TTYPE100".
Proof. reflexivity. Qed.

(** ** C integers *)

Lemma unsigned_small w z : 0 ≤ z < 2 ^ w → C.unsigned w z = z.
Proof. intros Hz. unfold C.unsigned. by apply Z.mod_small. Qed.

Lemma signed_small w z : 0 < w → - 2 ^ (w - 1) ≤ z < 2 ^ (w - 1) → C.signed w z = z.
Proof.
  intros Hw Hz. unfold C.signed.
  assert (2 ^ w = 2 * 2 ^ (w - 1)) as Hp.
  { rewrite <- Z.pow_succ_r by lia. f_equal. lia. }
  rewrite Z.mod_small by lia. lia.
Qed.

Lemma to_ulong_small z : C.is_ulong z → C.to_ulong z = z.
Proof.
  unfold C.is_ulong, C.ULONG_MAX, C.to_ulong. intros Hz.
  apply unsigned_small. lia.
Qed.

Lemma to_ulonglong_small z : C.is_ulong z → C.to_ulonglong z = z.
Proof. apply to_ulong_small. Qed.

(** ** Header getters *)

(** ** What the getters return and leave *)

Lemma after_lookups_nil st : after_lookups [] (py_err st) st = st.
Proof. unfold after_lookups. rewrite app_nil_r. by destruct st. Qed.

Lemma after_lookups_app ks1 ks2 e1 e2 st :
  after_lookups ks2 e2 (after_lookups ks1 e1 st) = after_lookups (ks1 ++ ks2) e2 st.
Proof. unfold after_lookups. simpl. by rewrite <- (assoc_L (++)). Qed.

Lemma found_fails e header key : lookup_fails header key → found e header key = None.
Proof. intros [ex Hex]. unfold found. rewrite Hex. by destruct e. Qed.


Lemma header_long_read header key def :
  header_long header key def = long_read (found None header key) def.
Proof. unfold header_long, found. by destruct (getitem header key). Qed.

Lemma header_string_read header key def :
  header_string header key def = string_read (found None header key) def.
Proof. unfold header_string, found. by destruct (getitem header key) as [[]|]. Qed.

(** The lookup itself: the value found, and an error indicator that is
    clear when a value was found. *)
Lemma PyObject_GetItem_run header key st :
  ∃ e, PyObject_GetItem header key st
       = Some (found (py_err st) header key, after_lookups [key] e st) ∧
       (is_Some (found (py_err st) header key) → e = None).
Proof.
  unfold PyObject_GetItem, found, bind, modify, PyErr_Occurred, gets, PyErr_Set, ret.
  cbn [py_err log_getitem].
  destruct header as [| | | | |cards];
    try (exists (Some PyExc_TypeError); split;
         [by destruct (py_err st); destruct st|by destruct (py_err st); intros [? [=]]]).
  destruct (py_err st) as [ex|] eqn:He.
  - rewrite bool_decide_eq_true_2 by (by eexists).
    exists (Some ex). split; [by destruct st; simpl in *; subst|by intros [? [=]]].
  - rewrite bool_decide_eq_false_2 by (by intros [? [=]]).
    destruct (getitem (PyHeader cards) key) as [v|ex].
    + exists None. split; [by destruct st; simpl in *; subst|done].
    + exists (Some ex). split; [by destruct st|by intros [? [=]]].
Qed.

Lemma get_header_longlong_run header key def st :
  let v := found (py_err st) header key in
  get_header_longlong header key def st
  = Some (C.to_ulonglong (long_read v def), after_lookups [key] (long_error v) st).
Proof.
  intros v. unfold get_header_longlong, PyLong_AsLongLong, PyLong_AsLong.
  destruct (PyObject_GetItem_run header key st) as (e & Hrun & He).
  unfold bind at 1. rewrite Hrun. fold v in He |- *.
  destruct v as [o|]; cbn [long_read long_error].
  - rewrite (He ltac:(by eexists)). unfold long_value.
    by destruct (long_of o).
  - done.
Qed.

Lemma get_header_long_run header key def st :
  let v := found (py_err st) header key in
  get_header_long header key def st
  = Some (C.to_ulong (C.to_ulonglong (long_read v def)),
          after_lookups [key] (long_error v) st).
Proof.
  intros v. unfold get_header_long, PyLong_AsLong.
  destruct (PyObject_GetItem_run header key st) as (e & Hrun & He).
  unfold bind at 1. rewrite Hrun. fold v in He |- *.
  destruct v as [o|]; cbn [long_read long_error].
  - rewrite (He ltac:(by eexists)). unfold long_value.
    by destruct (long_of o).
  - done.
Qed.

Lemma get_header_double_run header key def st :
  let v := found (py_err st) header key in
  get_header_double header key def st
  = Some (double_read v def, after_lookups [key] (double_error v) st).
Proof.
  intros v. unfold get_header_double, PyLong_AsDouble.
  destruct (PyObject_GetItem_run header key st) as (e & Hrun & He).
  unfold bind at 1. rewrite Hrun. fold v in He |- *.
  destruct v as [o|]; cbn [double_read double_error].
  - rewrite (He ltac:(by eexists)).
    destruct o; try done.
    by match goal with |- context [if ?b then _ else _] => destruct b end.
  - done.
Qed.

(** With any default, NULL included. *)
Lemma get_header_string_run_default header key (def : option string) st :
  let v := found (py_err st) header key in
  get_header_string header key def st
  = Some (match v with Some _ => string_read v "" | None => def end,
          after_lookups [key] (string_error v) st).
Proof.
  intros v. unfold get_header_string, PyString_AsString.
  destruct (PyObject_GetItem_run header key st) as (e & Hrun & He).
  unfold bind at 1. rewrite Hrun. fold v in He |- *.
  destruct v as [o|]; cbn [string_read string_error].
  - rewrite (He ltac:(by eexists)). by destruct o.
  - done.
Qed.

Lemma get_header_string_run header key def st :
  let v := found (py_err st) header key in
  get_header_string header key (Some def) st
  = Some (string_read v def, after_lookups [key] (string_error v) st).
Proof.
  intros v. rewrite get_header_string_run_default. fold v. by destruct v as [[]|].
Qed.

(** C4.  Each of the four typed getters makes exactly one item lookup, of
    the keyword it was given; and when that lookup fails (the key is
    missing or the header is no mapping) it returns the caller's default
    and leaves the interpreter as it found it but for the logged lookup
    and a clear error indicator. *)
Theorem getters_single_lookup_default
    (header : PyObject) (key : string) (st : PyState)
    (def_s : option string) (def_l : Z) (def_d : float) (def_ll : Z) :
  C.is_ulong def_l → C.is_ulong def_ll →
  (one_lookup (get_header_string header key def_s) key st ∧
   one_lookup (get_header_long header key def_l) key st ∧
   one_lookup (get_header_double header key def_d) key st ∧
   one_lookup (get_header_longlong header key def_ll) key st) ∧
  (lookup_fails header key →
   get_header_string header key def_s st = Some (def_s, after_failed_lookup key st) ∧
   get_header_long header key def_l st = Some (def_l, after_failed_lookup key st) ∧
   get_header_double header key def_d st = Some (def_d, after_failed_lookup key st) ∧
   get_header_longlong header key def_ll st = Some (def_ll, after_failed_lookup key st)).
Proof.
  intros Hl Hll. split.
  - unfold one_lookup.
    rewrite get_header_string_run_default, get_header_long_run,
      get_header_double_run, get_header_longlong_run.
    repeat split; eexists _, _; (split; [reflexivity|done]).
  - intros Hfails.
    rewrite get_header_string_run_default, get_header_long_run,
      get_header_double_run, get_header_longlong_run.
    rewrite (found_fails _ _ _ Hfails). cbn.
    rewrite (to_ulonglong_small _ Hl), (to_ulong_small _ Hl), (to_ulonglong_small _ Hll).
    unfold after_failed_lookup, after_lookups. by destruct st.
Qed.

Lemma getters_single_lookup_default_witness :
  C.is_ulong 7 ∧ C.is_ulong 1234554321 ∧
  get_header_long empty_header "TFIELDS" 7 clean_state
    = Some (7, after_failed_lookup "TFIELDS" clean_state).
Proof.
  assert (C.is_ulong 7) as H7 by (vm_compute; split; discriminate).
  assert (C.is_ulong 1234554321) as Hn by (vm_compute; split; discriminate).
  split; [exact H7|]. split; [exact Hn|].
  refine (proj1 (proj2 (proj2 (getters_single_lookup_default empty_header "TFIELDS"
    clean_state (Some "") 7 1%float 1234554321 H7 Hn) _))).
  exists PyExc_KeyError. reflexivity.
Defined.

(** ** Compression set-up *)

(** C8.  The compression configuration does not depend on the header:
    for any two headers [configure_compression] yields the same file
    structure, whose compression members hold the fixed values RICE_1,
    ZBITPIX 16, two axes of extents 440 x 300, tiles of 440 x 1, Rice
    block size 32 and 2 bytes per pixel, and the fixed column numbers and
    scale. *)
Theorem configure_compression_header_independent
    `{Cfitsio} (f : FITSfile) (h1 h2 : PyObject) :
  configure_compression f h1 = configure_compression f h2 ∧
  let g := configure_compression f h1 in
  compressimg g = 1 ∧ zcmptype g = "RICE_1" ∧ compress_type g = RICE_1 ∧
  zbitpix g = 16 ∧ zndim g = 2 ∧
  take MAX_COMPRESS_DIM (znaxis g) = [440; 300; 0; 0; 0; 0] ∧
  take MAX_COMPRESS_DIM (tilesize g) = [440; 1; 0; 0; 0; 0] ∧
  maxtilelen g = 440 ∧ rice_blocksize g = 32 ∧ rice_bytepix g = 2 ∧
  maxelem g = C.to_int (imcomp_calc_max_elem RICE_1 440 16 32) ∧
  cn_compressed g = 1 ∧ cn_uncompressed g = -1 ∧ cn_gzip_data g = -1 ∧
  cn_zscale g = -1 ∧ cn_zzero g = -1 ∧ cn_zblank g = -1 ∧
  zscale g = 1%float ∧ cn_bscale g = 1%float.
Proof. repeat split. Qed.

(** The list-based wrapper does select the codec by exact match of the
    tag, and falls back to no compression without failing. *)
Lemma select_codec_exact_match (tag : string) (zval : list Z) r :
  select_codec tag zval = Some r → r.1.1.1 = codec_of_tag tag.
Proof.
  unfold select_codec, codec_of_tag. intros Hr.
  destruct (String.eqb tag "RICE_1");
    [|destruct (String.eqb tag "GZIP_1");
      [|destruct (String.eqb tag "HCOMPRESS_1");
        [|destruct (String.eqb tag "PLIO_1")]]];
    repeat case_bool_decide;
    repeat (destruct (zval !! _); simpl in Hr; try discriminate);
    by injection Hr as <-.
Qed.

Lemma select_codec_unknown_tag (tag : string) (zval : list Z) :
  tag ≠ "RICE_1" → tag ≠ "GZIP_1" → tag ≠ "HCOMPRESS_1" → tag ≠ "PLIO_1" →
  select_codec tag zval = Some (COMPRESS_NONE, 32, 4, 0).
Proof.
  intros H1 H2 H3 H4. unfold select_codec.
  apply String.eqb_neq in H1, H2, H3, H4. by rewrite H1, H2, H3, H4.
Qed.

(** C3.  [configure_compression] does not look at ZCMPTYPE: a header
    tagged GZIP_1 and a header with no tag at all both get RICE_1, where
    exact matching of the tag, as the list-based wrapper does it, gives
    GZIP_1 and no compression. *)
Theorem configure_compression_ignores_ZCMPTYPE `{Cfitsio} (f : FITSfile) :
  getitem header_gzip "ZCMPTYPE" = inl (PyStr "GZIP_1") ∧
  compress_type (configure_compression f header_gzip) = RICE_1 ∧
  codec_of_tag "GZIP_1" = GZIP_1 ∧ RICE_1 ≠ GZIP_1 ∧
  select_codec "GZIP_1" [] = Some (GZIP_1, 32, 4, 0) ∧
  getitem empty_header "ZCMPTYPE" = inr PyExc_KeyError ∧
  compress_type (configure_compression f empty_header) = RICE_1 ∧
  RICE_1 ≠ COMPRESS_NONE ∧
  select_codec "" [] = Some (COMPRESS_NONE, 32, 4, 0).
Proof. repeat split; done. Qed.

(** ** Tile counts *)

Ltac c_bounds :=
  unfold extent, C.is_long, C.is_int, C.is_ulong, C.LONG_MAX, C.LONG_MIN,
    C.INT_MAX, C.UINT_MAX, C.ULONG_MAX in *;
  change (2 ^ 31) with 2147483648 in *;
  change (2 ^ 32) with 4294967296 in *;
  change (2 ^ 63) with 9223372036854775808 in *;
  change (2 ^ 64) with 18446744073709551616 in *.

Lemma long_result_in z : C.is_long z → long_result z = Some z.
Proof. intros Hz. unfold long_result. by rewrite bool_decide_eq_true_2. Qed.

Lemma to_int_small z : C.is_int z → C.to_int z = z.
Proof. intros Hz. apply signed_small; [lia|]. c_bounds. simpl. lia. Qed.

(** [ceil_div n t] is the ceiling of [n / t]: the least count of
    [t]-sized pieces that covers [n]. *)
Lemma ceil_div_spec n t : 0 < t → (ceil_div n t - 1) * t < n ≤ ceil_div n t * t.
Proof.
  intros Ht. unfold ceil_div.
  pose proof (Z.div_mod (- n) t ltac:(lia)) as Hd.
  pose proof (Z.mod_pos_bound (- n) t Ht) as Hm.
  nia.
Qed.

Lemma ceil_div_formula n t : 1 ≤ n → 0 < t → (n - 1) / t + 1 = ceil_div n t.
Proof.
  intros Hn Ht. unfold ceil_div.
  pose proof (Z.div_mod (n - 1) t ltac:(lia)) as Hd.
  pose proof (Z.mod_pos_bound (n - 1) t Ht) as Hm.
  assert (- n / t = - ((n - 1) / t) - 1) as ->; [|lia].
  symmetry. apply (Z.div_unique_pos _ _ _ (t - 1 - (n - 1) mod t)); lia.
Qed.

Lemma ceil_div_bounds n t : extent n → extent t → 1 ≤ ceil_div n t ≤ n.
Proof.
  intros Hn Ht. c_bounds.
  rewrite <- ceil_div_formula by lia.
  pose proof (Z.div_pos (n - 1) t ltac:(lia) ltac:(lia)).
  pose proof (Z.div_le_upper_bound (n - 1) t (n - 1) ltac:(lia) ltac:(nia)).
  lia.
Qed.

Lemma tiles_along_ceil n t : extent n → extent t → tiles_along n t = Some (ceil_div n t).
Proof.
  intros Hn Ht. pose proof (ceil_div_bounds n t Hn Ht) as Hc.
  unfold tiles_along.
  rewrite long_result_in by (c_bounds; lia). simpl.
  rewrite bool_decide_eq_false_2 by (c_bounds; lia).
  rewrite Z.quot_div_nonneg by (c_bounds; lia).
  assert ((n - 1) / t + 1 = ceil_div n t) as Hq by (apply ceil_div_formula; c_bounds; lia).
  rewrite long_result_in by (c_bounds; lia). simpl.
  rewrite Hq. apply long_result_in. c_bounds. lia.
Qed.

Lemma product_extent l : Forall extent l → 1 ≤ product l.
Proof. induction 1 as [|x l Hx _ IH]; simpl; [lia|]. unfold extent in Hx. nia. Qed.

Lemma tile_count_extent naxes tileSize :
  Forall extent naxes → Forall extent tileSize → 1 ≤ tile_count naxes tileSize.
Proof.
  intros Hn. revert tileSize. unfold tile_count.
  induction Hn as [|n naxes Hn _ IH]; intros [|t ts] Ht; simpl; try lia.
  inversion Ht as [|? ? Ht1 Ht2]; subst.
  pose proof (ceil_div_bounds n t Hn Ht1). specialize (IH ts Ht2). nia.
Qed.

(** The loop, entered at axis [length pre_n] with the axes [suf_n] still
    to go. *)
Lemma tiling_loop_count suf_n : ∀ suf_t pre_n pre_t t,
  length pre_n = length pre_t → length suf_n = length suf_t →
  (length pre_n + length suf_n ≤ MAX_COMPRESS_DIM)%nat →
  Forall extent suf_n → Forall extent suf_t →
  1 ≤ ntiles t → 1 ≤ t_maxtilelen t →
  ntiles t * tile_count suf_n suf_t ≤ C.INT_MAX →
  t_maxtilelen t * product suf_t ≤ C.LONG_MAX →
  ∃ t', tiling_loop (pre_n ++ suf_n) (pre_t ++ suf_t) (length suf_n) (length pre_n) t
          = Some t' ∧
        ntiles t' = ntiles t * tile_count suf_n suf_t ∧
        t_maxtilelen t' = t_maxtilelen t * product suf_t.
Proof.
  induction suf_n as [|n suf_n IH]; intros [|ts suf_t] pre_n pre_t t
    Hpre Hsuf Hdim Hn Ht Hnt Hlen Hcount Hprod; try discriminate.
  - exists t. unfold tile_count. simpl. repeat split; lia.
  - inversion Hn as [|? ? Hn1 Hn2]; subst. inversion Ht as [|? ? Ht1 Ht2]; subst.
    pose proof (ceil_div_bounds n ts Hn1 Ht1) as Hc.
    pose proof (tile_count_extent suf_n suf_t Hn2 Ht2) as Htc.
    pose proof (product_extent suf_t Ht2) as Hp.
    assert (tile_count (n :: suf_n) (ts :: suf_t)
            = ceil_div n ts * tile_count suf_n suf_t) as Hcons by reflexivity.
    rewrite Hcons in *. simpl product in *.
    simpl length in *. simpl tiling_loop. unfold tiling_step.
    rewrite (list_lookup_middle pre_t suf_t ts (length pre_n)) by done.
    rewrite (list_lookup_middle pre_n suf_n n (length pre_n)) by done. simpl.
    rewrite bool_decide_eq_true_2 by lia.
    assert (1 ≤ ts ≤ C.LONG_MAX) as Hts by exact Ht1.
    rewrite long_result_in by (c_bounds; nia). simpl.
    rewrite (tiles_along_ceil n ts Hn1 Ht1). simpl.
    rewrite long_result_in by (c_bounds; nia). simpl.
    rewrite to_int_small by (c_bounds; nia).
    specialize (IH suf_t (pre_n ++ [n]) (pre_t ++ [ts])
      {| t_znaxis := <[length pre_n := n]> (t_znaxis t);
         t_tilesize := <[length pre_n := ts]> (t_tilesize t);
         t_maxtilelen := t_maxtilelen t * ts;
         ntiles := ntiles t * ceil_div n ts |}).
    rewrite !length_app in IH. simpl in IH.
    rewrite <- !(assoc_L (++)) in IH. simpl in IH.
    replace (length pre_n + 1)%nat with (S (length pre_n)) in IH by lia.
    destruct IH as (t' & Hrun & Hnt' & Hlen'); try done; try lia; try nia.
    exists t'. rewrite Hrun. repeat split; [rewrite Hnt'|rewrite Hlen']; lia.
Qed.

(** C5 (amended).  For image and tile extents that are at least 1, the
    count along every axis, [(image_extent - 1) / tile_extent + 1] in C
    arithmetic, is the ceiling of the quotient; and, on at most
    [MAX_COMPRESS_DIM] axes with a tile length that fits its [long], the
    total the loop computes is the product of these ceilings whenever
    that product fits the [int] it is kept in. *)
Theorem tile_count_is_product_of_ceilings (naxes tileSize : list Z) :
  Forall extent naxes → Forall extent tileSize →
  (∀ a n t, naxes !! a = Some n → tileSize !! a = Some t →
     tiles_along n t = Some (ceil_div n t) ∧
     (ceil_div n t - 1) * t < n ≤ ceil_div n t * t) ∧
  (length naxes = length tileSize →
   (length naxes ≤ MAX_COMPRESS_DIM)%nat →
   product tileSize ≤ C.LONG_MAX →
   tile_count naxes tileSize ≤ C.INT_MAX →
   ∃ t, compressData_tiling (Z.of_nat (length naxes)) naxes tileSize = Some t ∧
        ntiles t = tile_count naxes tileSize).
Proof.
  intros Hn Ht. split.
  - intros a n t Ha Hb.
    pose proof (Forall_lookup_1 extent naxes a n Hn Ha) as Hen.
    pose proof (Forall_lookup_1 extent tileSize a t Ht Hb) as Het.
    split; [by apply tiles_along_ceil|].
    apply ceil_div_spec. unfold extent in Het. lia.
  - intros Hlen Hdim Hprod Hcount. unfold compressData_tiling. rewrite Nat2Z.id.
    destruct (tiling_loop_count naxes tileSize [] []
      {| t_znaxis := replicate MAX_COMPRESS_DIM 1;
         t_tilesize := replicate MAX_COMPRESS_DIM 1;
         t_maxtilelen := 1; ntiles := 1 |}) as (t' & Hrun & Hnt & _);
      simpl; try done; try lia.
    exists t'. simpl in Hrun. split; [done|]. rewrite Hnt. simpl. lia.
Qed.

Lemma tile_count_is_product_of_ceilings_witness :
  tiles_along 440 100 = Some 5 ∧
  ∃ t, compressData_tiling 2 [440; 300] [100; 1] = Some t ∧ ntiles t = 1500.
Proof.
  destruct (tile_count_is_product_of_ceilings [440; 300] [100; 1]) as [Haxis Ht].
  - repeat constructor; vm_compute; discriminate.
  - repeat constructor; vm_compute; discriminate.
  - split.
    + exact (proj1 (Haxis 0%nat 440 100 eq_refl eq_refl)).
    + apply Ht.
      * reflexivity.
      * vm_compute. lia.
      * vm_compute. discriminate.
      * vm_compute. discriminate.
Defined.

(** C5, as stated, fails where the product does not fit an [int]: for a
    65536 x 65536 image in one-pixel tiles the loop leaves [ntiles] at 0,
    not at the 4294967296 tiles there are. *)
Lemma tile_count_overflows_int :
  Forall extent huge_naxes ∧ Forall extent pixel_tiles ∧
  tile_count huge_naxes pixel_tiles = 4294967296 ∧
  ∃ t, compressData_tiling 2 huge_naxes pixel_tiles = Some t ∧
       ntiles t = 0 ∧ ntiles t ≠ tile_count huge_naxes pixel_tiles.
Proof.
  split; [repeat constructor; vm_compute; discriminate|].
  split; [repeat constructor; vm_compute; discriminate|].
  split; [reflexivity|].
  eexists. split; [vm_compute; reflexivity|]. split; [reflexivity|].
  vm_compute. discriminate.
Qed.

(** ** Converting a list of integers *)

Lemma PyLong_AsLong_run o st :
  PyLong_AsLong o st
  = Some (long_value o, set_err (err_after [o] (py_err st)) st).
Proof.
  unfold PyLong_AsLong, long_value, err_after. simpl.
  destruct (long_of o); [|reflexivity].
  unfold ret. by destruct st.
Qed.

Lemma fill_longs_run p items : ∀ pre todo st,
  py_mem st !! p = Some (Longs (pre ++ todo)) →
  length todo = length items →
  fill_longs p items (length pre) st
  = Some (tt, set_err (err_after items (py_err st))
                (set_mem (<[p := Longs (pre ++ (long_value <$> items))]> (py_mem st)) st)).
Proof.
  induction items as [|x items IH]; intros pre todo st Hp Hlen.
  - destruct todo; [|discriminate]. simpl. unfold ret.
    rewrite insert_id by done. by destruct st.
  - destruct todo as [|t0 todo]; [discriminate|]. injection Hlen as Hlen.
    cbn [fill_longs]. unfold bind at 1. rewrite PyLong_AsLong_run.
    unfold bind at 1. unfold poke. cbn [py_mem set_err]. rewrite Hp.
    rewrite bool_decide_eq_true_2 by (rewrite length_app; simpl; lia).
    rewrite insert_app_r_alt by lia. rewrite Nat.sub_diag. cbn [list_insert insert].
    specialize (IH (pre ++ [long_value x]) todo
      (set_mem (<[p := Longs (pre ++ long_value x :: todo)]> (py_mem st))
         (set_err (err_after [x] (py_err st)) st))).
    rewrite length_app in IH. cbn [length] in IH.
    replace (length pre + 1)%nat with (S (length pre)) in IH by lia.
    rewrite IH.
    + cbn [py_mem set_mem set_err py_err py_getitem py_oom buf_reads].
      rewrite insert_insert_eq. rewrite <- (assoc_L (++)). reflexivity.
    + cbn [py_mem set_mem]. rewrite lookup_insert_eq.
      by rewrite <- (assoc_L (++)).
    + done.
Qed.

Lemma err_after_all_convert items e : Forall converts items → err_after items e = e.
Proof.
  unfold err_after. intros Hall. revert e.
  induction Hall as [|x items [z Hz] _ IH]; intros e; simpl; [done|].
  by rewrite Hz.
Qed.

Lemma err_after_some_fails items e :
  Exists (λ x, ¬ converts x) items → is_Some (err_after items e).
Proof.
  unfold err_after. intros Hex. revert e.
  induction Hex as [x items Hx|x items _ IH]; intros e; simpl.
  - destruct (long_of x) as [z|ex] eqn:Hz; [exfalso; apply Hx; by exists z|].
    clear. generalize ex. induction items as [|y items IH]; intros ex'; simpl; [by eexists|].
    destruct (long_of y); apply IH.
  - apply IH.
Qed.

(** The run of [get_long_array] on a list whose length fits an [int],
    when the allocator has memory. *)
Lemma get_long_array_list_run items (ds : bool) st :
  Z.of_nat (length items) ≤ C.INT_MAX → py_oom st = false →
  let p := fresh (dom (py_mem st)) in
  let e := err_after items (py_err st) in
  let written := if ds then Some (Z.of_nat (length items)) else None in
  get_long_array (PyList items) ds st
  = Some (if bool_decide (is_Some e)
          then ((None, written), set_err e st)
          else ((Some p, written),
                set_err e (set_mem (<[p := Longs (long_value <$> items)]> (py_mem st)) st))).
Proof.
  intros Hlen Hoom p e written. unfold get_long_array.
  rewrite to_int_small by (c_bounds; lia).
  rewrite bool_decide_eq_false_2 by lia.
  rewrite Nat2Z.id. rewrite take_ge by done.
  unfold bind at 1. unfold PyMem_Malloc. rewrite Hoom. fold p.
  assert (py_mem st !! p = None) as Hfresh.
  { apply not_elem_of_dom. apply is_fresh. }
  unfold bind at 1.
  rewrite (fill_longs_run p items [] (replicate (length items) 0));
    [|cbn [py_mem set_mem]; by rewrite lookup_insert_eq|by rewrite length_replicate].
  cbn [app py_mem set_mem set_err py_err]. rewrite insert_insert_eq. fold e.
  unfold bind, PyErr_Occurred, gets, PyMem_Free, modify, ret. cbn [py_err set_err].
  destruct (bool_decide (is_Some e)); [|done].
  cbn [py_mem set_mem set_err]. rewrite delete_insert_eq, delete_id by done.
  by destruct st.
Qed.

Lemma get_long_array_oom_run items (ds : bool) st :
  Z.of_nat (length items) ≤ C.INT_MAX → py_oom st = true →
  get_long_array (PyList items) ds st
  = Some ((None, if ds then Some (Z.of_nat (length items)) else None),
          set_err (Some PyExc_MemoryError) st).
Proof.
  intros Hlen Hoom. unfold get_long_array.
  rewrite to_int_small by (c_bounds; lia).
  rewrite bool_decide_eq_false_2 by lia.
  unfold bind at 1. unfold PyMem_Malloc. by rewrite Hoom.
Qed.

(** C10 (amended).  [get_long_array] is all-or-nothing.  A non-list gets
    NULL and a [TypeError].  A list whose length fits an [int] and in
    which some element fails to convert gets NULL, with an error set and
    no block left allocated.  A list whose length fits an [int] and whose
    elements all convert gets, when no error is pending on entry and the
    allocation succeeds, a fresh array of the list's length whose element
    [i] is the conversion of item [i]. *)
Theorem get_long_array_all_or_nothing (data : PyObject) (ds : bool) (st : PyState) :
  ((∀ items, data ≠ PyList items) →
   get_long_array data ds st
   = Some ((None, None), set_err (Some PyExc_TypeError) st)) ∧
  (∀ items, data = PyList items →
   Z.of_nat (length items) ≤ C.INT_MAX →
   Exists (λ x, ¬ converts x) items →
   ∃ w st', get_long_array data ds st = Some ((None, w), st') ∧
            py_mem st' = py_mem st ∧ is_Some (py_err st')) ∧
  (∀ items, data = PyList items →
   Z.of_nat (length items) ≤ C.INT_MAX →
   Forall converts items →
   py_err st = None → py_oom st = false →
   ∃ p a st',
     get_long_array data ds st
     = Some ((Some p, if ds then Some (Z.of_nat (length items)) else None), st') ∧
     py_mem st !! p = None ∧
     py_mem st' = <[p := Longs a]> (py_mem st) ∧
     py_err st' = None ∧
     length a = length items ∧
     ∀ i x, items !! i = Some x → ∃ z, long_of x = inl z ∧ a !! i = Some z).
Proof.
  split; [|split].
  - intros Hnl. destruct data; try reflexivity. by destruct (Hnl items).
  - intros items -> Hlen Hex.
    destruct (py_oom st) eqn:Hoom.
    + rewrite get_long_array_oom_run by done.
      eexists _, _. split; [done|]. split; [done|]. by eexists.
    + rewrite get_long_array_list_run by done.
      pose proof (err_after_some_fails items (py_err st) Hex) as He.
      rewrite bool_decide_eq_true_2 by done.
      eexists _, _. split; [done|]. split; done.
  - intros items -> Hlen Hall Herr Hoom.
    rewrite get_long_array_list_run by done.
    rewrite (err_after_all_convert _ _ Hall), Herr.
    rewrite bool_decide_eq_false_2 by (intros [? [=]]).
    eexists _, (long_value <$> items), _. split; [done|].
    split; [apply not_elem_of_dom, is_fresh|].
    split; [done|]. split; [done|]. split; [apply length_fmap|].
    intros i x Hi.
    pose proof (Forall_lookup_1 converts items i x Hall Hi) as [z Hz].
    exists z. split; [done|].
    rewrite list_lookup_fmap, Hi. simpl. unfold long_value. by rewrite Hz.
Qed.

Lemma get_long_array_all_or_nothing_witness :
  ∃ p st',
    get_long_array (PyList [PyInt 440; PyInt 300]) true clean_state
    = Some ((Some p, Some 2), st') ∧
    py_mem st' = <[p := Longs [440; 300]]> (py_mem clean_state).
Proof.
  destruct (proj2 (proj2 (get_long_array_all_or_nothing
    (PyList [PyInt 440; PyInt 300]) true clean_state))
    [PyInt 440; PyInt 300]) as (p & a & st' & Hrun & _ & Hmem & _ & Hlen & Hval).
  - reflexivity.
  - vm_compute. discriminate.
  - repeat constructor; eexists; reflexivity.
  - reflexivity.
  - reflexivity.
  - exists p, st'. split; [exact Hrun|].
    destruct a as [|a0 [|a1 [|? ?]]]; try discriminate.
    destruct (Hval 0%nat (PyInt 440) eq_refl) as (z0 & Hz0 & Ha0).
    destruct (Hval 1%nat (PyInt 300) eq_refl) as (z1 & Hz1 & Ha1).
    injection Hz0 as <-. injection Hz1 as <-.
    injection Ha0 as ->. injection Ha1 as ->. exact Hmem.
Defined.

Lemma get_long_array_oversize_run items (ds : bool) st :
  C.INT_MAX < Z.of_nat (length items) < 4294967296 →
  get_long_array (PyList items) ds st
  = Some ((None, None), set_err (Some PyExc_ValueError) st).
Proof.
  intros Hlen. unfold get_long_array.
  assert (C.to_int (Z.of_nat (length items)) = Z.of_nat (length items) - 4294967296) as ->.
  { unfold C.to_int, C.signed. c_bounds. change (2 ^ (32 - 1)) with 2147483648.
    rewrite <- (Z_mod_plus_full _ (-1)).
    rewrite Z.mod_small by lia. lia. }
  by rewrite bool_decide_eq_true_2 by lia.
Qed.

(** C10, as stated, fails for a list whose elements all convert when the
    allocator is exhausted, when an error is already pending, or when the
    list's length does not fit the [int] it is read into: each time the
    result is NULL. *)
Lemma get_long_array_null_though_all_convert :
  (Forall converts [PyInt 1; PyInt 2] ∧
   get_long_array (PyList [PyInt 1; PyInt 2]) false oom_state
   = Some ((None, None), set_err (Some PyExc_MemoryError) oom_state)) ∧
  get_long_array (PyList [PyInt 1; PyInt 2]) false pending_state
  = Some ((None, None), pending_state) ∧
  (Forall converts oversize_list ∧
   get_long_array (PyList oversize_list) false clean_state
   = Some ((None, None), set_err (Some PyExc_ValueError) clean_state)).
Proof.
  split; [split; [repeat constructor; eexists; reflexivity|reflexivity]|].
  split; [reflexivity|].
  unfold oversize_list.
  generalize (Z2Nat.id 2147483648 ltac:(lia)).
  generalize (Z.to_nat 2147483648). intros n Hn.
  split.
  - apply Forall_replicate. eexists; reflexivity.
  - apply get_long_array_oversize_run. rewrite length_replicate, Hn.
    c_bounds. lia.
Qed.

(** ** Column descriptors *)

Lemma length_strncpy_chars n : ∀ src, length (C.strncpy_chars src n) = n.
Proof.
  induction n as [|n IH]; intros src; [done|]. simpl.
  destruct src as [|c rest]; simpl; [by rewrite IH|].
  destruct (Ascii.eqb c "000"); simpl; by rewrite IH.
Qed.

(** What a field holds after [strncpy(field, src, n); field[n] = 0]. *)
Lemma strncpy_then_nul (field : list ascii) (src : string) (n : nat) :
  length field = S n →
  <[n := NUL]> (C.strncpy field src n) = C.strncpy_chars src n ++ [NUL].
Proof.
  intros Hlen. unfold C.strncpy.
  rewrite insert_app_r_alt by (rewrite length_strncpy_chars; lia).
  rewrite length_strncpy_chars, Nat.sub_diag.
  destruct (drop n field) as [|c [|c' rest]] eqn:Hd; simpl.
  - apply (f_equal length) in Hd. rewrite length_drop in Hd. simpl in Hd. lia.
  - done.
  - apply (f_equal length) in Hd. rewrite length_drop in Hd. simpl in Hd. lia.
Qed.

(** The C string in a field filled that way is the source, cut to [n]
    chars. *)
Lemma c_str_strncpy n : ∀ src rest,
  C.c_str (C.strncpy_chars src n ++ NUL :: rest) = truncate n (C.c_str_of src).
Proof.
  unfold truncate, C.c_str_of.
  induction n as [|n IH]; intros src rest; [done|].
  destruct src as [|c src]; simpl; [done|].
  destruct (Ascii.eqb c "000") eqn:Hc; simpl.
  - done.
  - rewrite Hc. by rewrite IH.
Qed.

Lemma truncate_length n s : (String.length (truncate n s) ≤ n)%nat.
Proof.
  unfold truncate. revert s. induction n as [|n IH]; intros s; [simpl; lia|].
  destruct s as [|c s]; simpl; [lia|]. specialize (IH s). lia.
Qed.

(** Up to 999 the keywords fit the buffer of [snprintf] uncut. *)
Lemma column_keys_keywords (idx : Z) :
  1 ≤ idx ≤ 999 → column_keys idx = column_keywords idx.
Proof.
  intros Hidx.
  assert (Forall (λ i, column_keys i = column_keywords i) (seqZ 1 999)) as Hall.
  { apply (bool_decide_unpack _). vm_compute. reflexivity. }
  rewrite Forall_forall in Hall. apply Hall. apply elem_of_seqZ. lia.
Qed.

Lemma snprintf_tkw_column_keyword (idx : Z) :
  1 ≤ idx ≤ 999 →
  snprintf_tkw "TTYPE" idx = keyword "TTYPE" idx ∧
  snprintf_tkw "TBCOL" idx = keyword "TBCOL" idx ∧
  snprintf_tkw "TFORM" idx = keyword "TFORM" idx ∧
  snprintf_tkw "TSCAL" idx = keyword "TSCAL" idx ∧
  snprintf_tkw "TZERO" idx = keyword "TZERO" idx ∧
  snprintf_tkw "TNULL" idx = keyword "TNULL" idx.
Proof.
  intros Hidx. pose proof (column_keys_keywords idx Hidx) as Hk.
  unfold column_keys, column_keywords in Hk.
  repeat split; congruence.
Qed.

Lemma columns_keys_cons idx n :
  columns_keys idx (S n) = column_keys idx ++ columns_keys (idx + 1) n.
Proof.
  unfold columns_keys. rewrite Nat2Z.inj_succ, seqZ_cons by lia.
  rewrite Z.pred_succ. reflexivity.
Qed.

Lemma columns_err_cons e header idx n :
  columns_err e header idx (S n) = columns_err (column_err header idx) header (idx + 1) n.
Proof.
  destruct n as [|n]; simpl.
  - by rewrite Z.add_0_r.
  - f_equal. lia.
Qed.

Lemma to_ulong_nonneg z : 0 ≤ C.to_ulong z.
Proof. unfold C.to_ulong, C.unsigned. apply Z.mod_pos_bound. lia. Qed.

Lemma string_read_error v def s : string_read v def = Some s → string_error v = None.
Proof. by destruct v as [[]|]. Qed.

Lemma string_valued_read e header key :
  string_valued header key → is_Some (string_read (found e header key) "").
Proof.
  unfold string_valued. rewrite header_string_read.
  destruct e; [by eexists|done].
Qed.

(** An integer-valued keyword leaves no error, however its lookup is
    entered, and is read as the header holds it. *)
Lemma integer_valued_error e header key :
  integer_valued header key → long_error (found e header key) = None.
Proof.
  unfold integer_valued, found.
  destruct e; [done|]. destruct (getitem header key) as [v|]; [|done].
  intros [z Hz]. simpl. by rewrite Hz.
Qed.

Section ColumnFacts.
Context `{Cfitsio}.

(** One turn of the loop, by the error it is entered with. *)
Lemma tcolumn_from_header_run header idx vars st :
  tcolumn_from_header header idx vars st
  = match column_value header idx vars (py_err st) with
    | Some r => Some (r, after_lookups (column_keys idx) (column_err header idx) st)
    | None => None
    end.
Proof.
  unfold tcolumn_from_header, column_value.
  unfold bind at 1. rewrite get_header_string_run.
  destruct (string_read (found (py_err st) header (snprintf_tkw "TTYPE" idx)) "")
    as [name|] eqn:Hname; [|done].
  rewrite (string_read_error _ _ _ Hname). cbn [mbind option_bind].
  unfold bind at 1. rewrite get_header_longlong_run. cbn [py_err after_lookups].
  unfold bind at 1. rewrite get_header_string_run. cbn [py_err after_lookups].
  destruct (string_read (found (long_error (found None header (snprintf_tkw "TBCOL" idx)))
                           header (snprintf_tkw "TFORM" idx)) "")
    as [form|] eqn:Hform; [|done].
  rewrite (string_read_error _ _ _ Hform). cbn [mbind option_bind].
  unfold bind at 1. rewrite get_header_double_run. cbn [py_err after_lookups].
  unfold bind at 1. rewrite get_header_double_run. cbn [py_err after_lookups].
  unfold bind at 1. rewrite get_header_longlong_run. cbn [py_err after_lookups].
  unfold ret, column_err, tnull_found, tzero_found, tscal_found, column_keys, after_lookups.
  cbn [py_err py_getitem py_mem py_oom buf_reads].
  rewrite <- !(assoc_L (++)). reflexivity.
Qed.

Lemma columns_loop_run header n : ∀ idx vars st,
  columns_loop header n idx vars st
  = match columns_value header n idx vars (py_err st) with
    | Some cols =>
        Some (cols, after_lookups (columns_keys idx n)
                      (columns_err (py_err st) header idx n) st)
    | None => None
    end.
Proof.
  induction n as [|n IH]; intros idx vars st.
  - simpl. unfold ret. by rewrite after_lookups_nil.
  - cbn [columns_loop columns_value]. unfold bind at 1.
    rewrite tcolumn_from_header_run.
    destruct (column_value header idx vars (py_err st)) as [[col vars']|]; [|done].
    cbn [mbind option_bind]. unfold bind at 1. rewrite IH. cbn [py_err after_lookups].
    destruct (columns_value header n (idx + 1) vars' (column_err header idx))
      as [cols|]; [|done].
    cbn [mbind option_bind]. unfold ret.
    by rewrite after_lookups_app, columns_keys_cons, columns_err_cons.
Qed.

(** The whole of [tcolumns_from_header]. *)
Lemma tcolumns_from_header_run indet header st :
  let v := found (py_err st) header "TFIELDS" in
  let tfields := C.to_ulong (C.to_ulonglong (long_read v 0)) in
  let n := Z.to_nat tfields in
  let vars := {| dtcode := indet.1.1; v_trepeat := indet.1.2;
                 v_twidth := indet.2; status := 0 |} in
  let p := fresh (dom (py_mem st)) in
  let st1 := after_lookups ["TFIELDS"] (long_error v) st in
  tcolumns_from_header indet header st
  = if bool_decide (tfields = 0) then
      Some (if py_oom st then ((0, None, 0), st1)
            else ((0, Some p, 0), set_mem (<[p := Columns []]> (py_mem st)) st1))
    else if bool_decide (C.UINT_MAX ≤ tfields) then None
    else if py_oom st then None
    else
      match columns_value header n 1 vars (long_error v) with
      | Some cols =>
          Some ((0, Some p, tfields),
                set_mem (<[p := Columns cols]> (py_mem st))
                  (after_lookups ("TFIELDS" :: columns_keys 1 n)
                     (columns_err (long_error v) header 1 n) st))
      | None => None
      end.
Proof.
  intros v tfields n vars p st1. unfold tcolumns_from_header.
  unfold bind at 1. rewrite get_header_long_run. fold v tfields st1.
  unfold bind at 1. unfold PyMem_Malloc. cbn [py_oom py_mem after_lookups st1]. fold p.
  case_bool_decide as H0.
  { rewrite H0. by destruct (py_oom st). }
  case_bool_decide as Hmax; [by destruct (py_oom st)|].
  destruct (py_oom st); [done|].
  unfold bind at 1. rewrite columns_loop_run. fold n vars.
  change (py_err (set_mem _ st1)) with (long_error v).
  destruct (columns_value header n 1 vars (long_error v)) as [cols|]; [|done].
  unfold bind, store, modify, ret. cbn [py_mem set_mem py_err py_getitem py_oom buf_reads].
  unfold set_mem, after_lookups, st1.
  cbn [py_mem py_err py_getitem py_oom buf_reads]. rewrite insert_insert_eq.
  unfold after_lookups. cbn [py_getitem py_oom buf_reads].
  by rewrite <- (assoc_L (++)).
Qed.

(** The descriptors, when every name and format is a string or absent. *)
Lemma columns_value_built header n : ∀ idx vars e,
  (∀ k, 0 ≤ k < Z.of_nat n →
     string_valued header (snprintf_tkw "TTYPE" (idx + k)) ∧
     string_valued header (snprintf_tkw "TFORM" (idx + k))) →
  ∃ cols,
    columns_value header n idx vars e = Some cols ∧ length cols = n ∧
    ∀ (i : nat) col, cols !! i = Some col →
      ∃ vars0 vars1,
        column_value header (idx + Z.of_nat i) vars0 (columns_err e header idx i)
        = Some (col, vars1).
Proof.
  induction n as [|n IH]; intros idx vars e Hstr.
  - exists []. split; [done|]. split; [done|]. intros i col Hi. done.
  - destruct (Hstr 0 ltac:(lia)) as [Ht Hf]. rewrite Z.add_0_r in Ht, Hf.
    assert (∃ r, column_value header idx vars e = Some r) as [[col vars'] Hcol].
    { unfold column_value.
      destruct (string_valued_read e header _ Ht) as [name ->].
      destruct (string_valued_read
                  (long_error (found None header (snprintf_tkw "TBCOL" idx))) header _ Hf)
        as [form ->].
      by eexists. }
    destruct (IH (idx + 1) vars' (column_err header idx)) as (cols & Hcols & Hlen & Hall).
    { intros k Hk. rewrite <- !Z.add_assoc. apply Hstr. lia. }
    exists (col :: cols). cbn [columns_value]. rewrite Hcol. cbn [mbind option_bind].
    rewrite Hcols. cbn [mbind option_bind].
    split; [done|]. split; [simpl; by rewrite Hlen|].
    intros [|i] col' Hi; simpl in Hi.
    + injection Hi as <-. exists vars, vars'. by rewrite Z.add_0_r.
    + destruct (Hall i col' Hi) as (vars0 & vars1 & Hv).
      exists vars0, vars1. rewrite columns_err_cons.
      by replace (idx + Z.of_nat (S i)) with (idx + 1 + Z.of_nat i) by lia.
Qed.

(** The returned int is 0 whenever the function returns: the status
    [fits_binary_tform] reports is never looked at. *)
Lemma tcolumns_from_header_returns_0 indet header st rc columns tfields st' :
  tcolumns_from_header indet header st = Some ((rc, columns, tfields), st') →
  rc = 0.
Proof.
  rewrite tcolumns_from_header_run.
  repeat case_bool_decide; destruct (py_oom st); try done;
    try (by intros [= <- _ _ _]).
  destruct (columns_value _ _ _ _ _); [|done]. by intros [= <- _ _ _].
Qed.

End ColumnFacts.
Lemma tfields_small_converts (v : option PyObject) :
  C.to_ulong (C.to_ulonglong (long_read v 0)) ≤ MAX_TFIELDS → long_error v = None.
Proof.
  destruct v as [v|]; [|done]. unfold long_read, long_error, long_value.
  destruct (long_of v); [done|]. vm_compute. intros Hle. by destruct Hle.
Qed.

Lemma columns_err_integer header idx (i : nat) :
  (∀ k, 0 ≤ k < Z.of_nat i → integer_valued header (snprintf_tkw "TNULL" (idx + k))) →
  columns_err None header idx i = None.
Proof.
  destruct i as [|i]; [done|]. intros Hint. cbn [columns_err].
  unfold column_err, tnull_found. apply integer_valued_error.
  exact (Hint (Z.of_nat i) ltac:(lia)).
Qed.

(** A column entered with no error pending and an integer TBCOLn holds
    the header's name and format, cut and closed by a NUL. *)
Lemma column_value_strings `{Cfitsio} header idx vars col vars' :
  column_value header idx vars None = Some (col, vars') →
  integer_valued header (snprintf_tkw "TBCOL" idx) →
  column_strings_ok header (snprintf_tkw "TTYPE" idx) (snprintf_tkw "TFORM" idx) col.
Proof.
  unfold column_value. intros Hcol Hint.
  rewrite (integer_valued_error None _ _ Hint) in Hcol.
  rewrite <- !header_string_read in Hcol.
  destruct (header_string header (snprintf_tkw "TTYPE" idx) "") as [name|] eqn:Hname;
    [|done].
  destruct (header_string header (snprintf_tkw "TFORM" idx) "") as [form|] eqn:Hform;
    [|done].
  cbn [mbind option_bind] in Hcol. injection Hcol as <- _.
  exists name, form. cbn [ttype tform].
  rewrite !strncpy_then_nul by done.
  split; [done|]. split; [done|].
  split; [by rewrite length_app, length_strncpy_chars|].
  split; [by rewrite lookup_app_r, length_strncpy_chars
            by (rewrite length_strncpy_chars; lia)|].
  split; [apply c_str_strncpy|].
  split; [rewrite c_str_strncpy; apply truncate_length|].
  split; [by rewrite length_app, length_strncpy_chars|].
  split; [by rewrite lookup_app_r, length_strncpy_chars
            by (rewrite length_strncpy_chars; lia)|].
  split; [apply c_str_strncpy|].
  rewrite c_str_strncpy. apply truncate_length.
Qed.

Lemma to_ulong_to_ulonglong z : C.to_ulong (C.to_ulonglong z) = C.to_ulong z.
Proof. unfold C.to_ulong, C.to_ulonglong, C.unsigned. apply Z.mod_mod. lia. Qed.

(** C7 (amended).  Entered with no exception pending, for a header that declares
    at most 999 columns, whose TTYPEn and TFORMn values are strings (or
    absent) and whose TBCOLn and TNULLn values are integers of a C long
    (or absent), with memory for the array, the descriptors get built and
    descriptor [n] holds the TTYPEn value cut to 69 chars and the TFORMn
    value cut to 9 chars, each in an array that ends in a NUL: a longer
    value is cut, not refused. *)
Theorem tcolumns_names_truncated (indet : Z * Z * Z) (header : PyObject) (st : PyState) :
  let tfields := C.to_ulong (header_long header "TFIELDS" 0) in
  py_err st = None →
  tfields ≤ MAX_TFIELDS →
  py_oom st = false →
  columns_string_valued header tfields →
  columns_integer_valued header tfields →
  ∃ p cols st',
    tcolumns_from_header indet header st = Some ((0, Some p, tfields), st') ∧
    py_mem st' !! p = Some (Columns cols) ∧
    Z.of_nat (length cols) = tfields ∧
    ∀ (i : nat) col, cols !! i = Some col →
      column_strings_ok header (keyword "TTYPE" (Z.of_nat i + 1))
        (keyword "TFORM" (Z.of_nat i + 1)) col.
Proof.
  intros tfields Herr Hmax Hoom Hstr Hint.
  assert (0 ≤ tfields) as Hpos by apply to_ulong_nonneg.
  rewrite tcolumns_from_header_run. cbv zeta. rewrite Herr, Hoom.
  rewrite to_ulong_to_ulonglong, <- header_long_read. fold tfields.
  assert (long_error (found None header "TFIELDS") = None) as Hconv.
  { apply tfields_small_converts.
    by rewrite to_ulong_to_ulonglong, <- header_long_read. }
  rewrite Hconv. unfold MAX_TFIELDS in Hmax.
  case_bool_decide as H0.
  - exists (fresh (dom (py_mem st))), []. eexists. split; [by rewrite H0|].
    cbn [py_mem set_mem]. rewrite lookup_insert_eq. split; [done|].
    split; [simpl; lia|]. intros i col Hi. done.
  - rewrite bool_decide_eq_false_2 by (c_bounds; lia).
    edestruct (columns_value_built header (Z.to_nat tfields) 1) as (cols & -> & Hlen & Hcols).
    { intros k Hk.
      destruct (snprintf_tkw_column_keyword (1 + k)) as (-> & _ & -> & _); [lia|].
      apply Hstr. lia. }
    exists (fresh (dom (py_mem st))), cols. eexists.
    split; [reflexivity|]. cbn [py_mem set_mem]. rewrite lookup_insert_eq.
    split; [done|]. split; [lia|].
    intros i col Hi.
    assert (i < length cols)%nat as Hi' by (by eapply lookup_lt_Some).
    destruct (Hcols i col Hi) as (vars0 & vars1 & Hcol).
    rewrite columns_err_integer in Hcol.
    + apply column_value_strings in Hcol.
      * destruct (snprintf_tkw_column_keyword (1 + Z.of_nat i)) as (Ht & _ & Hf & _);
          [lia|].
        rewrite Ht, Hf in Hcol. by rewrite Z.add_comm.
      * destruct (snprintf_tkw_column_keyword (1 + Z.of_nat i)) as (_ & -> & _); [lia|].
        exact (proj1 (Hint (1 + Z.of_nat i) ltac:(lia))).
    + intros k Hk.
      destruct (snprintf_tkw_column_keyword (1 + k)) as (_ & _ & _ & _ & _ & ->); [lia|].
      exact (proj2 (Hint (1 + k) ltac:(lia))).
Qed.

Lemma tcolumns_names_truncated_witness :
  ∃ p col st',
    tcolumns_from_header (0, 0, 0) header_long_strings clean_state
    = Some ((0, Some p, 1), st') ∧
    py_mem st' !! p = Some (Columns [col]) ∧
    C.c_str (tform col) = "1PB(12000" ∧
    String.length (C.c_str (ttype col)) = 69%nat.
Proof.
  assert (C.to_ulong (header_long header_long_strings "TFIELDS" 0) = 1) as Htf
    by (vm_compute; reflexivity).
  destruct (tcolumns_names_truncated (0, 0, 0) header_long_strings clean_state)
    as (p & cols & st' & Hrun & Hmem & Hlen & Hcols).
  - reflexivity.
  - rewrite Htf. vm_compute. discriminate.
  - reflexivity.
  - rewrite Htf. intros idx Hidx. assert (idx = 1) as -> by lia.
    split; eexists; vm_compute; reflexivity.
  - rewrite Htf. intros idx Hidx. assert (idx = 1) as -> by lia.
    split; exact I.
  - rewrite Htf in Hrun, Hlen.
    destruct cols as [|col [|? ?]]; simpl in Hlen; try lia.
    exists p, col, st'. split; [exact Hrun|]. split; [exact Hmem|].
    destruct (Hcols 0%nat col eq_refl)
      as (name & form & Hname & Hform & _ & _ & Hty & _ & _ & _ & Htfm & _).
    vm_compute in Hname. vm_compute in Hform.
    injection Hname as <-. injection Hform as <-.
    rewrite Hty, Htfm. split; vm_compute; reflexivity.
Defined.

(** Where the stored strings are not the header's: the keyword of column
    1000 does not fit [tkw] and is cut to that of column 100, so
    descriptor 1000 bears the name of column 100; and a TFORMn that is
    looked up while the error of a TBCOLn of text is pending is not found,
    so the stored format is empty. *)
Lemma stored_strings_not_the_header_values :
  (∃ p cols col st',
     tcolumns_from_header (0, 0, 0) header_1000_columns clean_state
     = Some ((0, Some p, 1000), st') ∧
     py_mem st' !! p = Some (Columns cols) ∧
     cols !! 999%nat = Some col ∧
     C.c_str (ttype col) = "HUNDRED" ∧
     header_string header_1000_columns (keyword "TTYPE" 1000) "" = Some "THOUSAND") ∧
  (∃ p col st',
     tcolumns_from_header (0, 0, 0) header_text_tbcol clean_state
     = Some ((0, Some p, 1), st') ∧
     py_mem st' !! p = Some (Columns [col]) ∧
     C.c_str (tform col) = "" ∧
     header_string header_text_tbcol (keyword "TFORM" 1) "" = Some "1PB").
Proof.
  split.
  - set (header := header_1000_columns).
    assert (∀ k, 0 ≤ k < 1000 →
              string_valued header (snprintf_tkw "TTYPE" (1 + k)) ∧
              string_valued header (snprintf_tkw "TFORM" (1 + k))) as Hstr.
    { assert (Forall (λ k, string_valued header (snprintf_tkw "TTYPE" (1 + k)) ∧
                           string_valued header (snprintf_tkw "TFORM" (1 + k)))
                (seqZ 0 1000)) as Hall.
      { apply (bool_decide_unpack _). vm_compute. reflexivity. }
      rewrite Forall_forall in Hall. intros k Hk. apply Hall, elem_of_seqZ. lia. }
    destruct (columns_value_built header 1000 1
                {| dtcode := 0; v_trepeat := 0; v_twidth := 0; status := 0 |}
                (long_error (found None header "TFIELDS")) Hstr)
      as (cols & Hrun & Hlen & Hcols).
    destruct (lookup_lt_is_Some_2 cols 999) as [col Hcol]; [lia|].
    exists (fresh (dom (py_mem clean_state))), cols, col. eexists.
    split.
    { rewrite tcolumns_from_header_run. cbv zeta.
      change (py_err clean_state) with (@None PyExc).
      change (py_oom clean_state) with false.
      assert (C.to_ulong (C.to_ulonglong (long_read (found None header "TFIELDS") 0)) = 1000)
        as -> by (vm_compute; reflexivity).
      change (Z.to_nat 1000) with 1000%nat.
      rewrite bool_decide_eq_false_2 by lia.
      rewrite bool_decide_eq_false_2 by (vm_compute; intros Hle; by apply Hle).
      cbn [fst snd]. rewrite Hrun. reflexivity. }
    cbn [py_mem set_mem]. rewrite lookup_insert_eq. split; [done|]. split; [done|].
    split; [|vm_compute; reflexivity].
    destruct (Hcols 999%nat col Hcol) as (vars0 & vars1 & Hval).
    unfold column_value in Hval.
    match type of Hval with
    | context [string_read ?v ""] =>
        assert (string_read v "" = Some "HUNDRED") as Hname by (vm_compute; reflexivity)
    end.
    rewrite Hname in Hval. cbn [mbind option_bind] in Hval.
    match type of Hval with
    | context [string_read ?v ""] => destruct (string_read v "") as [form|]; [|done]
    end.
    cbn [mbind option_bind] in Hval. injection Hval as <- _.
    cbn [ttype]. vm_compute. reflexivity.
  - eexists _, _, _. split; [vm_compute; reflexivity|].
    split; [vm_compute; reflexivity|].
    split; vm_compute; reflexivity.
Qed.
(** C2.  A header whose TFORM1 has the unknown type letter Z: the format
    parser reports failure, yet [tcolumns_from_header] returns 0 and
    hands back a descriptor, whose type code, repeat count and width are
    whatever the uninitialised locals held. *)
Theorem tcolumns_from_header_accepts_bad_tform :
  CfitsioModel.parse_tform "1Z" = None ∧
  ∃ p col st',
    tcolumns_from_header (7, 8, 9) header_bad_tform clean_state
    = Some ((0, Some p, 1), st') ∧
    py_err st' = None ∧
    py_mem st' !! p = Some (Columns [col]) ∧
    C.c_str (tform col) = "1Z" ∧
    tdatatype col = 7 ∧ trepeat col = 8 ∧ twidth col = 9.
Proof.
  split; [reflexivity|].
  eexists _, _, _. split; [vm_compute; reflexivity|].
  split; [reflexivity|]. split; [vm_compute; reflexivity|].
  repeat split.
Qed.

(** ** Opening a session *)

Lemma signed_unsigned w z : 0 < w → C.signed w (C.unsigned w z) = C.signed w z.
Proof.
  intros Hw. unfold C.signed, C.unsigned.
  by rewrite Zplus_mod_idemp_l.
Qed.

Lemma to_longlong_to_ulonglong z : C.is_long z → C.to_longlong (C.to_ulonglong z) = z.
Proof.
  intros Hz. unfold C.to_longlong, C.to_ulonglong.
  rewrite signed_unsigned by lia. apply signed_small; [lia|]. c_bounds. simpl. lia.
Qed.

Lemma to_ulonglong_mul a b :
  C.to_ulonglong (C.to_ulonglong a * C.to_ulonglong b) = C.to_ulonglong (a * b).
Proof. unfold C.to_ulonglong, C.unsigned. by rewrite <- Zmult_mod. Qed.

Lemma to_size_t_add a b :
  C.to_size_t (C.to_size_t a + C.to_size_t b) = C.to_size_t (a + b).
Proof. unfold C.to_size_t, C.unsigned. by rewrite <- Zplus_mod. Qed.

Lemma long_value_is_long o : C.is_long (long_value o).
Proof.
  unfold long_value, long_of. destruct o; try (c_bounds; lia).
  case_bool_decide; [done|c_bounds; lia].
Qed.

Lemma header_long_is_long header key def : C.is_long def → C.is_long (header_long header key def).
Proof.
  intros Hd. unfold header_long. destruct (getitem header key); [|done].
  apply long_value_is_long.
Qed.

Lemma header_long_found header key def z :
  getitem header key = inl (PyInt z) → C.is_long z → header_long header key def = z.
Proof.
  intros Hg Hz. unfold header_long, long_value, long_of. rewrite Hg.
  by rewrite bool_decide_eq_true_2.
Qed.

Lemma header_long_default header key def :
  lookup_fails header key → header_long header key def = def.
Proof. intros [e He]. unfold header_long. by rewrite He. Qed.

(** ** Opening a session *)

Section OpenFacts.
Context `{Cfitsio}.

(** A positive [status] on entry: [fits_create_memfile] creates nothing
    and the stores that follow have no file to go to. *)
Lemma open_from_pyfits_hdu_positive_status indet status hdu st :
  0 < status → open_from_pyfits_hdu indet status hdu st = None.
Proof.
  intros Hpos. unfold open_from_pyfits_hdu. unfold bind at 1.
  destruct (tcolumns_from_header indet (hdu_header hdu) st)
    as [[[[rc columns] tfields] st1]|]; [|done].
  unfold bind at 1. rewrite get_header_longlong_run. cbv zeta.
  unfold bind at 1. rewrite get_header_longlong_run. cbv zeta.
  unfold bind at 1. rewrite get_header_longlong_run. cbv zeta.
  unfold fits_create_memfile. by rewrite bool_decide_eq_true_2 by lia.
Qed.

(** What [open_from_pyfits_hdu] leaves in the file structure and in the
    interpreter, once the column descriptors are built and [status] was
    not positive. *)
Lemma open_from_pyfits_hdu_run indet status hdu st rc columns tfields st1 :
  tcolumns_from_header indet (hdu_header hdu) st = Some ((rc, columns, tfields), st1) →
  status ≤ 0 →
  let header := hdu_header hdu in
  let v1 := found (py_err st1) header "NAXIS1" in
  let v2 := found (long_error v1) header "NAXIS2" in
  let v3 := found (long_error v2) header "PCOUNT" in
  let rowlen := C.to_ulonglong (long_read v1 0) in
  let nrows := C.to_ulonglong (long_read v2 0) in
  let pcount := C.to_ulonglong (long_read v3 0) in
  let bufsize := C.to_size_t (PyArray_NBYTES (hdu_data hdu) + pcount) in
  ∃ f,
    open_from_pyfits_hdu indet status hdu st
    = Some (f, after_lookups ["NAXIS1"; "NAXIS2"; "PCOUNT"] (long_error v3) st1) ∧
    memsize f = (if bool_decide (bufsize < 2880) then 2880 else bufsize) ∧
    tableptr f = columns ∧
    numrows f = C.to_longlong nrows ∧
    rowlength f = C.to_longlong rowlen ∧
    heapstart f = C.to_longlong (C.to_ulonglong (rowlen * nrows)) ∧
    heapsize f = C.to_longlong pcount ∧
    compress_type f = RICE_1 ∧
    tfield f = C.to_int tfields ∧ hdutype f = BINARY_TBL ∧ datastart f = 0 ∧
    origrows f = numrows f ∧ zbitpix f = 16 ∧ zndim f = 2.
Proof.
  intros Hcols Hstatus header v1 v2 v3 rowlen nrows pcount bufsize.
  unfold open_from_pyfits_hdu. unfold bind at 1. rewrite Hcols.
  unfold bind at 1. rewrite get_header_longlong_run. cbv zeta. fold header v1.
  unfold bind at 1. rewrite get_header_longlong_run. cbv zeta.
  cbn [py_err after_lookups]. fold v2.
  unfold bind at 1. rewrite get_header_longlong_run. cbv zeta.
  cbn [py_err after_lookups]. fold v3.
  unfold fits_create_memfile. rewrite bool_decide_eq_false_2 by lia.
  eexists. split.
  { unfold ret. rewrite !after_lookups_app. reflexivity. }
  cbn [memsize tableptr numrows rowlength heapstart heapsize compress_type
       tfield hdutype datastart origrows zbitpix zndim configure_compression].
  rewrite to_size_t_add. repeat split.
Qed.

(** C6 (amended).  When the column descriptors are built and leave no
    exception pending, [status] is not positive on entry, and NAXIS1 and
    NAXIS2 are absent or integers of a C long: the row length, row count
    and heap size recorded for the session are the NAXIS1, NAXIS2 and
    PCOUNT values as [PyLong_AsLongLong] reads them - the integer the
    header holds when it fits 64 bits, 0 when the keyword is absent - and
    the heap start is row length times row count whenever that product
    fits a signed 64-bit integer. *)
Theorem heap_layout_from_header (indet : Z * Z * Z) (status : Z) (hdu : PyHDU)
    (st : PyState) :
  let header := hdu_header hdu in
  let naxis1 := header_long header "NAXIS1" 0 in
  let naxis2 := header_long header "NAXIS2" 0 in
  let pcount := header_long header "PCOUNT" 0 in
  (∃ r st1, tcolumns_from_header indet header st = Some (r, st1) ∧ py_err st1 = None) →
  status ≤ 0 →
  integer_valued header "NAXIS1" →
  integer_valued header "NAXIS2" →
  (∃ f st',
     open_from_pyfits_hdu indet status hdu st = Some (f, st') ∧
     rowlength f = naxis1 ∧ numrows f = naxis2 ∧ heapsize f = pcount ∧
     (C.is_long (naxis1 * naxis2) → heapstart f = rowlength f * numrows f)) ∧
  (∀ key z, getitem header key = inl (PyInt z) → C.is_long z →
     header_long header key 0 = z) ∧
  (∀ key, lookup_fails header key → header_long header key 0 = 0).
Proof.
  intros header naxis1 naxis2 pcount ([[rc columns] tfields] & st1 & Hcols & Herr)
    Hstatus Hint1 Hint2.
  split; [|split].
  - destruct (open_from_pyfits_hdu_run indet status hdu st rc columns tfields st1
                Hcols Hstatus)
      as (f & Hrun & _ & _ & Hrows & Hlen & Hstart & Hsize & _).
    fold header in Hrun, Hrows, Hlen, Hstart, Hsize.
    rewrite Herr in Hrun, Hrows, Hlen, Hstart, Hsize.
    rewrite (integer_valued_error None header "NAXIS1" Hint1)
      in Hrun, Hrows, Hstart, Hsize.
    rewrite (integer_valued_error None header "NAXIS2" Hint2) in Hrun, Hsize.
    rewrite <- !(header_long_read header "NAXIS1") in Hlen, Hstart.
    rewrite <- !(header_long_read header "NAXIS2") in Hrows, Hstart.
    rewrite <- !(header_long_read header "PCOUNT") in Hsize.
    fold naxis1 naxis2 pcount in Hrows, Hlen, Hstart, Hsize.
    assert (C.is_long 0) as H0 by (c_bounds; lia).
    eexists f, _. split; [exact Hrun|].
    rewrite Hlen, Hrows, Hsize.
    rewrite !to_longlong_to_ulonglong by (by apply header_long_is_long).
    repeat split. intros Hprod.
    rewrite Hstart, to_ulonglong_mul. by rewrite to_longlong_to_ulonglong.
  - intros key z Hg Hz. by apply header_long_found.
  - intros key Hk. by apply header_long_default.
Qed.

(** C9 (amended).  When the column descriptors are built, [status] is
    not positive on entry and NAXIS2 is absent or an integer of a C long,
    the memory file is declared with the size [data bytes + PCOUNT]
    reduced modulo 2^64, raised to 2880; whenever the data bytes and
    PCOUNT total less than 2880 and not less than 0, the declared size is
    exactly 2880. *)
Theorem memfile_size_floor (indet : Z * Z * Z) (status : Z) (hdu : PyHDU) (st : PyState) :
  let pcount := header_long (hdu_header hdu) "PCOUNT" 0 in
  let nbytes := PyArray_NBYTES (hdu_data hdu) in
  is_Some (tcolumns_from_header indet (hdu_header hdu) st) →
  status ≤ 0 →
  integer_valued (hdu_header hdu) "NAXIS2" →
  ∃ f st',
    open_from_pyfits_hdu indet status hdu st = Some (f, st') ∧
    memsize f = Z.max 2880 (C.to_size_t (nbytes + pcount)) ∧
    (0 ≤ nbytes + pcount < 2880 → memsize f = 2880).
Proof.
  intros pcount nbytes [[[[rc columns] tfields] st1] Hcols] Hstatus Hint.
  destruct (open_from_pyfits_hdu_run indet status hdu st rc columns tfields st1
              Hcols Hstatus)
    as (f & Hrun & Hsize & _).
  rewrite (integer_valued_error _ (hdu_header hdu) "NAXIS2" Hint) in Hrun, Hsize.
  rewrite <- header_long_read in Hsize. fold pcount nbytes in Hsize.
  assert (C.to_size_t (nbytes + C.to_ulonglong pcount) = C.to_size_t (nbytes + pcount))
    as Hmod.
  { unfold C.to_size_t, C.to_ulonglong, C.unsigned. by rewrite Zplus_mod_idemp_r. }
  rewrite Hmod in Hsize.
  eexists f, _. split; [exact Hrun|]. split.
  - rewrite Hsize. case_bool_decide; lia.
  - intros Hsmall. rewrite Hsize.
    unfold C.to_size_t. rewrite unsigned_small by lia.
    by rewrite bool_decide_eq_true_2 by lia.
Qed.

(** The session does not depend on the bytes of the data, only on how
    many they are. *)
Lemma open_from_pyfits_hdu_data_independent indet status hdu hdu' st :
  hdu_header hdu' = hdu_header hdu →
  length (hdu_data hdu') = length (hdu_data hdu) →
  open_from_pyfits_hdu indet status hdu' st = open_from_pyfits_hdu indet status hdu st.
Proof.
  intros Hh Hd. unfold open_from_pyfits_hdu, PyArray_NBYTES. by rewrite Hh, Hd.
Qed.

End OpenFacts.

Lemma heap_layout_from_header_witness :
  ∃ f st',
    open_from_pyfits_hdu (0, 0, 0) 0 hdu_heap_past_buffer clean_state = Some (f, st') ∧
    rowlength f = 100 ∧ numrows f = 100 ∧ heapstart f = 10000 ∧ heapsize f = 5000.
Proof.
  destruct (heap_layout_from_header (0, 0, 0) 0 hdu_heap_past_buffer clean_state)
    as [(f & st' & Hrun & Hlen & Hrows & Hsize & Hstart) _].
  - eexists _, _. split; [vm_compute; reflexivity|reflexivity].
  - lia.
  - eexists. vm_compute. reflexivity.
  - eexists. vm_compute. reflexivity.
  - exists f, st'. split; [exact Hrun|].
    rewrite Hstart, Hlen, Hrows, Hsize by (vm_compute; split; discriminate).
    repeat split.
Defined.

(** C6, as stated, fails where the product wraps: for a header declaring
    2^32 rows of 2^32 bytes the heap start recorded is 0. *)
Lemma heap_start_wraps :
  ∃ f st',
    open_from_pyfits_hdu (0, 0, 0) 0 hdu_huge_table clean_state = Some (f, st') ∧
    rowlength f = 4294967296 ∧ numrows f = 4294967296 ∧
    heapstart f = 0 ∧ heapstart f ≠ rowlength f * numrows f.
Proof.
  eexists _, _. split; [vm_compute; reflexivity|].
  repeat split. vm_compute. discriminate.
Qed.

Lemma memfile_size_floor_witness :
  ∃ f st',
    open_from_pyfits_hdu (0, 0, 0) 0 hdu_small clean_state = Some (f, st') ∧
    memsize f = 2880.
Proof.
  destruct (memfile_size_floor (0, 0, 0) 0 hdu_small clean_state)
    as (f & st' & Hrun & _ & Hsmall).
  - eexists. vm_compute. reflexivity.
  - lia.
  - exact I.
  - exists f, st'. split; [exact Hrun|]. apply Hsmall. vm_compute.
    split; [discriminate|reflexivity].
Defined.

(** C9, as stated, fails for a negative PCOUNT: the data bytes and
    PCOUNT total -1, less than 2880, and the size declared is 2^64 - 1. *)
Lemma memfile_size_wraps :
  ∃ f st',
    open_from_pyfits_hdu (0, 0, 0) 0 hdu_negative_pcount clean_state = Some (f, st') ∧
    PyArray_NBYTES (hdu_data hdu_negative_pcount)
    + header_long (hdu_header hdu_negative_pcount) "PCOUNT" 0 = -1 ∧
    memsize f = 18446744073709551615 ∧ memsize f ≠ 2880.
Proof.
  eexists _, _. split; [vm_compute; reflexivity|].
  split; [vm_compute; reflexivity|]. split; [vm_compute; reflexivity|].
  vm_compute. discriminate.
Qed.
(** *** No function of the module reads the data buffer *)

Create HintDb reads.

Lemma reads_nothing_ret {A} (a : A) : reads_nothing (ret a).
Proof. intros st a' st' [= _ <-]. done. Qed.

Lemma reads_nothing_crash {A} : reads_nothing (@crash A).
Proof. intros st a st' [=]. Qed.

Lemma reads_nothing_bind {A B} (m : M A) (k : A → M B) :
  reads_nothing m → (∀ a, reads_nothing (k a)) → reads_nothing (bind m k).
Proof.
  intros Hm Hk st b st'. unfold bind.
  destruct (m st) as [[a st1]|] eqn:Hrun; [|done].
  intros Hk'. rewrite (Hk a st1 b st' Hk'). by eapply Hm.
Qed.

Lemma reads_nothing_modify f :
  (∀ st, buf_reads (f st) = buf_reads st) → reads_nothing (modify f).
Proof. intros Hf st [] st' [= <-]. apply Hf. Qed.

Lemma reads_nothing_gets {A} (f : PyState → A) : reads_nothing (gets f).
Proof. intros st a st' [= _ <-]. done. Qed.

(** A read of the buffer is told apart: the count goes up. *)
Lemma first_byte_reads : ¬ reads_nothing (first_byte hdu_small).
Proof.
  intros Hreads.
  by specialize (Hreads clean_state Byte.x00
                   {| py_err := None; py_getitem := []; py_mem := ∅;
                      py_oom := false; buf_reads := 1 |} eq_refl).
Qed.

#[local] Hint Resolve reads_nothing_ret reads_nothing_crash : reads.

Ltac reads_step :=
  first
    [ apply reads_nothing_ret
    | apply reads_nothing_crash
    | apply reads_nothing_bind; [|intros]
    | apply reads_nothing_modify; intros; reflexivity
    | apply reads_nothing_gets
    | match goal with
      | |- reads_nothing (match ?x with _ => _ end) => destruct x
      | |- reads_nothing (if ?b then _ else _) => destruct b
      end
    | solve [eauto with reads] ].

Lemma reads_nothing_PyErr_Set e : reads_nothing (PyErr_Set e).
Proof. unfold PyErr_Set. repeat reads_step. Qed.

Lemma reads_nothing_PyErr_Clear : reads_nothing PyErr_Clear.
Proof. unfold PyErr_Clear. repeat reads_step. Qed.

Lemma reads_nothing_PyErr_Occurred : reads_nothing PyErr_Occurred.
Proof. unfold PyErr_Occurred. repeat reads_step. Qed.

#[local] Hint Resolve reads_nothing_PyErr_Set reads_nothing_PyErr_Clear
  reads_nothing_PyErr_Occurred : reads.

Lemma reads_nothing_GetItem o key : reads_nothing (PyObject_GetItem o key).
Proof. unfold PyObject_GetItem. repeat reads_step. Qed.

Lemma reads_nothing_AsString o : reads_nothing (PyString_AsString o).
Proof. unfold PyString_AsString. repeat reads_step. Qed.

Lemma reads_nothing_AsLong o : reads_nothing (PyLong_AsLong o).
Proof. unfold PyLong_AsLong. repeat reads_step. Qed.

Lemma reads_nothing_AsDouble o : reads_nothing (PyLong_AsDouble o).
Proof. unfold PyLong_AsDouble. repeat reads_step. Qed.

Lemma reads_nothing_Malloc b : reads_nothing (PyMem_Malloc b).
Proof.
  intros st a st'. unfold PyMem_Malloc.
  destruct (py_oom st); intros [= _ <-]; reflexivity.
Qed.

Lemma reads_nothing_store p b : reads_nothing (store p b).
Proof. unfold store. repeat reads_step. Qed.

#[local] Hint Resolve reads_nothing_GetItem reads_nothing_AsString
  reads_nothing_AsLong reads_nothing_AsDouble reads_nothing_Malloc
  reads_nothing_store : reads.

Lemma reads_nothing_get_header_string h k d : reads_nothing (get_header_string h k d).
Proof. unfold get_header_string. repeat reads_step. Qed.

Lemma reads_nothing_get_header_long h k d : reads_nothing (get_header_long h k d).
Proof. unfold get_header_long. repeat reads_step. Qed.

Lemma reads_nothing_get_header_double h k d : reads_nothing (get_header_double h k d).
Proof. unfold get_header_double. repeat reads_step. Qed.

Lemma reads_nothing_get_header_longlong h k d : reads_nothing (get_header_longlong h k d).
Proof. unfold get_header_longlong, PyLong_AsLongLong. repeat reads_step. Qed.

#[local] Hint Resolve reads_nothing_get_header_string reads_nothing_get_header_long
  reads_nothing_get_header_double reads_nothing_get_header_longlong : reads.

Section ReadsFacts.
Context `{Cfitsio}.

Lemma reads_nothing_tcolumn h idx vars : reads_nothing (tcolumn_from_header h idx vars).
Proof. unfold tcolumn_from_header. repeat reads_step. Qed.

Lemma reads_nothing_columns_loop h n : ∀ idx vars, reads_nothing (columns_loop h n idx vars).
Proof.
  induction n as [|n IH]; intros idx vars; simpl; [apply reads_nothing_ret|].
  apply reads_nothing_bind; [apply reads_nothing_tcolumn|].
  intros [col vars']. apply reads_nothing_bind; [apply IH|].
  intros rest. apply reads_nothing_ret.
Qed.

Lemma reads_nothing_tcolumns indet h : reads_nothing (tcolumns_from_header indet h).
Proof.
  unfold tcolumns_from_header.
  repeat first [apply reads_nothing_columns_loop | reads_step].
Qed.

(** Opening a session reads nothing from the data buffer, whatever the
    header declares. *)
Lemma reads_nothing_open indet status hdu :
  reads_nothing (open_from_pyfits_hdu indet status hdu).
Proof.
  unfold open_from_pyfits_hdu.
  apply reads_nothing_bind; [apply reads_nothing_tcolumns|].
  intros [[rc columns] tfields]. repeat reads_step.
Qed.

(** A [status] that is not positive makes no difference. *)
Lemma open_from_pyfits_hdu_status indet status hdu st :
  status ≤ 0 →
  open_from_pyfits_hdu indet status hdu st = open_from_pyfits_hdu indet 0 hdu st.
Proof.
  intros Hstatus.
  destruct (tcolumns_from_header indet (hdu_header hdu) st)
    as [[[[rc columns] tfields] st1]|] eqn:Hcols.
  - destruct (open_from_pyfits_hdu_run indet status hdu st rc columns tfields st1
                Hcols Hstatus) as (f & Hrun & Hf).
    destruct (open_from_pyfits_hdu_run indet 0 hdu st rc columns tfields st1
                Hcols ltac:(lia)) as (f0 & Hrun0 & Hf0).
    rewrite Hrun, Hrun0. clear Hf Hf0.
    unfold open_from_pyfits_hdu, bind in Hrun, Hrun0. rewrite Hcols in Hrun, Hrun0.
    repeat match type of Hrun with
    | context [get_header_longlong ?h ?k ?d ?s] =>
        destruct (get_header_longlong h k d s) as [[? ?]|]; [|done]
    end.
    unfold fits_create_memfile in Hrun, Hrun0.
    rewrite bool_decide_eq_false_2 in Hrun, Hrun0 by lia.
    congruence.
  - unfold open_from_pyfits_hdu, bind. by rewrite Hcols.
Qed.

End ReadsFacts.

(** C1.  A header whose heap region (start 10000, size 5000) lies beyond
    both the 100 bytes of data and the 5100 bytes declared for the memory
    file.  Whatever the uninitialised [status] holds on entry, no error is
    raised: when it is positive the behaviour is undefined; otherwise the
    session is opened all the same, with no comparison made, and nothing
    is read from the buffer. *)
Theorem open_from_pyfits_hdu_no_bounds_check :
  ∀ status : Z,
    (0 < status ∧
     open_from_pyfits_hdu (0, 0, 0) status hdu_heap_past_buffer clean_state = None) ∨
    (status ≤ 0 ∧
     ∃ f st',
       open_from_pyfits_hdu (0, 0, 0) status hdu_heap_past_buffer clean_state
       = Some (f, st') ∧
       heapstart f = 10000 ∧ heapsize f = 5000 ∧
       PyArray_NBYTES (hdu_data hdu_heap_past_buffer) = 100 ∧
       memsize f = 5100 ∧
       heapstart f + heapsize f > memsize f ∧
       py_err st' = None ∧
       buf_reads st' = buf_reads clean_state).
Proof.
  intros status. destruct (decide (0 < status)) as [Hpos|Hneg].
  - left. split; [done|]. by apply open_from_pyfits_hdu_positive_status.
  - right. split; [lia|]. rewrite open_from_pyfits_hdu_status by lia.
    eexists _, _. split; [vm_compute; reflexivity|].
    repeat split.
Qed.
(** * Further properties of the module *)

(** ** The getters on a key that is present *)


Lemma found_present header key v : getitem header key = inl v → found None header key = Some v.
Proof. intros Hg. unfold found. by rewrite Hg. Qed.



(** X2.  Entered with no exception pending, a key that is present with
    a value of the wrong type is not treated as missing.  The integer
    getters return the unsigned form of -1, the string getter returns
    NULL, and [get_header_double], which converts with [PyLong_AsDouble],
    returns -1.0 for anything that is no integer, a Python float
    included; the default is ignored and the conversion's error is left
    set. *)
Theorem getters_wrong_type_not_default
    (header : PyObject) (key : string) (st : PyState) (v : PyObject) (e : PyExc)
    (def_s : option string) (def_l def_ll : Z) (def_d : float) :
  py_err st = None →
  getitem header key = inl v →
  (long_of v = inr e →
   get_header_longlong header key def_ll st
   = Some (C.ULONG_MAX, set_err (Some e) (log_getitem key st)) ∧
   get_header_long header key def_l st
   = Some (C.ULONG_MAX, set_err (Some e) (log_getitem key st))) ∧
  ((∀ s, v ≠ PyStr s) →
   get_header_string header key def_s st
   = Some (None, set_err (Some PyExc_TypeError) (log_getitem key st))) ∧
  ((∀ z, v ≠ PyInt z) →
   get_header_double header key def_d st
   = Some ((-1)%float, set_err (Some PyExc_TypeError) (log_getitem key st))).
Proof.
  intros Herr Hg.
  rewrite get_header_longlong_run, get_header_long_run, get_header_string_run_default,
    get_header_double_run. cbv zeta.
  rewrite Herr, (found_present _ _ _ Hg).
  cbn [long_read long_error string_read string_error double_read double_error].
  split; [|split].
  - intros Hl. unfold long_value. rewrite Hl. done.
  - intros Hs. destruct v; try done. by destruct (Hs s).
  - intros Hi. destruct v; try done. by destruct (Hi z).
Qed.

Lemma getters_wrong_type_not_default_witness :
  get_header_double header_mixed "TSCAL1" 1%float clean_state
  = Some ((-1)%float,
          set_err (Some PyExc_TypeError) (log_getitem "TSCAL1" clean_state)) ∧
  get_header_longlong header_mixed "TTYPE1" 7 clean_state
  = Some (18446744073709551615,
          set_err (Some PyExc_TypeError) (log_getitem "TTYPE1" clean_state)).
Proof.
  split.
  - destruct (getters_wrong_type_not_default header_mixed "TSCAL1" clean_state
      (PyFloat 2.5%float) PyExc_TypeError None 0 0 1%float eq_refl eq_refl)
      as (_ & _ & Hd).
    apply Hd. intros z. discriminate.
  - destruct (getters_wrong_type_not_default header_mixed "TTYPE1" clean_state
      (PyStr "FLUX") PyExc_TypeError None 0 7 1%float eq_refl eq_refl) as (Hl & _ & _).
    destruct (Hl eq_refl) as [Hll _]. exact Hll.
Defined.

(** ** What a run looks up *)

Lemma columns_keys_keywords (n : nat) :
  Z.of_nat n ≤ 999 → "TFIELDS" :: columns_keys 1 n = table_keywords (Z.of_nat n).
Proof.
  intros Hn. unfold table_keywords, columns_keys. f_equal. f_equal.
  apply list_fmap_ext. intros i idx Hi.
  apply column_keys_keywords.
  apply list_elem_of_lookup_2, elem_of_seqZ in Hi. lia.
Qed.

Section TableFacts.
Context `{Cfitsio}.

(** The whole run for a table of at most 999 columns whose names and
    formats are strings, entered with no exception pending and with
    memory for the array. *)
Lemma tcolumns_from_header_value indet header st :
  let tfields := C.to_ulong (header_long header "TFIELDS" 0) in
  let p := fresh (dom (py_mem st)) in
  py_err st = None →
  tfields ≤ MAX_TFIELDS →
  py_oom st = false →
  columns_string_valued header tfields →
  ∃ cols,
    tcolumns_from_header indet header st
    = Some ((0, Some p, tfields),
            set_mem (<[p := Columns cols]> (py_mem st))
              (after_lookups (table_keywords tfields)
                 (columns_err None header 1 (Z.to_nat tfields)) st)) ∧
    Z.of_nat (length cols) = tfields ∧
    ∀ (i : nat) col, cols !! i = Some col →
      ∃ vars0 vars1,
        column_value header (1 + Z.of_nat i) vars0 (columns_err None header 1 i)
        = Some (col, vars1).
Proof.
  intros tfields p Herr Hmax Hoom Hstr.
  assert (0 ≤ tfields) as Hpos by apply to_ulong_nonneg.
  rewrite tcolumns_from_header_run. cbv zeta. rewrite Herr, Hoom.
  rewrite to_ulong_to_ulonglong, <- header_long_read. fold tfields p.
  assert (long_error (found None header "TFIELDS") = None) as Hconv.
  { apply tfields_small_converts.
    by rewrite to_ulong_to_ulonglong, <- header_long_read. }
  rewrite Hconv. unfold MAX_TFIELDS in Hmax.
  case_bool_decide as H0.
  - exists []. rewrite H0. split; [done|]. split; [done|]. intros i col Hi. done.
  - rewrite bool_decide_eq_false_2 by (c_bounds; lia).
    edestruct (columns_value_built header (Z.to_nat tfields) 1) as (cols & -> & Hlen & Hcols).
    { intros k Hk.
      destruct (snprintf_tkw_column_keyword (1 + k)) as (-> & _ & -> & _); [lia|].
      apply Hstr. lia. }
    exists cols. rewrite columns_keys_keywords by lia. rewrite Z2Nat.id by lia.
    split; [done|]. split; [lia|]. exact Hcols.
Qed.


(** X4.  A header with no TFIELDS keyword, or with a count of 0,
    describes no column: [tcolumns_from_header] makes the single lookup
    of TFIELDS, returns 0 and a count of 0, and hands back an empty
    block, or NULL when the allocator is exhausted; with no column to
    fill, the NULL is not dereferenced. *)
Theorem tcolumns_no_columns (indet : Z * Z * Z) (header : PyObject) (st : PyState) :
  (lookup_fails header "TFIELDS" → C.to_ulong (header_long header "TFIELDS" 0) = 0) ∧
  (C.to_ulong (header_long header "TFIELDS" 0) = 0 →
   ∃ columns st',
     tcolumns_from_header indet header st = Some ((0, columns, 0), st') ∧
     py_getitem st' = py_getitem st ++ ["TFIELDS"] ∧
     (py_oom st = true → columns = None ∧ py_mem st' = py_mem st) ∧
     (py_oom st = false →
      ∃ p, columns = Some p ∧ py_mem st !! p = None ∧
           py_mem st' = <[p := Columns []]> (py_mem st))).
Proof.
  split.
  - intros Hk. by rewrite header_long_default.
  - intros H0. rewrite tcolumns_from_header_run. cbv zeta.
    assert (C.to_ulong (C.to_ulonglong (long_read (found (py_err st) header "TFIELDS") 0))
            = 0) as ->.
    { rewrite to_ulong_to_ulonglong. destruct (py_err st); [done|].
      by rewrite <- header_long_read. }
    rewrite bool_decide_eq_true_2 by done.
    destruct (py_oom st) eqn:Hoom.
    + eexists _, _. split; [done|]. split; [done|]. split; [done|]. done.
    + eexists _, _. split; [done|]. cbn. split; [done|]. split; [done|].
      intros _. eexists. split; [done|].
      split; [apply not_elem_of_dom, is_fresh|done].
Qed.

(** X5.  Entered with no exception pending and with one column or more
    declared, the run of [tcolumns_from_header] is undefined when the
    allocator is exhausted (the NULL array is written to), when the count
    reaches [UINT_MAX] (the [unsigned int] counter wraps before the loop
    can end), when the first column's TTYPE value is no string, or when
    its TBCOL value is an integer of a C long (or absent) and its TFORM
    value is no string ([strncpy] from NULL).  A negative TFIELDS, and
    one that is no integer, reads as a count above [UINT_MAX]. *)
Theorem tcolumns_undefined_runs (indet : Z * Z * Z) (header : PyObject) (st : PyState) :
  let tfields := C.to_ulong (header_long header "TFIELDS" 0) in
  (header_long header "TFIELDS" 0 < 0 → C.UINT_MAX ≤ tfields) ∧
  ((∀ z, getitem header "TFIELDS" ≠ inl (PyInt z)) → ¬ lookup_fails header "TFIELDS" →
   C.UINT_MAX ≤ tfields) ∧
  (py_err st = None →
   tfields ≠ 0 →
   py_oom st = true ∨ C.UINT_MAX ≤ tfields ∨
   ¬ string_valued header (keyword "TTYPE" 1) ∨
   (integer_valued header (keyword "TBCOL" 1) ∧
    ¬ string_valued header (keyword "TFORM" 1)) →
   tcolumns_from_header indet header st = None).
Proof.
  intros tfields.
  assert (header_long header "TFIELDS" 0 < 0 → C.UINT_MAX ≤ tfields) as Hneg.
  { intros Hlt.
    pose proof (header_long_is_long header "TFIELDS" 0 ltac:(c_bounds; lia)) as Hl.
    unfold tfields, C.to_ulong, C.unsigned. c_bounds.
    rewrite <- (Z_mod_plus_full _ 1). rewrite Z.mod_small; lia. }
  split; [exact Hneg|]. split.
  - intros Hni Hnf. apply Hneg. unfold header_long, lookup_fails in *.
    destruct (getitem header "TFIELDS") as [v|e]; [|destruct Hnf; by eexists].
    unfold long_value, long_of. destruct v; try lia. by destruct (Hni z).
  - intros Herr H0 Hbad. rewrite tcolumns_from_header_run. cbv zeta. rewrite Herr.
    rewrite to_ulong_to_ulonglong, <- header_long_read. fold tfields.
    rewrite bool_decide_eq_false_2 by done.
    destruct (decide (C.UINT_MAX ≤ tfields)) as [Hbig|Hsmall].
    { by rewrite bool_decide_eq_true_2. }
    rewrite bool_decide_eq_false_2 by done.
    destruct (py_oom st) eqn:Hoom; [done|].
    destruct Hbad as [[=]|[Hbig|Hbad]]; [done|].
    pose proof (to_ulong_nonneg (header_long header "TFIELDS" 0)) as Hpos.
    fold tfields in Hpos.
    assert (long_error (found None header "TFIELDS") = None) as ->.
    { destruct (found None header "TFIELDS") as [v|] eqn:Hv; [|done].
      unfold found in Hv. unfold long_error.
      destruct (long_of v) as [|e] eqn:Hl; [done|]. exfalso. apply Hsmall, Hneg.
      unfold header_long, long_value. destruct (getitem header "TFIELDS"); [|done].
      injection Hv as ->. rewrite Hl. lia. }
    destruct (Z.to_nat tfields) as [|n] eqn:Hn; [lia|].
    cbn [columns_value]. unfold column_value.
    destruct (snprintf_tkw_column_keyword 1 ltac:(lia)) as (-> & -> & -> & _).
    unfold string_valued in Hbad. rewrite !header_string_read in Hbad.
    destruct Hbad as [Hbad|[Hint Hbad]].
    + destruct (string_read (found None header (keyword "TTYPE" 1)) "") eqn:Hs; [|done].
      destruct Hbad. by eexists.
    + destruct (string_read (found None header (keyword "TTYPE" 1)) ""); [|done].
      cbn [mbind option_bind]. rewrite (integer_valued_error None _ _ Hint).
      destruct (string_read (found None header (keyword "TFORM" 1)) "") eqn:Hs; [|done].
      destruct Hbad. by eexists.
Qed.

End TableFacts.


Lemma tcolumns_no_columns_witness :
  ∃ st',
    tcolumns_from_header (0, 0, 0) empty_header oom_state = Some ((0, None, 0), st') ∧
    py_getitem st' = ["TFIELDS"].
Proof.
  destruct (tcolumns_no_columns (0, 0, 0) empty_header oom_state) as [_ Hrun].
  destruct Hrun as (columns & st' & Hrun & Hlog & Hoom & _); [vm_compute; reflexivity|].
  destruct (Hoom eq_refl) as [-> _].
  exists st'. split; [exact Hrun|exact Hlog].
Defined.

Lemma tcolumns_undefined_runs_witness :
  tcolumns_from_header (0, 0, 0) header_negative_tfields clean_state = None ∧
  tcolumns_from_header (0, 0, 0) header_bad_tform oom_state = None.
Proof.
  split.
  - destruct (tcolumns_undefined_runs (0, 0, 0) header_negative_tfields clean_state)
      as (Hneg & _ & Hnone).
    apply Hnone; [reflexivity|vm_compute; discriminate|].
    right. left. apply Hneg. vm_compute. reflexivity.
  - destruct (tcolumns_undefined_runs (0, 0, 0) header_bad_tform oom_state)
      as (_ & _ & Hnone).
    apply Hnone; [reflexivity|vm_compute; discriminate|]. by left.
Defined.

(** ** What a descriptor holds *)

Lemma c_str_of_nul_free s : nul_free s → C.c_str_of s = s.
Proof.
  unfold nul_free, C.c_str_of, NUL. induction s as [|c s IH]; [done|].
  simpl. intros Hs. inversion Hs as [|? ? Hc Hs']; subst.
  apply Ascii.eqb_neq in Hc. rewrite Hc. by rewrite IH.
Qed.

Lemma truncate_short n : ∀ s, (String.length s ≤ n)%nat → truncate n s = s.
Proof.
  unfold truncate. induction n as [|n IH]; intros [|c s] Hlen; simpl in *; try done; try lia.
  f_equal. apply IH. lia.
Qed.


Section DescriptorFacts.
Context `{Cfitsio}.


Lemma column_strings_ok_kept header idx col :
  column_strings_ok header (keyword "TTYPE" idx) (keyword "TFORM" idx) col →
  column_strings_kept header idx col.
Proof.
  intros (name & form & Hname & Hform & _ & _ & Ht & _ & _ & _ & Hf & _).
  unfold column_strings_kept. rewrite Ht, Hf. unfold header_string in Hname, Hform.
  repeat split.
  - intros name' Hg Hnul Hlen. rewrite Hg in Hname. injection Hname as <-.
    rewrite c_str_of_nul_free by done. by apply truncate_short.
  - intros form' Hg Hnul Hlen. rewrite Hg in Hform. injection Hform as <-.
    rewrite c_str_of_nul_free by done. by apply truncate_short.
  - intros [e He]. rewrite He in Hname. by injection Hname as <-.
  - intros [e He]. rewrite He in Hform. by injection Hform as <-.
Qed.


(** X7.  Entered with no exception pending and with memory for the
    array, for a header that declares at most 999 columns whose TTYPEn
    and TFORMn values are strings (or absent) and whose TBCOLn and TNULLn
    values are integers of a C long (or absent): a column name of at most
    69 chars and a format of at most 9 chars, with no NUL inside, come
    back from the descriptor exactly as the header holds them, and an
    absent name or format is stored as the empty string: storing and
    reading back is the identity on short strings. *)
Theorem tcolumns_short_strings_kept (indet : Z * Z * Z) (header : PyObject) (st : PyState) :
  let tfields := C.to_ulong (header_long header "TFIELDS" 0) in
  py_err st = None →
  tfields ≤ MAX_TFIELDS →
  py_oom st = false →
  columns_string_valued header tfields →
  columns_integer_valued header tfields →
  ∃ p cols st',
    tcolumns_from_header indet header st = Some ((0, Some p, tfields), st') ∧
    py_mem st' !! p = Some (Columns cols) ∧
    Z.of_nat (length cols) = tfields ∧
    ∀ (i : nat) col, cols !! i = Some col →
      column_strings_kept header (Z.of_nat i + 1) col.
Proof.
  intros tfields Herr Hn Hoom Hstr Hint.
  destruct (tcolumns_from_header_value indet header st Herr Hn Hoom Hstr)
    as (cols & Hrun & Hlen & Hcols).
  fold tfields in Hrun, Hlen. unfold MAX_TFIELDS in Hn.
  eexists _, cols, _. split; [exact Hrun|].
  split; [cbn [py_mem set_mem]; by rewrite lookup_insert_eq|]. split; [done|].
  intros i col Hi. destruct (Hcols i col Hi) as (vars0 & vars1 & Hval).
  apply lookup_lt_Some in Hi.
  rewrite columns_err_integer in Hval.
  - apply column_value_strings in Hval.
    + destruct (snprintf_tkw_column_keyword (1 + Z.of_nat i)) as (Ht & _ & Hf & _);
        [lia|].
      rewrite Ht, Hf in Hval. rewrite Z.add_comm. by apply column_strings_ok_kept.
    + destruct (snprintf_tkw_column_keyword (1 + Z.of_nat i)) as (_ & -> & _); [lia|].
      exact (proj1 (Hint (1 + Z.of_nat i) ltac:(lia))).
  - intros k Hk.
    destruct (snprintf_tkw_column_keyword (1 + k)) as (_ & _ & _ & _ & _ & ->); [lia|].
    exact (proj2 (Hint (1 + k) ltac:(lia))).
Qed.

(** X8.  Entered with no exception pending, with memory for the array
    and with a [status] that is not positive, for a header that declares
    at most 999 columns whose TTYPEn and TFORMn values are strings (or
    absent): opening a session from an in-memory HDU allocates exactly
    one block, the array of descriptors, and keeps it: on return the
    block is live, [tableptr] points to it, it holds [tfield]
    descriptors (the TFIELDS count), and no other block was allocated or
    freed.  The file is marked a binary table whose data start at offset
    0 and whose original and current row counts agree. *)
Theorem open_keeps_descriptor_block (indet : Z * Z * Z) (status : Z) (hdu : PyHDU)
    (st : PyState) :
  let header := hdu_header hdu in
  let tfields := C.to_ulong (header_long header "TFIELDS" 0) in
  py_err st = None →
  status ≤ 0 →
  tfields ≤ MAX_TFIELDS →
  py_oom st = false →
  columns_string_valued header tfields →
  ∃ f st' p cols,
    open_from_pyfits_hdu indet status hdu st = Some (f, st') ∧
    tableptr f = Some p ∧
    py_mem st !! p = None ∧
    py_mem st' = <[p := Columns cols]> (py_mem st) ∧
    tfield f = tfields ∧ Z.of_nat (length cols) = tfield f ∧
    hdutype f = BINARY_TBL ∧ datastart f = 0 ∧ origrows f = numrows f.
Proof.
  intros header tfields Herr Hstatus Hn Hoom Hstr.
  pose proof (to_ulong_nonneg (header_long header "TFIELDS" 0)) as Hpos.
  fold tfields in Hpos.
  destruct (tcolumns_from_header_value indet header st Herr Hn Hoom Hstr)
    as (cols & Hrun & Hlen & _).
  fold tfields in Hrun, Hlen. unfold MAX_TFIELDS in Hn.
  destruct (open_from_pyfits_hdu_run indet status hdu st _ _ _ _ Hrun Hstatus)
    as (f & Hopen & _ & Hptr & _ & _ & _ & _ & _ & Htf & Hty & Hds & Hrows & _).
  eexists f, _, _, cols. split; [exact Hopen|]. split; [exact Hptr|].
  split; [apply not_elem_of_dom, is_fresh|].
  split; [done|].
  assert (tfield f = tfields) as Htf'.
  { rewrite Htf. apply to_int_small. c_bounds. lia. }
  split; [done|]. split; [by rewrite Htf'|]. done.
Qed.

(** X9.  Entered with no exception pending, with memory for the array
    and with a [status] that is not positive, for a header that declares
    at most 999 columns whose TTYPEn and TFORMn values are strings (or
    absent), the keywords an open looks up, in order: TFIELDS, then for
    each column TTYPEn, TBCOLn, TFORMn, TSCALn, TZEROn and TNULLn, then
    NAXIS1, NAXIS2 and PCOUNT, and nothing else.  No keyword that starts
    with Z is ever consulted - not ZCMPTYPE, ZBITPIX, ZNAXISn nor ZTILEn
    - although the session comes back configured for RICE_1 on 16-bit
    pixels in two dimensions. *)
Theorem open_lookups (indet : Z * Z * Z) (status : Z) (hdu : PyHDU) (st : PyState) :
  let header := hdu_header hdu in
  let tfields := C.to_ulong (header_long header "TFIELDS" 0) in
  let keys := table_keywords tfields ++ ["NAXIS1"; "NAXIS2"; "PCOUNT"] in
  py_err st = None →
  status ≤ 0 →
  tfields ≤ MAX_TFIELDS →
  py_oom st = false →
  columns_string_valued header tfields →
  ∃ f st',
    open_from_pyfits_hdu indet status hdu st = Some (f, st') ∧
    py_getitem st' = py_getitem st ++ keys ∧
    (∀ k, k ∈ keys → String.prefix "Z" k = false) ∧
    compress_type f = RICE_1 ∧ zbitpix f = 16 ∧ zndim f = 2.
Proof.
  intros header tfields keys Herr Hstatus Hn Hoom Hstr.
  destruct (tcolumns_from_header_value indet header st Herr Hn Hoom Hstr)
    as (cols & Hrun & _).
  fold tfields in Hrun.
  destruct (open_from_pyfits_hdu_run indet status hdu st _ _ _ _ Hrun Hstatus)
    as (f & Hopen & _ & _ & _ & _ & _ & _ & Hct & _ & _ & _ & _ & Hbp & Hnd).
  eexists f, _. split; [exact Hopen|]. split; [|split; [|done]].
  - cbn [py_getitem after_lookups set_mem]. unfold keys.
    by rewrite <- (assoc_L (++)).
  - intros k Hk. unfold keys, table_keywords in Hk.
    apply elem_of_app in Hk as [Hk|Hk].
    + apply elem_of_cons in Hk as [->|Hk]; [done|].
      apply list_elem_of_In, in_concat in Hk as (l & Hl & Hkl).
      apply list_elem_of_In in Hl, Hkl.
      apply list_elem_of_fmap in Hl as (idx & -> & _).
      unfold column_keywords in Hkl.
      repeat (apply elem_of_cons in Hkl as [->|Hkl]; [done|]).
      by apply elem_of_nil in Hkl.
    + repeat (apply elem_of_cons in Hk as [->|Hk]; [done|]).
      by apply elem_of_nil in Hk.
Qed.

End DescriptorFacts.

Lemma header_two_columns_strings :
  columns_string_valued header_two_columns 2.
Proof.
  intros idx Hidx. assert (idx = 1 ∨ idx = 2) as [-> | ->] by lia;
    split; eexists; vm_compute; reflexivity.
Qed.

Lemma header_two_columns_integers :
  columns_integer_valued header_two_columns 2.
Proof.
  intros idx Hidx. assert (idx = 1 ∨ idx = 2) as [-> | ->] by lia.
  - split; exact I.
  - split; [exact I|]. exists (-32768). reflexivity.
Qed.

Lemma header_two_columns_tfields :
  C.to_ulong (header_long header_two_columns "TFIELDS" 0) = 2.
Proof. vm_compute. reflexivity. Qed.


Lemma tcolumns_short_strings_kept_witness :
  ∃ p col1 col2 st',
    tcolumns_from_header (0, 0, 0) header_two_columns clean_state
    = Some ((0, Some p, 2), st') ∧
    py_mem st' !! p = Some (Columns [col1; col2]) ∧
    C.c_str (ttype col1) = "COMPRESSED_DATA" ∧ C.c_str (tform col1) = "1PB(440)" ∧
    C.c_str (ttype col2) = "ZSCALE" ∧ C.c_str (tform col2) = "1D".
Proof.
  pose proof header_two_columns_tfields as Htf.
  destruct (tcolumns_short_strings_kept (0, 0, 0) header_two_columns clean_state)
    as (p & cols & st' & Hrun & Hmem & Hlen & Hcols).
  - reflexivity.
  - rewrite Htf. vm_compute. discriminate.
  - reflexivity.
  - rewrite Htf. exact header_two_columns_strings.
  - rewrite Htf. exact header_two_columns_integers.
  - rewrite Htf in Hrun, Hlen.
    destruct cols as [|col1 [|col2 [|? ?]]]; simpl in Hlen; try lia.
    exists p, col1, col2, st'. split; [exact Hrun|]. split; [exact Hmem|].
    destruct (Hcols 0%nat col1 eq_refl) as (Ht1 & Hf1 & _).
    destruct (Hcols 1%nat col2 eq_refl) as (Ht2 & Hf2 & _).
    assert (∀ s, bool_decide (nul_free s) = true → nul_free s) as Hdec
      by (intros s; apply bool_decide_eq_true_1).
    split; [apply Ht1; [vm_compute; reflexivity|apply Hdec; vm_compute; reflexivity|
                        vm_compute; lia]|].
    split; [apply Hf1; [vm_compute; reflexivity|apply Hdec; vm_compute; reflexivity|
                        vm_compute; lia]|].
    split; [apply Ht2; [vm_compute; reflexivity|apply Hdec; vm_compute; reflexivity|
                        vm_compute; lia]|].
    apply Hf2; [vm_compute; reflexivity|apply Hdec; vm_compute; reflexivity|vm_compute; lia].
Defined.

Lemma open_keeps_descriptor_block_witness :
  ∃ f st' p col1 col2,
    open_from_pyfits_hdu (0, 0, 0) 0 hdu_two_columns clean_state = Some (f, st') ∧
    tableptr f = Some p ∧
    py_mem st' = {[ p := Columns [col1; col2] ]} ∧
    tfield f = 2.
Proof.
  pose proof header_two_columns_tfields as Htf.
  destruct (open_keeps_descriptor_block (0, 0, 0) 0 hdu_two_columns clean_state)
    as (f & st' & p & cols & Hrun & Hptr & _ & Hmem & Htfield & Hlen & _);
    [reflexivity|lia| |reflexivity| |];
    try change (hdu_header hdu_two_columns) with header_two_columns;
    [rewrite Htf; vm_compute; discriminate
    |rewrite Htf; exact header_two_columns_strings|].
  change (hdu_header hdu_two_columns) with header_two_columns in Htfield.
  rewrite Htf in Htfield. rewrite Htfield in Hlen.
  destruct cols as [|col1 [|col2 [|? ?]]]; simpl in Hlen; try lia.
  exists f, st', p, col1, col2.
  split; [exact Hrun|]. split; [exact Hptr|]. split; [exact Hmem|exact Htfield].
Defined.

Lemma open_lookups_witness :
  ∃ f st',
    open_from_pyfits_hdu (0, 0, 0) 0 hdu_two_columns clean_state = Some (f, st') ∧
    py_getitem st'
    = ["TFIELDS"; "TTYPE1"; "TBCOL1"; "TFORM1"; "TSCAL1"; "TZERO1"; "TNULL1";
       "TTYPE2"; "TBCOL2"; "TFORM2"; "TSCAL2"; "TZERO2"; "TNULL2";
       "NAXIS1"; "NAXIS2"; "PCOUNT"].
Proof.
  pose proof header_two_columns_tfields as Htf.
  destruct (open_lookups (0, 0, 0) 0 hdu_two_columns clean_state)
    as (f & st' & Hrun & Hlog & _);
    [reflexivity|lia| |reflexivity| |];
    try change (hdu_header hdu_two_columns) with header_two_columns;
    [rewrite Htf; vm_compute; discriminate
    |rewrite Htf; exact header_two_columns_strings|].
  exists f, st'. split; [exact Hrun|].
  change (hdu_header hdu_two_columns) with header_two_columns in Hlog.
  rewrite Htf in Hlog. exact Hlog.
Defined.

(** ** The list-based wrappers *)

(** X10.  [select_codec] reads past the end of the ZVAL array in exactly
    one case: the tag HCOMPRESS_1 with a single ZVAL, where the smoothing
    flag is taken from the second element as soon as there is a first.
    In every other case it succeeds, choosing the codec by exact match of
    the tag (none of the four: no compression), the Rice block size and
    bytes per pixel from the first and second ZVAL of a RICE_1 tag (32
    and 4 when not given), and leaving them at 32 and 4 for other tags. *)
Theorem select_codec_defined (tag : string) (zval : list Z) :
  Z.of_nat (length zval) ≤ C.INT_MAX →
  (select_codec tag zval = None ↔ tag = "HCOMPRESS_1" ∧ length zval = 1%nat) ∧
  (select_codec tag zval ≠ None → select_codec tag zval = Some (codec_params tag zval)).
Proof.
  intros Hlen. unfold select_codec, codec_params, codec_of_tag.
  rewrite to_int_small by (c_bounds; lia).
  destruct (String.eqb_spec tag "RICE_1") as [->|Hr].
  { destruct zval as [|z0 [|z1 rest]]; simpl;
      repeat case_bool_decide; try lia; (split; [split; [done|by intros [[=] _]]|done]). }
  destruct (String.eqb_spec tag "GZIP_1") as [->|Hg].
  { simpl. split; [split; [done|by intros [[=] _]]|done]. }
  destruct (String.eqb_spec tag "HCOMPRESS_1") as [->|Hh].
  { destruct zval as [|z0 [|z1 rest]]; simpl;
      repeat case_bool_decide; try lia.
    - split; [split; [done|by intros [_ [=]]]|done].
    - split; [split; [done|done]|done].
    - split; [split; [done|by intros [_ [=]]]|done]. }
  destruct (String.eqb_spec tag "PLIO_1") as [->|Hp].
  { simpl. split; [split; [done|by intros [[=] _]]|done]. }
  split; [split; [done|by intros [? _]]|done].
Qed.

Lemma select_codec_defined_witness :
  select_codec "HCOMPRESS_1" [16] = None ∧
  select_codec "RICE_1" [16; 2] = Some (RICE_1, 16, 2, 0) ∧
  select_codec "HCOMPRESS_1" [0; 1] = Some (HCOMPRESS_1, 32, 4, 1).
Proof.
  assert (∀ l : list Z, (length l ≤ 2)%nat → Z.of_nat (length l) ≤ C.INT_MAX) as Hl
    by (intros l Hlen; c_bounds; lia).
  split; [|split].
  - apply (proj1 (select_codec_defined "HCOMPRESS_1" [16] (Hl [16] ltac:(simpl; lia)))). done.
  - apply (proj2 (select_codec_defined "RICE_1" [16; 2] (Hl [16; 2] ltac:(simpl; lia)))).
    intros Hnone.
    apply (proj1 (select_codec_defined "RICE_1" [16; 2] (Hl [16; 2] ltac:(simpl; lia)))) in Hnone.
    by destruct Hnone as [[=] _].
  - apply (proj2 (select_codec_defined "HCOMPRESS_1" [0; 1] (Hl [0; 1] ltac:(simpl; lia)))).
    intros Hnone.
    apply (proj1 (select_codec_defined "HCOMPRESS_1" [0; 1] (Hl [0; 1] ltac:(simpl; lia)))) in Hnone.
    by destruct Hnone as [_ [=]].
Defined.

(** The arrays the loop leaves, entered at axis [length pre_n]. *)
Lemma tiling_loop_arrays suf_n : ∀ suf_t pre_n pre_t t t' m,
  length pre_n = length pre_t → length suf_n = length suf_t →
  (length suf_n ≤ m)%nat →
  t_znaxis t = pre_n ++ replicate m 1 →
  t_tilesize t = pre_t ++ replicate m 1 →
  tiling_loop (pre_n ++ suf_n) (pre_t ++ suf_t) (length suf_n) (length pre_n) t = Some t' →
  t_znaxis t' = pre_n ++ suf_n ++ replicate (m - length suf_n) 1 ∧
  t_tilesize t' = pre_t ++ suf_t ++ replicate (m - length suf_t) 1.
Proof.
  induction suf_n as [|n suf_n IH]; intros [|ts suf_t] pre_n pre_t t t' m
    Hpre Hsuf Hm Hzn Hts Hrun; try discriminate.
  - simpl in *. injection Hrun as <-. by rewrite Nat.sub_0_r.
  - simpl length in *. cbn [tiling_loop] in Hrun. unfold tiling_step in Hrun.
    rewrite (list_lookup_middle pre_t suf_t ts (length pre_n)) in Hrun by done.
    rewrite (list_lookup_middle pre_n suf_n n (length pre_n)) in Hrun by done.
    simpl in Hrun. case_bool_decide; [|done].
    destruct (long_result (t_maxtilelen t * ts)) as [len|]; [|done]. simpl in Hrun.
    destruct (tiles_along n ts) as [c|]; [|done]. simpl in Hrun.
    destruct (long_result (ntiles t * c)) as [prod|]; [|done]. simpl in Hrun.
    destruct m as [|m]; [lia|].
    match type of Hrun with
    | tiling_loop _ _ _ _ ?t1 = _ =>
        specialize (IH suf_t (pre_n ++ [n]) (pre_t ++ [ts]) t1 t' m)
    end.
    rewrite !length_app in IH. simpl in IH.
    rewrite <- !(assoc_L (++)) in IH. simpl in IH.
    replace (length pre_n + 1)%nat with (S (length pre_n)) in IH by lia.
    destruct IH as [Hzn' Hts']; try done; try lia.
    + rewrite Hzn. rewrite insert_app_r_alt by lia. by rewrite Nat.sub_diag.
    + rewrite Hts, Hpre. rewrite insert_app_r_alt by lia. by rewrite Nat.sub_diag.
Qed.

(** X11.  For image and tile extents that are at least 1 on [n] axes,
    [n] at most [MAX_COMPRESS_DIM], with a tile length that fits a long
    and a tile count that fits an int, the tiling set-up stores the
    extents in the first [n] entries of its two arrays and leaves 1 in
    the others, so that axes beyond the dimensionality count as single;
    the tile length is the product of the tile extents. *)
Theorem compressData_tiling_arrays (naxes tileSize : list Z) :
  length naxes = length tileSize →
  (length naxes ≤ MAX_COMPRESS_DIM)%nat →
  Forall extent naxes → Forall extent tileSize →
  product tileSize ≤ C.LONG_MAX →
  tile_count naxes tileSize ≤ C.INT_MAX →
  ∃ t, compressData_tiling (Z.of_nat (length naxes)) naxes tileSize = Some t ∧
       t_znaxis t = naxes ++ replicate (MAX_COMPRESS_DIM - length naxes) 1 ∧
       t_tilesize t = tileSize ++ replicate (MAX_COMPRESS_DIM - length naxes) 1 ∧
       length (t_znaxis t) = MAX_COMPRESS_DIM ∧
       length (t_tilesize t) = MAX_COMPRESS_DIM ∧
       t_maxtilelen t = product tileSize.
Proof.
  intros Hlen Hdim Hn Ht Hprod Hcount.
  unfold compressData_tiling. rewrite Nat2Z.id.
  set (t0 := {| t_znaxis := replicate MAX_COMPRESS_DIM 1;
                t_tilesize := replicate MAX_COMPRESS_DIM 1;
                t_maxtilelen := 1; ntiles := 1 |}).
  destruct (tiling_loop_count naxes tileSize [] [] t0) as (t' & Hrun & _ & Hmax);
    simpl; try done; try lia.
  simpl in Hrun.
  destruct (tiling_loop_arrays naxes tileSize [] [] t0 t' MAX_COMPRESS_DIM)
    as [Hzn Hts]; try done.
  simpl in Hzn, Hts. exists t'. split; [done|].
  rewrite Hzn, Hts, Hmax, <- Hlen.
  split; [done|]. split; [done|].
  split; [rewrite length_app, length_replicate; lia|].
  split; [rewrite length_app, length_replicate; lia|]. simpl. lia.
Qed.

Lemma compressData_tiling_arrays_witness :
  ∃ t, compressData_tiling 2 [440; 300] [100; 1] = Some t ∧
       t_znaxis t = [440; 300; 1; 1; 1; 1] ∧
       t_tilesize t = [100; 1; 1; 1; 1; 1] ∧
       t_maxtilelen t = 100.
Proof.
  destruct (compressData_tiling_arrays [440; 300] [100; 1])
    as (t & Hrun & Hzn & Hts & _ & _ & Hmax).
  - reflexivity.
  - vm_compute. lia.
  - repeat constructor; vm_compute; discriminate.
  - repeat constructor; vm_compute; discriminate.
  - vm_compute. discriminate.
  - vm_compute. discriminate.
  - exists t. split; [exact Hrun|]. split; [exact Hzn|]. split; [exact Hts|exact Hmax].
Defined.

Lemma tiling_step_breaks naxes tileSize i t :
  axis_breaks naxes tileSize i → tiling_step naxes tileSize i t = None.
Proof.
  unfold axis_breaks, tiling_step, tiles_along.
  intros [Hn|[Hts|[Hts|Hi]]].
  - by rewrite Hn.
  - rewrite Hts. by destruct (naxes !! i).
  - rewrite Hts. destruct (naxes !! i) as [n|]; [|done]. simpl.
    case_bool_decide; [|done].
    destruct (long_result (t_maxtilelen t * 0)); [|done]. simpl.
    destruct (long_result (n - 1)); [|done]. simpl.
    first [done | by rewrite bool_decide_eq_true_2].
  - destruct (naxes !! i); [|done]. simpl. destruct (tileSize !! i); [|done]. simpl.
    by rewrite bool_decide_eq_false_2 by lia.
Qed.

Lemma tiling_loop_breaks naxes tileSize i n : ∀ ii t,
  (ii ≤ i < ii + n)%nat → axis_breaks naxes tileSize i →
  tiling_loop naxes tileSize n ii t = None.
Proof.
  induction n as [|n IH]; intros ii t Hi Hbreak; [lia|].
  cbn [tiling_loop].
  destruct (decide (ii = i)) as [->|Hne].
  - by rewrite tiling_step_breaks.
  - destruct (tiling_step naxes tileSize ii t) as [t1|]; [|done]. simpl.
    apply IH; [lia|done].
Qed.

(** X12.  The tiling set-up is undefined as soon as one of the [naxis]
    axes it walks has no entry in one of the two lists, has a tile extent
    of 0 (a division by zero), or lies at or beyond [MAX_COMPRESS_DIM]
    (a store past the end of the fixed arrays): no check guards the
    declared dimensionality or the extents. *)
Theorem compressData_tiling_undefined (naxis : Z) (naxes tileSize : list Z) (i : nat) :
  Z.of_nat i < naxis →
  axis_breaks naxes tileSize i →
  compressData_tiling naxis naxes tileSize = None.
Proof.
  intros Hi Hbreak. unfold compressData_tiling.
  apply (tiling_loop_breaks naxes tileSize i); [lia|done].
Qed.

Lemma compressData_tiling_undefined_witness :
  compressData_tiling 2 [440; 300] [440; 0] = None ∧
  compressData_tiling 3 [440; 300] [440; 1] = None ∧
  compressData_tiling 7 [2; 2; 2; 2; 2; 2; 2] [1; 1; 1; 1; 1; 1; 1] = None.
Proof.
  split; [|split].
  - apply (compressData_tiling_undefined 2 [440; 300] [440; 0] 1); [lia|].
    right. right. left. reflexivity.
  - apply (compressData_tiling_undefined 3 [440; 300] [440; 1] 2); [lia|].
    left. reflexivity.
  - apply (compressData_tiling_undefined 7 _ _ 6); [lia|].
    right. right. right. vm_compute. lia.
Defined.

Lemma to_int_le z : 0 ≤ z → C.to_int z ≤ z.
Proof.
  intros Hz. unfold C.to_int, C.signed.
  change (2 ^ (32 - 1)) with 2147483648. change (2 ^ 32) with 4294967296.
  pose proof (Z.mod_le (z + 2147483648) 4294967296). lia.
Qed.

(** The run on a list of any length whose [int] size is not negative:
    the first [size] items are converted. *)
Lemma get_long_array_take_run items (ds : bool) st :
  let size := C.to_int (Z.of_nat (length items)) in
  0 ≤ size → py_oom st = false →
  let its := take (Z.to_nat size) items in
  let p := fresh (dom (py_mem st)) in
  let e := err_after its (py_err st) in
  let written := if ds then Some size else None in
  get_long_array (PyList items) ds st
  = Some (if bool_decide (is_Some e)
          then ((None, written), set_err e st)
          else ((Some p, written),
                set_err e (set_mem (<[p := Longs (long_value <$> its)]> (py_mem st)) st))).
Proof.
  intros size Hsize Hoom its p e written. unfold get_long_array. fold size.
  rewrite bool_decide_eq_false_2 by lia. fold its.
  assert (length its = Z.to_nat size) as Hlen.
  { unfold its. rewrite length_take.
    pose proof (to_int_le (Z.of_nat (length items)) ltac:(lia)). fold size in H. lia. }
  unfold bind at 1. unfold PyMem_Malloc. rewrite Hoom. fold p.
  assert (py_mem st !! p = None) as Hfresh.
  { apply not_elem_of_dom. apply is_fresh. }
  unfold bind at 1.
  rewrite (fill_longs_run p its [] (replicate (Z.to_nat size) 0));
    [|cbn [py_mem set_mem]; by rewrite lookup_insert_eq|by rewrite length_replicate].
  cbn [app py_mem set_mem set_err py_err]. rewrite insert_insert_eq. fold e.
  unfold bind, PyErr_Occurred, gets, PyMem_Free, modify, ret. cbn [py_err set_err].
  destruct (bool_decide (is_Some e)); [|done].
  cbn [py_mem set_mem set_err]. rewrite delete_insert_eq, delete_id by done.
  by destruct st.
Qed.

(** The outcomes of [get_long_array], for every argument and state. *)
Lemma get_long_array_outcome (data : PyObject) (ds : bool) (st : PyState) :
  ∃ r w st',
    get_long_array data ds st = Some ((r, w), st') ∧
    py_getitem st' = py_getitem st ∧ py_oom st' = py_oom st ∧
    buf_reads st' = buf_reads st ∧
    match r with
    | None => is_Some (py_err st') ∧ py_mem st' = py_mem st
    | Some p =>
        py_err st' = None ∧ py_err st = None ∧ py_mem st !! p = None ∧
        ∃ a, py_mem st' = <[p := Longs a]> (py_mem st) ∧
             (ds = true → w = Some (Z.of_nat (length a)))
    end.
Proof.
  assert (∀ ex, ∃ r w st',
    (run PyErr_Set ex then ret (None, None)) st = Some ((r : option nat, w : option Z), st') ∧
    py_getitem st' = py_getitem st ∧ py_oom st' = py_oom st ∧
    buf_reads st' = buf_reads st ∧
    match r with
    | None => is_Some (py_err st') ∧ py_mem st' = py_mem st
    | Some p =>
        py_err st' = None ∧ py_err st = None ∧ py_mem st !! p = None ∧
        ∃ a, py_mem st' = <[p := Longs a]> (py_mem st) ∧
             (ds = true → w = Some (Z.of_nat (length a)))
    end) as Hraise.
  { intros ex. exists None, None, (set_err (Some ex) st).
    split; [done|]. do 3 (split; [done|]). split; [by eexists|done]. }
  destruct data as [| | | |items|]; try apply Hraise.
  destruct (decide (C.to_int (Z.of_nat (length items)) < 0)) as [Hneg|Hsize].
  { unfold get_long_array. rewrite bool_decide_eq_true_2 by done. apply Hraise. }
  destruct (py_oom st) eqn:Hoom.
  { unfold get_long_array. rewrite bool_decide_eq_false_2 by done.
    unfold bind at 1. unfold PyMem_Malloc. rewrite Hoom.
    eexists None, _, (set_err (Some PyExc_MemoryError) st).
    split; [done|]. do 3 (split; [done|]). split; [by eexists|done]. }
  rewrite get_long_array_take_run by (done || lia).
  set (size := C.to_int (Z.of_nat (length items))) in *.
  set (its := take (Z.to_nat size) items).
  assert (length its = Z.to_nat size) as Hlen.
  { unfold its. rewrite length_take.
    pose proof (to_int_le (Z.of_nat (length items)) ltac:(lia)). fold size in H. lia. }
  case_bool_decide as He.
  - eexists None, _, _. split; [done|]. do 3 (split; [by destruct st|]).
    split; [by destruct st|by destruct st].
  - eexists (Some _), _, _. split; [done|]. do 3 (split; [by destruct st|]).
    assert (err_after its (py_err st) = None) as Hnone.
    { destruct (err_after its (py_err st)) eqn:E; [|done]. destruct He. by eexists. }
    split; [by destruct st|].
    split.
    { destruct (py_err st) as [ex|] eqn:Hst; [|done].
      exfalso. apply He. clear -its. unfold err_after.
      generalize ex. induction its as [|x its IH]; intros ex0; [by eexists|].
      simpl. destruct (long_of x); apply IH. }
    split; [apply not_elem_of_dom, is_fresh|].
    exists (long_value <$> its). split; [by destruct st|].
    intros ->. rewrite length_fmap, Hlen. f_equal. lia.
Qed.

(** X13.  [get_long_array] returns for every argument and in every
    state, and it keeps the convention of the Python C API in each of
    its outcomes: it returns NULL exactly when an exception is pending on
    return.  With NULL the memory is as it was before the call (the block
    allocated for a list that then fails to convert has been freed); with
    a pointer, no exception was pending before the call either, and the
    memory has gained exactly one block, at an address that was free,
    whose length is the size stored through [data_size]. *)
Theorem get_long_array_null_iff_exception (data : PyObject) (ds : bool) (st : PyState) :
  ∃ r w st',
    get_long_array data ds st = Some ((r, w), st') ∧
    py_getitem st' = py_getitem st ∧
    match r with
    | None => is_Some (py_err st') ∧ py_mem st' = py_mem st
    | Some p =>
        py_err st' = None ∧ py_err st = None ∧ py_mem st !! p = None ∧
        ∃ a, py_mem st' = <[p := Longs a]> (py_mem st) ∧
             (ds = true → w = Some (Z.of_nat (length a)))
    end.
Proof.
  destruct (get_long_array_outcome data ds st) as (r & w & st' & Hrun & Hlog & _ & _ & Hr).
  by exists r, w, st'.
Qed.

(** ** The argument stage of the list-based wrappers *)

Lemma release_fresh {B} (p : nat) (b : B) (m : gmap nat B) :
  m !! p = None → release (Some p) (<[p := b]> m) = m.
Proof. intros Hp. simpl. by rewrite delete_insert_eq, delete_id. Qed.

Lemma release_other {B} (p q : nat) (b : B) (m : gmap nat B) :
  p ≠ q → release (Some p) (<[q := b]> m) = <[q := b]> (release (Some p) m).
Proof. intros Hpq. simpl. by rewrite delete_insert_ne. Qed.

Lemma PyMem_Free_ptr_run p st :
  PyMem_Free_ptr p st = Some (tt, set_mem (release p (py_mem st)) st).
Proof. destruct p; [done|]. by destruct st. Qed.

Lemma lift_run {A} (m : M A) a py st :
  m (xs_py st) = Some (a, py) → lift m st = Some (a, set_py py st).
Proof. unfold lift. by intros ->. Qed.

Lemma xfree_run p st : xfree p st = Some (tt, set_heap (release p (xs_heap st)) st).
Proof. destruct p; [done|]. by destruct st. Qed.

(** The outcomes of the three conversions at the head of
    [compression_decompressData]. *)
Lemma decompressData_arrays_outcome (o1 o2 o3 : PyObject) (py : PyState) :
  ∃ r py',
    decompressData_arrays o1 o2 o3 py = Some (r, py') ∧
    py_getitem py' = py_getitem py ∧ py_oom py' = py_oom py ∧
    buf_reads py' = buf_reads py ∧
    match r with
    | inr l =>
        is_Some (py_err py') ∧
        d_nUcTiles l = 0 ∧ d_uncompressedData l = None ∧
        d_numUncompressedVals l = None ∧
        release (d_zval l) (release (d_tileSize l) (release (d_naxes l) (py_mem py')))
        = py_mem py
    | inl l =>
        py_err py' = None ∧ py_err py = None ∧
        d_nUcTiles l = 0 ∧ d_uncompressedData l = None ∧
        d_numUncompressedVals l = None ∧ d_datatype l = None ∧
        ∃ p1 p2 p3 a1 a2 a3,
          d_naxes l = Some p1 ∧ d_tileSize l = Some p2 ∧ d_zval l = Some p3 ∧
          d_numzVals l = Some (Z.of_nat (length a3)) ∧
          py_mem py !! p1 = None ∧ py_mem py !! p2 = None ∧ py_mem py !! p3 = None ∧
          p1 ≠ p2 ∧ p1 ≠ p3 ∧ p2 ≠ p3 ∧
          py_mem py' = <[p3 := Longs a3]> (<[p2 := Longs a2]> (<[p1 := Longs a1]> (py_mem py)))
    end.
Proof.
  unfold decompressData_arrays.
  destruct (get_long_array_outcome o1 false py)
    as (r1 & w1 & py1 & Hrun1 & Hlog1 & Hoom1 & Hbuf1 & Hr1).
  unfold bind at 1. rewrite Hrun1.
  destruct r1 as [p1|]; cycle 1.
  { eexists (inr _), py1. split; [done|]. do 3 (split; [done|]).
    destruct Hr1 as [He Hm]. by rewrite Hm. }
  destruct Hr1 as (He1 & He0 & Hp1 & a1 & Hm1 & _).
  destruct (get_long_array_outcome o2 false py1)
    as (r2 & w2 & py2 & Hrun2 & Hlog2 & Hoom2 & Hbuf2 & Hr2).
  unfold bind at 1. rewrite Hrun2.
  destruct r2 as [p2|]; cycle 1.
  { eexists (inr _), py2. split; [done|].
    split; [congruence|]. split; [congruence|]. split; [congruence|].
    destruct Hr2 as [He Hm]. split; [done|]. do 3 (split; [done|]).
    cbn [d_zval d_tileSize d_naxes set_tileSize set_naxes decompress_locals0 release].
    rewrite Hm, Hm1. by apply release_fresh. }
  destruct Hr2 as (He2 & _ & Hp2 & a2 & Hm2 & _).
  assert (p2 ≠ p1) as Hne21.
  { intros ->. rewrite Hm1, lookup_insert_eq in Hp2. done. }
  destruct (get_long_array_outcome o3 true py2)
    as (r3 & w3 & py3 & Hrun3 & Hlog3 & Hoom3 & Hbuf3 & Hr3).
  unfold bind at 1. rewrite Hrun3.
  destruct r3 as [p3|]; cycle 1.
  { eexists (inr _), py3. split; [done|].
    split; [congruence|]. split; [congruence|]. split; [congruence|].
    destruct Hr3 as [He Hm]. split; [done|]. do 3 (split; [done|]).
    cbn [d_zval d_tileSize d_naxes set_zval set_tileSize set_naxes decompress_locals0].
    rewrite Hm, Hm2, Hm1. rewrite Hm1 in Hp2.
    rewrite lookup_insert_ne in Hp2 by done.
    rewrite (release_other p1 p2) by done.
    rewrite (release_fresh p1) by done. by rewrite (release_fresh p2) by done. }
  destruct Hr3 as (He3 & _ & Hp3 & a3 & Hm3 & Hw3).
  rewrite Hm2, Hm1 in Hp3. rewrite Hm1 in Hp2.
  assert (p3 ≠ p2) as Hne32 by (intros ->; by rewrite lookup_insert_eq in Hp3).
  rewrite lookup_insert_ne in Hp3 by done.
  assert (p3 ≠ p1) as Hne31 by (intros ->; by rewrite lookup_insert_eq in Hp3).
  rewrite lookup_insert_ne in Hp3 by done.
  rewrite lookup_insert_ne in Hp2 by done.
  eexists (inl _), py3. split; [done|].
  split; [congruence|]. split; [congruence|]. split; [congruence|].
  split; [done|]. split; [done|]. do 4 (split; [done|]).
  exists p1, p2, p3, a1, a2, a3.
  rewrite (Hw3 eq_refl). cbn.
  do 7 (split; [done|]). do 3 (split; [done|]).
  by rewrite Hm3, Hm2, Hm1.
Qed.

(** The outcomes of the three conversions at the head of the loop of
    [compression_compressData]. *)
Lemma compressData_arrays_outcome (o1 o2 o3 : PyObject) (py : PyState) :
  ∃ r py',
    compressData_arrays o1 o2 o3 py = Some (r, py') ∧
    py_getitem py' = py_getitem py ∧ py_oom py' = py_oom py ∧
    buf_reads py' = buf_reads py ∧
    match r with
    | inr p =>
        is_Some (py_err py') ∧
        c_dataLen p = None ∧ c_data p = None ∧ c_cn_zscale p = None ∧
        c_cn_zzero p = None ∧ c_ucData p = None ∧ c_ucDataLen p = None ∧
        release (c_zval p) (release (c_tileSize p) (release (c_naxes p) (py_mem py')))
        = py_mem py
    | inl (p, n) =>
        py_err py' = None ∧ py_err py = None ∧
        ∃ p1 p2 p3 a1 a2 a3,
          c_naxes p = Some p1 ∧ c_tileSize p = Some p2 ∧ c_zval p = Some p3 ∧
          n = Some (Z.of_nat (length a3)) ∧
          py_mem py !! p1 = None ∧ py_mem py !! p2 = None ∧ py_mem py !! p3 = None ∧
          p1 ≠ p2 ∧ p1 ≠ p3 ∧ p2 ≠ p3 ∧
          py_mem py' = <[p3 := Longs a3]> (<[p2 := Longs a2]> (<[p1 := Longs a1]> (py_mem py)))
    end.
Proof.
  unfold compressData_arrays.
  destruct (get_long_array_outcome o1 false py)
    as (r1 & w1 & py1 & Hrun1 & Hlog1 & Hoom1 & Hbuf1 & Hr1).
  unfold bind at 1. rewrite Hrun1.
  destruct r1 as [p1|]; cycle 1.
  { eexists (inr _), py1. split; [done|]. do 3 (split; [done|]).
    destruct Hr1 as [He Hm]. by rewrite Hm. }
  destruct Hr1 as (He1 & He0 & Hp1 & a1 & Hm1 & _).
  destruct (get_long_array_outcome o2 false py1)
    as (r2 & w2 & py2 & Hrun2 & Hlog2 & Hoom2 & Hbuf2 & Hr2).
  unfold bind at 1. rewrite Hrun2.
  destruct r2 as [p2|]; cycle 1.
  { eexists (inr _), py2. split; [done|].
    split; [congruence|]. split; [congruence|]. split; [congruence|].
    destruct Hr2 as [He Hm]. split; [done|]. do 6 (split; [done|]).
    cbn [c_zval c_tileSize c_naxes release].
    rewrite Hm, Hm1. by apply release_fresh. }
  destruct Hr2 as (He2 & _ & Hp2 & a2 & Hm2 & _).
  assert (p2 ≠ p1) as Hne21.
  { intros ->. rewrite Hm1, lookup_insert_eq in Hp2. done. }
  destruct (get_long_array_outcome o3 true py2)
    as (r3 & w3 & py3 & Hrun3 & Hlog3 & Hoom3 & Hbuf3 & Hr3).
  unfold bind at 1. rewrite Hrun3.
  destruct r3 as [p3|]; cycle 1.
  { eexists (inr _), py3. split; [done|].
    split; [congruence|]. split; [congruence|]. split; [congruence|].
    destruct Hr3 as [He Hm]. split; [done|]. do 6 (split; [done|]).
    cbn [c_zval c_tileSize c_naxes].
    rewrite Hm, Hm2, Hm1. rewrite Hm1 in Hp2.
    rewrite lookup_insert_ne in Hp2 by done.
    rewrite (release_other p1 p2) by done.
    rewrite (release_fresh p1) by done. by rewrite (release_fresh p2) by done. }
  destruct Hr3 as (He3 & _ & Hp3 & a3 & Hm3 & Hw3).
  rewrite Hm2, Hm1 in Hp3. rewrite Hm1 in Hp2.
  assert (p3 ≠ p2) as Hne32 by (intros ->; by rewrite lookup_insert_eq in Hp3).
  rewrite lookup_insert_ne in Hp3 by done.
  assert (p3 ≠ p1) as Hne31 by (intros ->; by rewrite lookup_insert_eq in Hp3).
  rewrite lookup_insert_ne in Hp3 by done.
  rewrite lookup_insert_ne in Hp2 by done.
  eexists (inl (_, _)), py3. split; [done|].
  split; [congruence|]. split; [congruence|]. split; [congruence|].
  split; [done|]. split; [done|].
  exists p1, p2, p3, a1, a2, a3.
  rewrite (Hw3 eq_refl). cbn.
  do 7 (split; [done|]). do 3 (split; [done|]).
  by rewrite Hm3, Hm2, Hm1.
Qed.

Lemma compressData_free_run p st :
  compressData_free p st
  = Some (tt,
      {| xs_py := set_mem (release (c_zval p) (release (c_tileSize p)
                    (release (c_naxes p) (py_mem (xs_py st))))) (xs_py st);
         xs_heap := release (c_ucDataLen p) (release (c_ucData p)
                      (release (c_cn_zzero p) (release (c_cn_zscale p)
                        (release (c_data p) (release (c_dataLen p) (xs_heap st)))))) |}).
Proof.
  unfold compressData_free.
  repeat (unfold xbind at 1; rewrite xfree_run).
  unfold xbind, lift. cbn [xs_py set_heap set_py xs_heap].
  rewrite !PyMem_Free_ptr_run. cbn [py_mem set_mem].
  by destruct st as [[] ?].
Qed.

(** X14.  The argument stage of [compression_compressData] keeps the
    memory in every outcome.  When it ends the call (an image type that
    is not one of the six, or a list that fails to convert) the result is
    NULL, an exception is pending and every block allocated so far has
    been freed: both heaps are as before the call.  Otherwise no
    exception is pending and exactly the three arrays of ZNAXISn, ZTILEn
    and ZVALn have been added, at three distinct addresses that were
    free, with [numzVals] the length of the third. *)
Theorem compressData_arguments_release (naxesObj tileSizeObj zvalObj : PyObject)
    (bitpix : Z) (st : XState) :
  ∃ fl st',
    compressData_arguments naxesObj tileSizeObj zvalObj bitpix st = Some (fl, st') ∧
    xs_heap st' = xs_heap st ∧
    match fl with
    | Compress_return_NULL =>
        is_Some (py_err (xs_py st')) ∧ py_mem (xs_py st') = py_mem (xs_py st)
    | Compress_set_up p numzVals datatype =>
        compress_datatype bitpix = Some datatype ∧
        py_err (xs_py st') = None ∧
        ∃ p1 p2 p3 a1 a2 a3,
          c_naxes p = Some p1 ∧ c_tileSize p = Some p2 ∧ c_zval p = Some p3 ∧
          numzVals = Some (Z.of_nat (length a3)) ∧
          py_mem (xs_py st) !! p1 = None ∧ py_mem (xs_py st) !! p2 = None ∧
          py_mem (xs_py st) !! p3 = None ∧
          p1 ≠ p2 ∧ p1 ≠ p3 ∧ p2 ≠ p3 ∧
          py_mem (xs_py st')
          = <[p3 := Longs a3]> (<[p2 := Longs a2]> (<[p1 := Longs a1]> (py_mem (xs_py st))))
    end.
Proof.
  unfold compressData_arguments.
  destruct (compress_datatype bitpix) as [datatype|].
  - destruct (compressData_arrays_outcome naxesObj tileSizeObj zvalObj (xs_py st))
      as (r & py' & Hrun & _ & _ & _ & Hr).
    unfold xbind at 1. rewrite (lift_run _ _ _ _ Hrun).
    destruct r as [[p n]|p].
    + eexists (Compress_set_up p n datatype), _. split; [done|]. split; [done|].
      split; [done|]. destruct Hr as (He & _ & Hrest). split; [done|]. exact Hrest.
    + destruct Hr as (He & H1 & H2 & H3 & H4 & H5 & H6 & Hrel).
      unfold xbind at 1. rewrite compressData_free_run.
      eexists Compress_return_NULL, _. split; [done|].
      cbn [xs_heap xs_py set_py py_err set_mem py_mem].
      rewrite H1, H2, H3, H4, H5, H6. split; [done|]. split; [done|]. exact Hrel.
  - eexists Compress_return_NULL, _. split; [done|]. split; [done|].
    split; [by eexists|done].
Qed.

Lemma decompressData_error_no_tiles l cn status st :
  d_nUcTiles l = 0 → d_uncompressedData l = None → d_numUncompressedVals l = None →
  decompressData_error l cn status st
  = Some (if bool_decide (status ≠ 0) then None else Some (PyInt status),
          set_py (set_mem (release (d_zval l) (release (d_tileSize l)
                    (release (d_naxes l) (py_mem (xs_py st))))) (xs_py st)) st).
Proof.
  intros Hn Hud Hnv. unfold decompressData_error. rewrite Hn, Hud, Hnv.
  unfold xbind, lift. cbn [xs_py set_heap set_py xs_heap].
  rewrite !PyMem_Free_ptr_run. cbn [py_mem set_mem Z.to_nat free_tiles xfree xret].
  destruct st as [[] ?].
  by destruct (bool_decide (cn = 1)); destruct (bool_decide (status ≠ 0)).
Qed.

Lemma decompressData_arguments_goto o1 o2 o3 bitpix cn tiles st l py :
  decompressData_arrays o1 o2 o3 (xs_py st) = Some (inr l, py) →
  decompressData_arguments o1 o2 o3 bitpix cn tiles st
  = Some (Goto_error l, set_py py st).
Proof.
  intros Hrun. unfold decompressData_arguments.
  unfold xbind at 1. by rewrite (lift_run _ _ _ _ Hrun).
Qed.

(** X15.  When one of the three list conversions at the head of
    [compression_decompressData] fails, the run jumps to the label
    [error] before [status] has been given a value.  The clean-up there
    frees what was allocated (both heaps are as before the call) and an
    exception is pending, but the result follows the indeterminate value
    of [status]: NULL when that is not 0, and the Python integer 0,
    returned beside the pending exception, when it is 0. *)
Theorem decompressData_failed_conversion (naxesObj tileSizeObj zvalObj : PyObject)
    (bitpix cn_uncompressed : Z) (tiles : list PyObject) (status : Z)
    (st : XState) (l : decompress_locals) (py : PyState) :
  decompressData_arrays naxesObj tileSizeObj zvalObj (xs_py st) = Some (inr l, py) →
  ∃ st',
    decompressData_early naxesObj tileSizeObj zvalObj bitpix cn_uncompressed tiles
      status st
    = Some (Some (if bool_decide (status = 0) then Some (PyInt 0) else None), st') ∧
    is_Some (py_err (xs_py st')) ∧
    py_mem (xs_py st') = py_mem (xs_py st) ∧
    xs_heap st' = xs_heap st.
Proof.
  intros Hrun.
  destruct (decompressData_arrays_outcome naxesObj tileSizeObj zvalObj (xs_py st))
    as (r & py' & Hrun' & _ & _ & _ & Hr).
  rewrite Hrun in Hrun'. injection Hrun' as <- <-.
  destruct Hr as (He & Hn & Hud & Hnv & Hrel).
  unfold decompressData_early.
  unfold xbind at 1. rewrite (decompressData_arguments_goto _ _ _ _ _ _ _ _ _ Hrun).
  unfold decompressData_exit.
  unfold xbind at 1. rewrite decompressData_error_no_tiles by done.
  eexists. split.
  - unfold xret. do 3 f_equal.
    repeat case_bool_decide; try done; by subst.
  - cbn [xs_heap xs_py set_py py_err set_mem py_mem]. by rewrite Hrel.
Qed.

Lemma decompressData_failed_conversion_witness :
  let st := {| xs_py := clean_state; xs_heap := ∅ |} in
  (∃ st', decompressData_early PyNone (PyList []) (PyList []) 16 0 [] 0 st
          = Some (Some (Some (PyInt 0)), st') ∧ is_Some (py_err (xs_py st'))) ∧
  (∃ st', decompressData_early (PyList [PyInt 2]) (PyList [PyStr "x"]) (PyList []) 16 0 [] 7 st
          = Some (Some None, st') ∧ py_mem (xs_py st') = ∅).
Proof.
  intros st. split.
  - destruct (decompressData_failed_conversion PyNone (PyList []) (PyList []) 16 0 [] 0 st
                (set_naxes None decompress_locals0) (set_err (Some PyExc_TypeError) clean_state))
      as (st' & Hrun & He & _); [reflexivity|].
    exists st'. split; [exact Hrun|exact He].
  - edestruct (decompressData_failed_conversion (PyList [PyInt 2]) (PyList [PyStr "x"])
                 (PyList []) 16 0 [] 7 st)
      as (st' & Hrun & _ & Hm & _); [vm_compute; reflexivity|].
    exists st'. split; [exact Hrun|exact Hm].
Defined.

(** X16.  [compression_decompressData] converts its three lists before
    it looks at [bitpix], and its [default] case returns at once: for an
    image type that is not one of the six, the call returns NULL with a
    [ValueError] pending while the three arrays it has just allocated
    stay allocated, with no pointer to them left. *)
Theorem decompressData_invalid_bitpix_leaks (naxesObj tileSizeObj zvalObj : PyObject)
    (bitpix cn_uncompressed : Z) (tiles : list PyObject) (status : Z)
    (st : XState) (l : decompress_locals) (py : PyState) :
  decompressData_arrays naxesObj tileSizeObj zvalObj (xs_py st) = Some (inl l, py) →
  bitpix ∉ image_types →
  ∃ st',
    decompressData_early naxesObj tileSizeObj zvalObj bitpix cn_uncompressed tiles
      status st
    = Some (Some None, st') ∧
    py_err (xs_py st') = Some PyExc_ValueError ∧
    xs_heap st' = xs_heap st ∧
    ∃ p1 p2 p3 a1 a2 a3,
      p1 ≠ p2 ∧ p1 ≠ p3 ∧ p2 ≠ p3 ∧
      py_mem (xs_py st) !! p1 = None ∧ py_mem (xs_py st) !! p2 = None ∧
      py_mem (xs_py st) !! p3 = None ∧
      py_mem (xs_py st')
      = <[p3 := Longs a3]> (<[p2 := Longs a2]> (<[p1 := Longs a1]> (py_mem (xs_py st)))).
Proof.
  intros Hrun Hbitpix.
  destruct (decompressData_arrays_outcome naxesObj tileSizeObj zvalObj (xs_py st))
    as (r & py' & Hrun' & _ & _ & _ & Hr).
  rewrite Hrun in Hrun'. injection Hrun' as <- <-.
  destruct Hr as (_ & _ & _ & _ & _ & _ & p1 & p2 & p3 & a1 & a2 & a3 &
                  _ & _ & _ & _ & Hp1 & Hp2 & Hp3 & H12 & H13 & H23 & Hm).
  unfold image_types in Hbitpix. rewrite !not_elem_of_cons in Hbitpix.
  destruct Hbitpix as (H1 & H2 & H3 & H4 & H5 & H6 & _).
  unfold decompressData_early. unfold xbind at 1.
  unfold decompressData_arguments. unfold xbind at 1.
  rewrite (lift_run _ _ _ _ Hrun).
  rewrite !bool_decide_eq_false_2 by done.
  unfold decompressData_exit.
  eexists. split; [reflexivity|].
  cbn [xs_heap xs_py set_py py_err set_err py_mem].
  split; [done|]. split; [done|].
  exists p1, p2, p3, a1, a2, a3. by rewrite Hm.
Qed.

Lemma decompressData_invalid_bitpix_leaks_witness :
  let st := {| xs_py := clean_state; xs_heap := ∅ |} in
  ∃ st', decompressData_early (PyList [PyInt 4; PyInt 4]) (PyList [PyInt 4; PyInt 1])
           (PyList []) 24 0 [] 0 st
         = Some (Some None, st') ∧
         py_err (xs_py st') = Some PyExc_ValueError ∧
         size (py_mem (xs_py st')) = 3%nat.
Proof.
  intros st.
  edestruct (decompressData_invalid_bitpix_leaks (PyList [PyInt 4; PyInt 4])
               (PyList [PyInt 4; PyInt 1]) (PyList []) 24 0 [] 0 st)
    as (st' & Hrun & He & _ & p1 & p2 & p3 & a1 & a2 & a3 &
        H12 & H13 & H23 & _ & _ & _ & Hm).
  - vm_compute. reflexivity.
  - vm_compute. intros H. repeat (inversion H as [|? ? ? H']; clear H; rename H' into H).
  - exists st'. split; [exact Hrun|]. split; [exact He|].
    rewrite Hm. change (py_mem (xs_py st)) with (∅ : gmap nat block).
    rewrite !map_size_insert_None, map_size_empty; [reflexivity|..].
    + apply lookup_empty.
    + rewrite lookup_insert_ne by done. apply lookup_empty.
    + rewrite !lookup_insert_ne by done. apply lookup_empty.
Defined.

(** ** [get_double_array] *)

Lemma PyFloat_AsDouble_run x st :
  PyFloat_AsDouble x st = Some (double_value x, set_err (double_err_after [x] (py_err st)) st).
Proof.
  unfold PyFloat_AsDouble, double_value, double_err_after. simpl.
  destruct (double_of x); [|done].
  unfold ret. by destruct st.
Qed.

Lemma double_err_after_ok items e :
  Forall (λ x, ∃ d, double_of x = inl d) items → double_err_after items e = e.
Proof.
  unfold double_err_after. intros Hall. revert e.
  induction Hall as [|x items [d Hd] _ IH]; intros e; [done|].
  simpl. rewrite Hd. apply IH.
Qed.

Lemma double_err_after_pending items ex : is_Some (double_err_after items (Some ex)).
Proof.
  unfold double_err_after. revert ex.
  induction items as [|x items IH]; intros ex; [by eexists|].
  simpl. destruct (double_of x); apply IH.
Qed.

Lemma double_err_after_fails items e :
  Exists (λ x, ∃ ex, double_of x = inr ex) items → is_Some (double_err_after items e).
Proof.
  unfold double_err_after. intros Hex. revert e.
  induction Hex as [x items [ex Hx]|x items _ IH]; intros e.
  - simpl. rewrite Hx. apply double_err_after_pending.
  - simpl. apply IH.
Qed.

Lemma fill_doubles_run p items : ∀ pre todo st,
  xs_heap st !! p = Some (Doubles (pre ++ todo)) →
  length todo = length items →
  fill_doubles p items (length pre) st
  = Some (tt, {| xs_py := set_err (double_err_after items (py_err (xs_py st))) (xs_py st);
                 xs_heap := <[p := Doubles (pre ++ (double_value <$> items))]> (xs_heap st) |}).
Proof.
  induction items as [|x items IH]; intros pre todo st Hp Hlen.
  - destruct todo; [|discriminate]. simpl. unfold xret.
    rewrite insert_id by done. by destruct st as [[] ?].
  - destruct todo as [|t0 todo]; [discriminate|]. injection Hlen as Hlen.
    cbn [fill_doubles]. unfold xbind at 1. unfold lift. rewrite PyFloat_AsDouble_run.
    unfold xbind at 1. unfold poke_double. cbn [xs_heap set_py]. rewrite Hp.
    rewrite bool_decide_eq_true_2 by (rewrite length_app; simpl; lia).
    rewrite insert_app_r_alt by lia. rewrite Nat.sub_diag. cbn [list_insert insert].
    match goal with
    | |- fill_doubles _ _ _ ?st1 = _ =>
        specialize (IH (pre ++ [double_value x]) todo st1)
    end.
    rewrite length_app in IH. cbn [length] in IH.
    replace (length pre + 1)%nat with (S (length pre)) in IH by lia.
    rewrite IH.
    + cbn [xs_py xs_heap set_heap set_py py_err set_err].
      rewrite insert_insert_eq. rewrite <- (assoc_L (++)). reflexivity.
    + cbn [xs_heap set_heap]. rewrite lookup_insert_eq.
      by rewrite <- (assoc_L (++)).
    + done.
Qed.

(** The run of [get_double_array] on a list whose [int] size is not
    negative: the first [size] items are converted. *)
Lemma get_double_array_take_run items (ds : bool) st :
  let size := C.to_int (Z.of_nat (length items)) in
  0 ≤ size → py_oom (xs_py st) = false →
  let its := take (Z.to_nat size) items in
  let p := fresh (dom (xs_heap st)) in
  let e := double_err_after its (py_err (xs_py st)) in
  let written := if ds then Some size else None in
  get_double_array (PyList items) ds st
  = Some (if bool_decide (is_Some e)
          then ((None, written), set_py (set_err e (xs_py st)) st)
          else ((Some p, written),
                {| xs_py := set_err e (xs_py st);
                   xs_heap := <[p := Doubles (double_value <$> its)]> (xs_heap st) |})).
Proof.
  intros size Hsize Hoom its p e written. unfold get_double_array. fold size.
  rewrite bool_decide_eq_false_2 by lia. fold its.
  assert (size ≤ C.INT_MAX) as Hmax.
  { unfold size, C.to_int, C.signed. c_bounds.
    change (2 ^ (32 - 1)) with 2147483648.
    pose proof (Z.mod_pos_bound (Z.of_nat (length items) + 2147483648) 4294967296). lia. }
  assert (length its = Z.to_nat size) as Hlen.
  { unfold its. rewrite length_take.
    pose proof (to_int_le (Z.of_nat (length items)) ltac:(lia)). fold size in H. lia. }
  unfold xbind at 1. unfold xmalloc. rewrite Hoom.
  rewrite bool_decide_eq_false_2; cycle 1.
  { unfold PY_SSIZE_T_MAX, C.to_size_t, C.unsigned. c_bounds.
    pose proof (Z.mod_pos_bound (size * 8) 18446744073709551616).
    rewrite Z.mod_small by lia. lia. }
  cbn [orb]. fold p.
  assert (xs_heap st !! p = None) as Hfresh.
  { apply not_elem_of_dom. apply is_fresh. }
  unfold xbind at 1.
  rewrite (fill_doubles_run p its [] (replicate (Z.to_nat size) 0%float));
    [|cbn [xs_heap set_heap]; by rewrite lookup_insert_eq|by rewrite length_replicate].
  cbn [app xs_py xs_heap set_heap set_py]. rewrite insert_insert_eq. fold e.
  unfold xbind, lift, PyErr_Occurred, gets, xfree, xret. cbn [xs_py py_err set_err].
  destruct (bool_decide (is_Some e)); [|done].
  cbn [xs_py xs_heap set_heap set_py]. rewrite delete_insert_eq, delete_id by done.
  by destruct st as [[] ?].
Qed.

(** The outcomes of [get_double_array], for every argument and state. *)
Lemma get_double_array_outcome (data : PyObject) (ds : bool) (st : XState) :
  ∃ r w st',
    get_double_array data ds st = Some ((r, w), st') ∧
    py_getitem (xs_py st') = py_getitem (xs_py st) ∧
    py_oom (xs_py st') = py_oom (xs_py st) ∧
    buf_reads (xs_py st') = buf_reads (xs_py st) ∧
    py_mem (xs_py st') = py_mem (xs_py st) ∧
    match r with
    | None => is_Some (py_err (xs_py st')) ∧ xs_heap st' = xs_heap st
    | Some p =>
        py_err (xs_py st') = None ∧ py_err (xs_py st) = None ∧
        xs_heap st !! p = None ∧
        ∃ a, xs_heap st' = <[p := Doubles a]> (xs_heap st) ∧
             (ds = true → w = Some (Z.of_nat (length a)))
    end.
Proof.
  assert (∀ ex, ∃ r w st',
    (run+ lift (PyErr_Set ex) then xret (None, None)) st
    = Some ((r : option nat, w : option Z), st') ∧
    py_getitem (xs_py st') = py_getitem (xs_py st) ∧
    py_oom (xs_py st') = py_oom (xs_py st) ∧
    buf_reads (xs_py st') = buf_reads (xs_py st) ∧
    py_mem (xs_py st') = py_mem (xs_py st) ∧
    match r with
    | None => is_Some (py_err (xs_py st')) ∧ xs_heap st' = xs_heap st
    | Some p =>
        py_err (xs_py st') = None ∧ py_err (xs_py st) = None ∧
        xs_heap st !! p = None ∧
        ∃ a, xs_heap st' = <[p := Doubles a]> (xs_heap st) ∧
             (ds = true → w = Some (Z.of_nat (length a)))
    end) as Hraise.
  { intros ex. exists None, None, (set_py (set_err (Some ex) (xs_py st)) st).
    split; [done|]. do 4 (split; [done|]). split; [by eexists|done]. }
  destruct data as [| | | |items|]; try apply Hraise.
  destruct (decide (C.to_int (Z.of_nat (length items)) < 0)) as [Hneg|Hsize].
  { unfold get_double_array. rewrite bool_decide_eq_true_2 by done. apply Hraise. }
  destruct (py_oom (xs_py st)) eqn:Hoom.
  { unfold get_double_array. rewrite bool_decide_eq_false_2 by done.
    unfold xbind at 1. unfold xmalloc. rewrite Hoom, orb_true_r.
    eexists None, _, (set_py (set_err (Some PyExc_MemoryError) (xs_py st)) st).
    split; [done|]. do 4 (split; [done|]). split; [by eexists|done]. }
  rewrite get_double_array_take_run by (done || lia).
  set (size := C.to_int (Z.of_nat (length items))) in *.
  set (its := take (Z.to_nat size) items).
  assert (length its = Z.to_nat size) as Hlen.
  { unfold its. rewrite length_take.
    pose proof (to_int_le (Z.of_nat (length items)) ltac:(lia)). fold size in H. lia. }
  case_bool_decide as He.
  - eexists None, _, _. split; [done|]. do 4 (split; [done|]). done.
  - eexists (Some _), _, _. split; [done|]. do 4 (split; [done|]).
    assert (double_err_after its (py_err (xs_py st)) = None) as Hnone.
    { destruct (double_err_after its (py_err (xs_py st))) eqn:E; [|done].
      destruct He. by eexists. }
    split; [done|].
    split.
    { destruct (py_err (xs_py st)) as [ex|] eqn:Hst; [|done].
      exfalso. apply He. apply double_err_after_pending. }
    split; [apply not_elem_of_dom, is_fresh|].
    eexists. split; [done|].
    intros ->. rewrite length_fmap, Hlen. f_equal. lia.
Qed.

(** A tile that converts. *)
Lemma get_double_array_ok o st :
  tile_ok o → py_err (xs_py st) = None → py_oom (xs_py st) = false →
  ∃ p, xs_heap st !! p = None ∧
       get_double_array o true st
       = Some ((Some p, Some (tile_size o)),
               set_heap (<[p := double_block o]> (xs_heap st)) st).
Proof.
  intros (items & -> & Hlen & Hall) He Hoom.
  exists (fresh (dom (xs_heap st))). split; [apply not_elem_of_dom, is_fresh|].
  pose proof (get_double_array_take_run items true st) as Hrun. cbv zeta in Hrun.
  rewrite to_int_small in Hrun by (c_bounds; lia).
  rewrite Nat2Z.id, take_ge in Hrun by done.
  rewrite Hrun by (done || lia).
  rewrite double_err_after_ok by done. rewrite He.
  rewrite bool_decide_eq_false_2 by (by intros [? ?]).
  unfold tile_size, double_block, set_heap. cbn [tile_items].
  do 3 f_equal. by destruct st as [[] ?]; simpl in *; subst.
Qed.

(** A tile that does not. *)
Lemma get_double_array_fails o st :
  tile_fails o →
  ∃ w py,
    get_double_array o true st = Some ((None, w), set_py py st) ∧
    is_Some (py_err py) ∧ py_mem py = py_mem (xs_py st) ∧
    py_oom py = py_oom (xs_py st) ∧ py_getitem py = py_getitem (xs_py st) ∧
    buf_reads py = buf_reads (xs_py st).
Proof.
  intros Hfails.
  assert (∀ ex, ∃ w py,
    (run+ lift (PyErr_Set ex) then xret (None, None)) st
    = Some ((None : option nat, w : option Z), set_py py st) ∧
    is_Some (py_err py) ∧ py_mem py = py_mem (xs_py st) ∧
    py_oom py = py_oom (xs_py st) ∧ py_getitem py = py_getitem (xs_py st) ∧
    buf_reads py = buf_reads (xs_py st)) as Hraise.
  { intros ex. exists None, (set_err (Some ex) (xs_py st)).
    split; [done|]. split; [by eexists|done]. }
  destruct o as [| | | |items|]; try apply Hraise.
  destruct (Hfails items eq_refl) as [Hlen Hex].
  destruct (py_oom (xs_py st)) eqn:Hoom.
  { unfold get_double_array.
    rewrite bool_decide_eq_false_2 by (rewrite to_int_small by (c_bounds; lia); lia).
    unfold xbind at 1. unfold xmalloc. rewrite Hoom, orb_true_r.
    eexists _, (set_err (Some PyExc_MemoryError) (xs_py st)).
    split; [done|]. split; [by eexists|done]. }
  pose proof (get_double_array_take_run items true st) as Hrun. cbv zeta in Hrun.
  rewrite to_int_small in Hrun by (c_bounds; lia).
  rewrite Nat2Z.id, take_ge in Hrun by done.
  rewrite Hrun by (done || lia).
  rewrite bool_decide_eq_true_2 by (by apply double_err_after_fails).
  eexists _, _. split; [done|]. split; [by apply double_err_after_fails|done].
Qed.

(** ** [get_float_array] *)

Lemma fill_floats_run p items : ∀ pre todo st,
  xs_heap st !! p = Some (Floats (pre ++ todo)) →
  length todo = length items →
  fill_floats p items (length pre) st
  = Some (tt, {| xs_py := set_err (double_err_after items (py_err (xs_py st))) (xs_py st);
                 xs_heap := <[p := Floats (pre ++ ((λ x, float_of_double (double_value x)) <$> items))]> (xs_heap st) |}).
Proof.
  induction items as [|x items IH]; intros pre todo st Hp Hlen.
  - destruct todo; [|discriminate]. simpl. unfold xret.
    rewrite insert_id by done. by destruct st as [[] ?].
  - destruct todo as [|t0 todo]; [discriminate|]. injection Hlen as Hlen.
    cbn [fill_floats]. unfold xbind at 1. unfold lift. rewrite PyFloat_AsDouble_run.
    unfold xbind at 1. unfold poke_float. cbn [xs_heap set_py]. rewrite Hp.
    rewrite bool_decide_eq_true_2 by (rewrite length_app; simpl; lia).
    rewrite insert_app_r_alt by lia. rewrite Nat.sub_diag. cbn [list_insert insert].
    match goal with
    | |- fill_floats _ _ _ ?st1 = _ =>
        specialize (IH (pre ++ [float_of_double (double_value x)]) todo st1)
    end.
    rewrite length_app in IH. cbn [length] in IH.
    replace (length pre + 1)%nat with (S (length pre)) in IH by lia.
    rewrite IH.
    + cbn [xs_py xs_heap set_heap set_py py_err set_err].
      rewrite insert_insert_eq. rewrite <- (assoc_L (++)). reflexivity.
    + cbn [xs_heap set_heap]. rewrite lookup_insert_eq.
      by rewrite <- (assoc_L (++)).
    + done.
Qed.

(** The run of [get_float_array] on a list whose [int] size is not
    negative: the first [size] items are converted. *)
Lemma get_float_array_take_run items (ds : bool) st :
  let size := C.to_int (Z.of_nat (length items)) in
  0 ≤ size → py_oom (xs_py st) = false →
  let its := take (Z.to_nat size) items in
  let p := fresh (dom (xs_heap st)) in
  let e := double_err_after its (py_err (xs_py st)) in
  let written := if ds then Some size else None in
  get_float_array (PyList items) ds st
  = Some (if bool_decide (is_Some e)
          then ((None, written), set_py (set_err e (xs_py st)) st)
          else ((Some p, written),
                {| xs_py := set_err e (xs_py st);
                   xs_heap := <[p := Floats ((λ x, float_of_double (double_value x)) <$> its)]> (xs_heap st) |})).
Proof.
  intros size Hsize Hoom its p e written. unfold get_float_array. fold size.
  rewrite bool_decide_eq_false_2 by lia. fold its.
  assert (size ≤ C.INT_MAX) as Hmax.
  { unfold size, C.to_int, C.signed. c_bounds.
    change (2 ^ (32 - 1)) with 2147483648.
    pose proof (Z.mod_pos_bound (Z.of_nat (length items) + 2147483648) 4294967296). lia. }
  assert (length its = Z.to_nat size) as Hlen.
  { unfold its. rewrite length_take.
    pose proof (to_int_le (Z.of_nat (length items)) ltac:(lia)). fold size in H. lia. }
  unfold xbind at 1. unfold xmalloc. rewrite Hoom.
  rewrite bool_decide_eq_false_2; cycle 1.
  { unfold PY_SSIZE_T_MAX, C.to_size_t, C.unsigned. c_bounds.
    pose proof (Z.mod_pos_bound (size * 4) 18446744073709551616).
    rewrite Z.mod_small by lia. lia. }
  cbn [orb]. fold p.
  assert (xs_heap st !! p = None) as Hfresh.
  { apply not_elem_of_dom. apply is_fresh. }
  unfold xbind at 1.
  rewrite (fill_floats_run p its [] (replicate (Z.to_nat size) (S754_zero false)));
    [|cbn [xs_heap set_heap]; by rewrite lookup_insert_eq|by rewrite length_replicate].
  cbn [app xs_py xs_heap set_heap set_py]. rewrite insert_insert_eq. fold e.
  unfold xbind, lift, PyErr_Occurred, gets, xfree, xret. cbn [xs_py py_err set_err].
  destruct (bool_decide (is_Some e)); [|done].
  cbn [xs_py xs_heap set_heap set_py]. rewrite delete_insert_eq, delete_id by done.
  by destruct st as [[] ?].
Qed.

(** The outcomes of [get_float_array], for every argument and state. *)
Lemma get_float_array_outcome (data : PyObject) (ds : bool) (st : XState) :
  ∃ r w st',
    get_float_array data ds st = Some ((r, w), st') ∧
    py_getitem (xs_py st') = py_getitem (xs_py st) ∧
    py_oom (xs_py st') = py_oom (xs_py st) ∧
    buf_reads (xs_py st') = buf_reads (xs_py st) ∧
    py_mem (xs_py st') = py_mem (xs_py st) ∧
    match r with
    | None => is_Some (py_err (xs_py st')) ∧ xs_heap st' = xs_heap st
    | Some p =>
        py_err (xs_py st') = None ∧ py_err (xs_py st) = None ∧
        xs_heap st !! p = None ∧
        ∃ a, xs_heap st' = <[p := Floats a]> (xs_heap st) ∧
             (ds = true → w = Some (Z.of_nat (length a)))
    end.
Proof.
  assert (∀ ex, ∃ r w st',
    (run+ lift (PyErr_Set ex) then xret (None, None)) st
    = Some ((r : option nat, w : option Z), st') ∧
    py_getitem (xs_py st') = py_getitem (xs_py st) ∧
    py_oom (xs_py st') = py_oom (xs_py st) ∧
    buf_reads (xs_py st') = buf_reads (xs_py st) ∧
    py_mem (xs_py st') = py_mem (xs_py st) ∧
    match r with
    | None => is_Some (py_err (xs_py st')) ∧ xs_heap st' = xs_heap st
    | Some p =>
        py_err (xs_py st') = None ∧ py_err (xs_py st) = None ∧
        xs_heap st !! p = None ∧
        ∃ a, xs_heap st' = <[p := Floats a]> (xs_heap st) ∧
             (ds = true → w = Some (Z.of_nat (length a)))
    end) as Hraise.
  { intros ex. exists None, None, (set_py (set_err (Some ex) (xs_py st)) st).
    split; [done|]. do 4 (split; [done|]). split; [by eexists|done]. }
  destruct data as [| | | |items|]; try apply Hraise.
  destruct (decide (C.to_int (Z.of_nat (length items)) < 0)) as [Hneg|Hsize].
  { unfold get_float_array. rewrite bool_decide_eq_true_2 by done. apply Hraise. }
  destruct (py_oom (xs_py st)) eqn:Hoom.
  { unfold get_float_array. rewrite bool_decide_eq_false_2 by done.
    unfold xbind at 1. unfold xmalloc. rewrite Hoom, orb_true_r.
    eexists None, _, (set_py (set_err (Some PyExc_MemoryError) (xs_py st)) st).
    split; [done|]. do 4 (split; [done|]). split; [by eexists|done]. }
  rewrite get_float_array_take_run by (done || lia).
  set (size := C.to_int (Z.of_nat (length items))) in *.
  set (its := take (Z.to_nat size) items).
  assert (length its = Z.to_nat size) as Hlen.
  { unfold its. rewrite length_take.
    pose proof (to_int_le (Z.of_nat (length items)) ltac:(lia)). fold size in H. lia. }
  case_bool_decide as He.
  - eexists None, _, _. split; [done|]. do 4 (split; [done|]). done.
  - eexists (Some _), _, _. split; [done|]. do 4 (split; [done|]).
    assert (double_err_after its (py_err (xs_py st)) = None) as Hnone.
    { destruct (double_err_after its (py_err (xs_py st))) eqn:E; [|done].
      destruct He. by eexists. }
    split; [done|].
    split.
    { destruct (py_err (xs_py st)) as [ex|] eqn:Hst; [|done].
      exfalso. apply He. apply double_err_after_pending. }
    split; [apply not_elem_of_dom, is_fresh|].
    eexists. split; [done|].
    intros ->. rewrite length_fmap, Hlen. f_equal. lia.
Qed.

(** A tile that converts. *)
Lemma get_float_array_ok o st :
  tile_ok o → py_err (xs_py st) = None → py_oom (xs_py st) = false →
  ∃ p, xs_heap st !! p = None ∧
       get_float_array o true st
       = Some ((Some p, Some (tile_size o)),
               set_heap (<[p := float_block o]> (xs_heap st)) st).
Proof.
  intros (items & -> & Hlen & Hall) He Hoom.
  exists (fresh (dom (xs_heap st))). split; [apply not_elem_of_dom, is_fresh|].
  pose proof (get_float_array_take_run items true st) as Hrun. cbv zeta in Hrun.
  rewrite to_int_small in Hrun by (c_bounds; lia).
  rewrite Nat2Z.id, take_ge in Hrun by done.
  rewrite Hrun by (done || lia).
  rewrite double_err_after_ok by done. rewrite He.
  rewrite bool_decide_eq_false_2 by (by intros [? ?]).
  unfold tile_size, float_block, set_heap. cbn [tile_items].
  do 3 f_equal. by destruct st as [[] ?]; simpl in *; subst.
Qed.

(** A tile that does not. *)
Lemma get_float_array_fails o st :
  tile_fails o →
  ∃ w py,
    get_float_array o true st = Some ((None, w), set_py py st) ∧
    is_Some (py_err py) ∧ py_mem py = py_mem (xs_py st) ∧
    py_oom py = py_oom (xs_py st) ∧ py_getitem py = py_getitem (xs_py st) ∧
    buf_reads py = buf_reads (xs_py st).
Proof.
  intros Hfails.
  assert (∀ ex, ∃ w py,
    (run+ lift (PyErr_Set ex) then xret (None, None)) st
    = Some ((None : option nat, w : option Z), set_py py st) ∧
    is_Some (py_err py) ∧ py_mem py = py_mem (xs_py st) ∧
    py_oom py = py_oom (xs_py st) ∧ py_getitem py = py_getitem (xs_py st) ∧
    buf_reads py = buf_reads (xs_py st)) as Hraise.
  { intros ex. exists None, (set_err (Some ex) (xs_py st)).
    split; [done|]. split; [by eexists|done]. }
  destruct o as [| | | |items|]; try apply Hraise.
  destruct (Hfails items eq_refl) as [Hlen Hex].
  destruct (py_oom (xs_py st)) eqn:Hoom.
  { unfold get_float_array.
    rewrite bool_decide_eq_false_2 by (rewrite to_int_small by (c_bounds; lia); lia).
    unfold xbind at 1. unfold xmalloc. rewrite Hoom, orb_true_r.
    eexists _, (set_err (Some PyExc_MemoryError) (xs_py st)).
    split; [done|]. split; [by eexists|done]. }
  pose proof (get_float_array_take_run items true st) as Hrun. cbv zeta in Hrun.
  rewrite to_int_small in Hrun by (c_bounds; lia).
  rewrite Nat2Z.id, take_ge in Hrun by done.
  rewrite Hrun by (done || lia).
  rewrite bool_decide_eq_true_2 by (by apply double_err_after_fails).
  eexists _, _. split; [done|]. split; [by apply double_err_after_fails|done].
Qed.

(** ** Loading the uncompressed tiles *)

Lemma lookup_release {B} (p : option nat) (m : gmap nat B) (q : nat) :
  release p m !! q = if bool_decide (p = Some q) then None else m !! q.
Proof.
  destruct p as [p|]; simpl.
  - case_bool_decide as Hp.
    + injection Hp as ->. apply lookup_delete_eq.
    + apply lookup_delete_ne. congruence.
  - done.
Qed.

Lemma lookup_release_all {B} (ps : list (option nat)) : ∀ (m : gmap nat B) (q : nat),
  release_all ps m !! q = if bool_decide (Some q ∈ ps) then None else m !! q.
Proof.
  unfold release_all.
  induction ps as [|p ps IH]; intros m q.
  - simpl. first [done | case_bool_decide as Hq; [by apply elem_of_nil in Hq|done]].
  - simpl. rewrite IH. rewrite lookup_release.
    destruct (decide (p = Some q)) as [->|Hp].
    + rewrite (bool_decide_eq_true_2 (Some q ∈ Some q :: ps)) by left.
      rewrite (bool_decide_eq_true_2 (Some q = Some q)) by done.
      by destruct (bool_decide (Some q ∈ ps)).
    + rewrite (bool_decide_eq_false_2 (p = Some q)) by done.
      destruct (decide (Some q ∈ ps)) as [Hq|Hq].
      * rewrite !bool_decide_eq_true_2; [done|by right|done].
      * rewrite !bool_decide_eq_false_2; [done| |done].
        intros [Heq|Hin]%elem_of_cons; [congruence|done].
Qed.

Section TilesLoop.

Variable get_array : PyObject → bool → MX (option nat * option Z).
Variable blk : PyObject → xblock.

Hypothesis get_ok : ∀ o st,
  tile_ok o → py_err (xs_py st) = None → py_oom (xs_py st) = false →
  ∃ p, xs_heap st !! p = None ∧
       get_array o true st
       = Some ((Some p, Some (tile_size o)), set_heap (<[p := blk o]> (xs_heap st)) st).

Hypothesis get_fails : ∀ o st,
  tile_fails o →
  ∃ w py,
    get_array o true st = Some ((None, w), set_py py st) ∧
    is_Some (py_err py) ∧ py_mem py = py_mem (xs_py st) ∧
    py_oom py = py_oom (xs_py st) ∧ py_getitem py = py_getitem (xs_py st) ∧
    buf_reads py = buf_reads (xs_py st).

(** The tiles that convert, one after the other. *)
Lemma load_tiles_loop_good ud nv h0 rest good : ∀ ps loaded k st,
  tiles_heap blk ud nv h0 (xs_heap st) ps loaded (length good + k) →
  Forall tile_ok good →
  py_err (xs_py st) = None → py_oom (xs_py st) = false →
  ∃ ps' h',
    length ps' = length good ∧
    tiles_heap blk ud nv h0 h' (ps ++ ps') (loaded ++ good) k ∧
    load_tiles_loop get_array ud nv (good ++ rest) (length ps) st
    = load_tiles_loop get_array ud nv rest (length ps + length good) (set_heap h' st).
Proof.
  induction good as [|o good IH]; intros ps loaded k st Hinv Hgood He Hoom.
  - exists [], (xs_heap st). split; [done|]. rewrite !app_nil_r, Nat.add_0_r.
    split; [done|]. by destruct st.
  - apply Forall_cons in Hgood as [Ho Hgood].
    destruct Hinv as (Hud & Hnv & Hne & Hudps & Hnvps & Hnodup & Hlen & Hblk &
                      H0ud & H0nv & H0ps & Hrest).
    destruct (get_ok o st Ho He Hoom) as (p & Hp & Hrun).
    assert (p ≠ ud) as Hpud by (intros ->; by rewrite Hud in Hp).
    assert (p ≠ nv) as Hpnv by (intros ->; by rewrite Hnv in Hp).
    assert (p ∉ ps) as Hpps.
    { intros Hin. apply list_elem_of_lookup in Hin as [i Hi].
      destruct (lookup_lt_is_Some_2 loaded i) as [o' Ho'].
      { rewrite <- Hlen. by eapply lookup_lt_Some. }
      rewrite (Hblk i p o' Hi Ho') in Hp. done. }
    cbn [app load_tiles_loop]. unfold xbind at 1. rewrite Hrun.
    unfold xbind at 1. unfold poke_int. cbn [xs_heap set_heap].
    rewrite lookup_insert_ne by done. rewrite Hnv.
    rewrite bool_decide_eq_true_2
      by (rewrite length_app, length_fmap, length_replicate; simpl; lia).
    unfold xbind at 1. unfold poke_ptr. cbn [xs_heap set_heap].
    rewrite lookup_insert_ne by done. rewrite lookup_insert_ne by done. rewrite Hud.
    rewrite bool_decide_eq_true_2
      by (rewrite length_app, length_fmap, length_replicate; simpl; lia).
    match goal with
    | |- context [load_tiles_loop _ _ _ (good ++ rest) _ ?st1] =>
        destruct (IH (ps ++ [p]) (loaded ++ [o]) k st1) as (ps' & h' & Hlen' & Hinv' & Hloop)
    end; try done.
    + cbn [xs_heap set_heap xs_py].
      split; [|split; [|split; [done|split; [|split; [|split; [|split; [|split;
        [|split; [done|split; [done|split]]]]]]]]]].
      * rewrite lookup_insert_eq. f_equal. f_equal.
        rewrite insert_app_r_alt by (rewrite length_fmap; lia).
        rewrite length_fmap, Nat.sub_diag. simpl.
        by rewrite fmap_app, <- (assoc_L (++)).
      * rewrite lookup_insert_ne by done. rewrite lookup_insert_eq. f_equal. f_equal.
        rewrite insert_app_r_alt by (rewrite length_fmap; lia).
        rewrite length_fmap, Hlen, Nat.sub_diag. simpl.
        by rewrite fmap_app, <- (assoc_L (++)).
      * rewrite elem_of_app, list_elem_of_singleton. intros [?|?]; [done|congruence].
      * rewrite elem_of_app, list_elem_of_singleton. intros [?|?]; [done|congruence].
      * apply NoDup_app. split; [done|]. split; [|apply NoDup_singleton].
        intros q Hq Hq'. apply list_elem_of_singleton in Hq'. by subst.
      * rewrite !length_app. simpl. lia.
      * intros i q o' Hq Ho'.
        destruct (decide (q = ud)) as [->|Hqud].
        { exfalso. apply lookup_app_Some in Hq as [Hq|[_ Hq]].
          - apply Hudps. by eapply list_elem_of_lookup_2.
          - apply list_lookup_singleton_Some in Hq as [_ ->]. done. }
        destruct (decide (q = nv)) as [->|Hqnv].
        { exfalso. apply lookup_app_Some in Hq as [Hq|[_ Hq]].
          - apply Hnvps. by eapply list_elem_of_lookup_2.
          - apply list_lookup_singleton_Some in Hq as [_ ->]. done. }
        rewrite !lookup_insert_ne by done.
        apply lookup_app_Some in Hq as [Hq|[Hi Hq]].
        { assert (q ≠ p) as Hqp by (intros ->; apply Hpps; by eapply list_elem_of_lookup_2).
          rewrite lookup_insert_ne by done.
          apply (Hblk i q o' Hq).
          rewrite lookup_app_l in Ho'; [done|]. rewrite <- Hlen. by eapply lookup_lt_Some. }
        apply list_lookup_singleton_Some in Hq as [Hi0 ->].
        rewrite lookup_insert_eq.
        rewrite lookup_app_r in Ho' by lia.
        replace (i - length loaded)%nat with 0%nat in Ho' by lia.
        by injection Ho' as ->.
      * intros q [Hq| ->%list_elem_of_singleton]%elem_of_app; [by apply H0ps|].
        rewrite <- Hrest by done. done.
      * intros q Hqud Hqnv Hq.
        rewrite elem_of_app, list_elem_of_singleton in Hq.
        rewrite !lookup_insert_ne by naive_solver.
        apply Hrest; naive_solver.
    + exists (p :: ps'), h'. split; [simpl; lia|].
      rewrite <- !(assoc_L (++)) in Hinv'. split; [done|].
      rewrite length_app in Hloop. simpl in Hloop.
      replace (length ps + 1)%nat with (S (length ps)) in Hloop by lia.
      etrans; [apply Hloop|]. cbn [length].
      replace (S (length ps) + length good)%nat
        with (length ps + S (length good))%nat by lia.
      by destruct st.
Qed.

(** A tile that fails, after those that convert. *)
Lemma load_tiles_loop_fails ud nv h0 bad rest ps loaded st :
  tiles_heap blk ud nv h0 (xs_heap st) ps loaded (S (length rest)) →
  tile_fails bad →
  ∃ py N,
    load_tiles_loop get_array ud nv (bad :: rest) (length ps) st
    = Some (true,
        {| xs_py := py;
           xs_heap :=
             <[ud := Pointers (((λ p, Some (Some p)) <$> ps) ++
                               Some None :: replicate (length rest) None)]>
               (<[nv := Ints N]> (xs_heap st)) |}) ∧
    is_Some (py_err py) ∧ py_mem py = py_mem (xs_py st).
Proof.
  intros (Hud & Hnv & Hne & Hudps & Hnvps & Hnodup & Hlen & Hblk &
          H0ud & H0nv & H0ps & Hrest) Hbad.
  destruct (get_fails bad st Hbad) as (w & py & Hrun & He & Hm & _).
  cbn [load_tiles_loop]. unfold xbind at 1. rewrite Hrun.
  assert (∃ N, (match w with Some n => poke_int nv (length ps) n | None => xret tt end)
                 (set_py py st)
               = Some (tt, set_heap (<[nv := Ints N]> (xs_heap st)) (set_py py st)))
    as [N HN].
  { destruct w as [n|].
    - unfold poke_int. cbn [xs_heap set_py]. rewrite Hnv.
      rewrite bool_decide_eq_true_2
        by (rewrite length_app, length_fmap, length_replicate; simpl; lia).
      by eexists.
    - eexists. unfold xret. rewrite insert_id by done. by destruct st. }
  unfold xbind at 1. rewrite HN.
  unfold xbind at 1. unfold poke_ptr. cbn [xs_heap set_heap set_py].
  rewrite lookup_insert_ne by done. rewrite Hud.
  rewrite bool_decide_eq_true_2
    by (rewrite length_app, length_fmap, length_replicate; simpl; lia).
  exists py, N. split; [|done].
  unfold xret, set_heap. cbn [xs_py xs_heap set_py]. do 4 f_equal.
  rewrite insert_app_r_alt by (rewrite length_fmap; lia).
  by rewrite length_fmap, Nat.sub_diag.
Qed.

(** The two allocations at the head of [load_tiles]. *)
Lemma load_tiles_run tiles l st :
  Z.of_nat (length tiles) ≤ C.INT_MAX → py_oom (xs_py st) = false →
  ∃ ud nv h,
    tiles_heap blk ud nv (xs_heap st) h [] [] (length tiles) ∧
    load_tiles get_array tiles l st
    = (let l' := set_numUncompressedVals (Some nv) (set_uncompressedData (Some ud)
                   (set_nUcTiles (Z.of_nat (length tiles)) l)) in
       let+ failed := load_tiles_loop get_array ud nv tiles 0 in
       if (failed : bool) then xret (Goto_error l') else xret (Fall_through l'))
        (set_heap h st).
Proof.
  intros Hlen Hoom. unfold load_tiles.
  rewrite to_int_small by (c_bounds; lia).
  rewrite Nat2Z.id, take_ge by done.
  set (n := length tiles) in *.
  set (ud := fresh (dom (xs_heap st))).
  set (h1 := <[ud := Pointers (replicate n None)]> (xs_heap st)).
  set (nv := fresh (dom h1)).
  set (h2 := <[nv := Ints (replicate n None)]> h1).
  assert (xs_heap st !! ud = None) as Hud by apply not_elem_of_dom, is_fresh.
  assert (h1 !! nv = None) as Hnv by apply not_elem_of_dom, is_fresh.
  assert (nv ≠ ud) as Hne.
  { intros Heq. rewrite Heq in Hnv. unfold h1 in Hnv. by rewrite lookup_insert_eq in Hnv. }
  exists ud, nv, h2. split.
  - unfold tiles_heap. simpl.
    split; [unfold h2, h1; rewrite lookup_insert_ne by done; by rewrite lookup_insert_eq|].
    split; [unfold h2; by rewrite lookup_insert_eq|].
    split; [done|]. split; [apply not_elem_of_nil|]. split; [apply not_elem_of_nil|].
    split; [apply NoDup_nil_2|]. split; [done|].
    split; [intros i p o Hp; by rewrite lookup_nil in Hp|].
    split; [done|].
    split; [unfold h1 in Hnv; by rewrite lookup_insert_ne in Hnv|].
    split; [intros p Hp; by apply elem_of_nil in Hp|].
    intros q Hq1 Hq2 _. unfold h2, h1. by rewrite !lookup_insert_ne.
  - assert (∀ k, 0 ≤ k ≤ 8 →
              bool_decide (PY_SSIZE_T_MAX < C.to_size_t (Z.of_nat n * k)) = false) as Hfits.
    { intros k Hk. apply bool_decide_eq_false_2.
      unfold PY_SSIZE_T_MAX, C.to_size_t, C.unsigned. c_bounds.
      rewrite Z.mod_small by nia. nia. }
    unfold xbind at 1. unfold xmalloc at 1. rewrite Hoom, Hfits by lia. cbn [orb].
    fold ud. fold h1.
    unfold xbind at 1. unfold xmalloc at 1. cbn [xs_py xs_heap set_heap].
    rewrite Hoom, Hfits by lia. cbn [orb]. fold nv. fold h2.
    cbv zeta. unfold xbind. by destruct st.
Qed.

(** The pointers the clean-up frees, when each was written. *)
Lemma free_tiles_run ud vs : ∀ pre post st,
  xs_heap st !! ud = Some (Pointers (pre ++ (Some <$> vs) ++ post)) →
  Some ud ∉ vs →
  free_tiles (Some ud) (length vs) (length pre) st
  = Some (tt, set_heap (release_all vs (xs_heap st)) st).
Proof.
  induction vs as [|v vs IH]; intros pre post st Hud Hvs.
  - simpl. unfold xret. by destruct st.
  - cbn [length free_tiles]. unfold xbind at 1. unfold peek_ptr. rewrite Hud.
    cbn [fmap list_fmap app].
    rewrite list_lookup_middle by done.
    unfold xbind at 1. rewrite xfree_run.
    apply not_elem_of_cons in Hvs as [Hv Hvs].
    specialize (IH (pre ++ [Some v]) post (set_heap (release v (xs_heap st)) st)).
    rewrite length_app in IH. simpl in IH.
    replace (length pre + 1)%nat with (S (length pre)) in IH by lia.
    rewrite IH; [by destruct st| |done].
    rewrite lookup_release, bool_decide_eq_false_2 by congruence.
    rewrite Hud. by rewrite <- (assoc_L (++)).
Qed.

(** The clean-up reaches a pointer that was never written. *)
Lemma free_tiles_uninit ud j n : ∀ i st,
  (i ≤ j < i + n)%nat →
  (∀ a, xs_heap st !! ud = Some (Pointers a) → a !! j = Some None) →
  free_tiles (Some ud) n i st = None.
Proof.
  induction n as [|n IH]; intros i st Hj Hinv; [lia|].
  cbn [free_tiles]. unfold xbind at 1. unfold peek_ptr.
  destruct (xs_heap st !! ud) as [[| | | |a]|] eqn:Hud; try done.
  specialize (Hinv a eq_refl).
  destruct (a !! i) as [[v|]|] eqn:Hi; try done.
  assert (i ≠ j) as Hne by (intros ->; congruence).
  unfold xbind at 1. rewrite xfree_run.
  apply IH; [lia|].
  intros a'. cbn [xs_heap set_heap]. rewrite lookup_release.
  case_bool_decide; [done|]. rewrite Hud. by intros [= <-].
Qed.

End TilesLoop.

Lemma decompressData_error_uninit l status st ud j :
  d_uncompressedData l = Some ud →
  (j < Z.to_nat (d_nUcTiles l))%nat →
  (∀ a, xs_heap st !! ud = Some (Pointers a) → a !! j = Some None) →
  decompressData_error l 1 status st = None.
Proof.
  intros Hud Hj Hinv. unfold decompressData_error. rewrite Hud.
  unfold xbind at 1. unfold lift at 1. rewrite PyMem_Free_ptr_run.
  unfold xbind at 1. unfold lift at 1. rewrite PyMem_Free_ptr_run.
  unfold xbind at 1. unfold lift at 1. rewrite PyMem_Free_ptr_run.
  rewrite bool_decide_eq_true_2 by done.
  unfold xbind at 1. unfold xbind at 1.
  rewrite (free_tiles_uninit ud j); [done|lia|done].
Qed.

Lemma decompressData_error_tiles l status st ud nv vs post :
  d_uncompressedData l = Some ud → d_numUncompressedVals l = Some nv →
  Z.to_nat (d_nUcTiles l) = length vs →
  xs_heap st !! ud = Some (Pointers ((Some <$> vs) ++ post)) →
  Some ud ∉ vs →
  decompressData_error l 1 status st
  = Some (if bool_decide (status ≠ 0) then None else Some (PyInt status),
      {| xs_py := set_mem (release (d_zval l) (release (d_tileSize l)
                    (release (d_naxes l) (py_mem (xs_py st))))) (xs_py st);
         xs_heap := release (Some nv) (release (Some ud)
                      (release_all vs (xs_heap st))) |}).
Proof.
  intros Hud Hnv Hn Hblock Hvs. unfold decompressData_error. rewrite Hud, Hnv, Hn.
  unfold xbind at 1. unfold lift at 1. rewrite PyMem_Free_ptr_run.
  unfold xbind at 1. unfold lift at 1. rewrite PyMem_Free_ptr_run.
  unfold xbind at 1. unfold lift at 1. rewrite PyMem_Free_ptr_run.
  rewrite bool_decide_eq_true_2 by done.
  unfold xbind at 1. unfold xbind at 1.
  rewrite (free_tiles_run ud vs [] post) by done.
  unfold xbind at 1. rewrite xfree_run. rewrite xfree_run.
  cbn [xs_py xs_heap set_py set_heap py_mem set_mem].
  destruct st as [[] ?]. by destruct (bool_decide (status ≠ 0)).
Qed.

Section TilesOutcome.

Variable get_array : PyObject → bool → MX (option nat * option Z).
Variable blk : PyObject → xblock.

Hypothesis get_ok : ∀ o st,
  tile_ok o → py_err (xs_py st) = None → py_oom (xs_py st) = false →
  ∃ p, xs_heap st !! p = None ∧
       get_array o true st
       = Some ((Some p, Some (tile_size o)), set_heap (<[p := blk o]> (xs_heap st)) st).

Hypothesis get_fails : ∀ o st,
  tile_fails o →
  ∃ w py,
    get_array o true st = Some ((None, w), set_py py st) ∧
    is_Some (py_err py) ∧ py_mem py = py_mem (xs_py st) ∧
    py_oom py = py_oom (xs_py st) ∧ py_getitem py = py_getitem (xs_py st) ∧
    buf_reads py = buf_reads (xs_py st).

(** Every tile converts. *)
Lemma load_tiles_all tiles l st :
  Z.of_nat (length tiles) ≤ C.INT_MAX →
  py_err (xs_py st) = None → py_oom (xs_py st) = false →
  Forall tile_ok tiles →
  ∃ ud nv ps h,
    load_tiles get_array tiles l st
    = Some (Fall_through
              (set_numUncompressedVals (Some nv) (set_uncompressedData (Some ud)
                 (set_nUcTiles (Z.of_nat (length tiles)) l))),
            set_heap h st) ∧
    tiles_heap blk ud nv (xs_heap st) h ps tiles 0.
Proof.
  intros Hlen He Hoom Hall.
  destruct (load_tiles_run get_array blk tiles l st Hlen Hoom) as (ud & nv & h & Hinv & Hrun).
  destruct (load_tiles_loop_good get_array blk get_ok ud nv (xs_heap st) [] tiles
              [] [] 0%nat (set_heap h st)) as (ps & h' & Hps & Hinv' & Hloop); try done.
  { cbn [xs_heap set_heap]. by rewrite Nat.add_0_r. }
  exists ud, nv, ps, h'. split; [|done].
  rewrite Hrun. cbv zeta. unfold xbind at 1.
  rewrite app_nil_r in Hloop. simpl in Hloop. rewrite Hloop.
  simpl. unfold xret. by destruct st.
Qed.

(** A tile fails after [good] have converted. *)
Lemma load_tiles_stops good bad rest l st :
  Z.of_nat (length (good ++ bad :: rest)) ≤ C.INT_MAX →
  py_err (xs_py st) = None → py_oom (xs_py st) = false →
  Forall tile_ok good → tile_fails bad →
  ∃ ud nv ps h py N,
    load_tiles get_array (good ++ bad :: rest) l st
    = Some (Goto_error
              (set_numUncompressedVals (Some nv) (set_uncompressedData (Some ud)
                 (set_nUcTiles (Z.of_nat (length (good ++ bad :: rest))) l))),
            {| xs_py := py;
               xs_heap :=
                 <[ud := Pointers (((λ p, Some (Some p)) <$> ps) ++
                                   Some None :: replicate (length rest) None)]>
                   (<[nv := Ints N]> h) |}) ∧
    tiles_heap blk ud nv (xs_heap st) h ps good (S (length rest)) ∧
    is_Some (py_err py) ∧ py_mem py = py_mem (xs_py st).
Proof.
  intros Hlen He Hoom Hgood Hbad.
  destruct (load_tiles_run get_array blk (good ++ bad :: rest) l st Hlen Hoom)
    as (ud & nv & h & Hinv & Hrun).
  destruct (load_tiles_loop_good get_array blk get_ok ud nv (xs_heap st) (bad :: rest) good
              [] [] (S (length rest)) (set_heap h st)) as (ps & h' & Hps & Hinv' & Hloop);
    try done.
  { cbn [xs_heap set_heap]. rewrite length_app in Hinv. exact Hinv. }
  simpl in Hinv'. cbn [length Nat.add] in Hloop.
  destruct (load_tiles_loop_fails get_array blk get_fails ud nv (xs_heap st) bad rest
              ps good (set_heap h' (set_heap h st))) as (py & N & Hfail & Hpy & Hm);
    try done.
  exists ud, nv, ps, h', py, N. split; [|done].
  rewrite Hrun. cbv zeta. unfold xbind at 1.
  rewrite Hloop. destruct Hinv' as (_ & _ & _ & _ & _ & _ & Hlenps & _).
  rewrite Hps in Hfail. rewrite Hfail. done.
Qed.

(** The clean-up after a tile that is not the last has failed. *)
Lemma load_tiles_then_error_undefined good bad rest l st status :
  Z.of_nat (length (good ++ bad :: rest)) ≤ C.INT_MAX →
  py_err (xs_py st) = None → py_oom (xs_py st) = false →
  Forall tile_ok good → tile_fails bad → rest ≠ [] →
  (let+ fl := load_tiles get_array (good ++ bad :: rest) l in
   decompressData_exit 1 status fl) st = None.
Proof.
  intros Hlen He Hoom Hgood Hbad Hrest.
  destruct (load_tiles_stops good bad rest l st Hlen He Hoom Hgood Hbad)
    as (ud & nv & ps & h & py & N & Hrun & Hinv & _).
  unfold xbind at 1. rewrite Hrun. unfold decompressData_exit.
  unfold xbind at 1.
  destruct Hinv as (_ & _ & _ & _ & _ & _ & Hlenps & _).
  rewrite (decompressData_error_uninit _ _ _ ud (S (length ps))); [done|done| |].
  - cbn [d_nUcTiles set_numUncompressedVals set_uncompressedData set_nUcTiles].
    rewrite Nat2Z.id, length_app, Hlenps. simpl. destruct rest; [done|simpl; lia].
  - intros a. cbn [xs_heap]. rewrite lookup_insert_eq. intros [= <-].
    rewrite lookup_app_r by (rewrite length_fmap; lia).
    rewrite length_fmap. replace (S (length ps) - length ps)%nat with 1%nat by lia.
    destruct rest; [done|reflexivity].
Qed.

(** The clean-up after the last tile has failed. *)
Lemma load_tiles_then_error_releases good bad l st status :
  Z.of_nat (length (good ++ [bad])) ≤ C.INT_MAX →
  py_err (xs_py st) = None → py_oom (xs_py st) = false →
  Forall tile_ok good → tile_fails bad →
  d_uncompressedData l = None → d_numUncompressedVals l = None →
  ∃ py,
    (let+ fl := load_tiles get_array (good ++ [bad]) l in
     decompressData_exit 1 status fl) st
    = Some (Some (if bool_decide (status ≠ 0) then None else Some (PyInt status)),
        {| xs_py := set_mem (release (d_zval l) (release (d_tileSize l)
                      (release (d_naxes l) (py_mem (xs_py st))))) py;
           xs_heap := xs_heap st |}) ∧
    is_Some (py_err py).
Proof.
  intros Hlen He Hoom Hgood Hbad Hl1 Hl2.
  destruct (load_tiles_stops good bad [] l st Hlen He Hoom Hgood Hbad)
    as (ud & nv & ps & h & py & N & Hrun & Hinv & Hpy & Hm).
  exists py. split; [|done].
  unfold xbind at 1. rewrite Hrun. unfold decompressData_exit.
  unfold xbind at 1.
  destruct Hinv as (Hud & Hnv & Hne & Hudps & Hnvps & Hnodup & Hlenps & Hblk &
                    H0ud & H0nv & H0ps & Hrest).
  rewrite (decompressData_error_tiles _ _ _ ud nv ((Some <$> ps) ++ [None]) []).
  - unfold xret. cbn [xs_py xs_heap d_zval d_tileSize d_naxes
      set_numUncompressedVals set_uncompressedData set_nUcTiles]. rewrite Hm.
    do 3 f_equal.
    apply map_eq. intros q.
    rewrite !lookup_release, lookup_release_all.
    destruct (decide (q = nv)) as [->|Hqnv].
    { by rewrite bool_decide_eq_true_2. }
    rewrite (bool_decide_eq_false_2 (Some nv = Some q)) by congruence.
    destruct (decide (q = ud)) as [->|Hqud].
    { by rewrite bool_decide_eq_true_2. }
    rewrite (bool_decide_eq_false_2 (Some ud = Some q)) by congruence.
    destruct (decide (q ∈ ps)) as [Hq|Hq].
    { rewrite bool_decide_eq_true_2; [by rewrite H0ps|].
      apply elem_of_app. left. by apply list_elem_of_fmap_2. }
    rewrite bool_decide_eq_false_2.
    + rewrite !lookup_insert_ne by done. by apply Hrest.
    + intros [Hin|Hin]%elem_of_app.
      * apply list_elem_of_fmap in Hin as (q' & [= <-] & Hq'). done.
      * apply list_elem_of_singleton in Hin. done.
  - done.
  - done.
  - cbn [d_nUcTiles set_numUncompressedVals set_uncompressedData set_nUcTiles].
    rewrite Nat2Z.id, !length_app, length_fmap, Hlenps. done.
  - cbn [xs_heap]. rewrite lookup_insert_eq. do 2 f_equal. simpl.
    rewrite app_nil_r, fmap_app, <- list_fmap_compose. done.
  - intros [Hin|Hin]%elem_of_app.
    + apply list_elem_of_fmap in Hin as (q' & [= <-] & Hq'). done.
    + apply list_elem_of_singleton in Hin. done.
Qed.

End TilesOutcome.

(** X17.  [get_float_array] and [get_double_array] return for every
    argument and in every state, and keep the convention of the Python C
    API as [get_long_array] does: the result is NULL exactly when an
    exception is pending on return, and then the heap is as it was before
    the call; with a pointer no exception was pending before the call
    either and the heap has gained exactly one block, at an address that
    was free, whose length is the size stored through [data_size].  The
    arrays of [long] are left alone in both cases. *)
Theorem get_float_double_array_null_iff_exception (data : PyObject) (ds : bool)
    (st : XState) :
  (∃ r w st',
     get_float_array data ds st = Some ((r, w), st') ∧
     py_mem (xs_py st') = py_mem (xs_py st) ∧
     match r with
     | None => is_Some (py_err (xs_py st')) ∧ xs_heap st' = xs_heap st
     | Some p =>
         py_err (xs_py st') = None ∧ py_err (xs_py st) = None ∧
         xs_heap st !! p = None ∧
         ∃ a, xs_heap st' = <[p := Floats a]> (xs_heap st) ∧
              (ds = true → w = Some (Z.of_nat (length a)))
     end) ∧
  (∃ r w st',
     get_double_array data ds st = Some ((r, w), st') ∧
     py_mem (xs_py st') = py_mem (xs_py st) ∧
     match r with
     | None => is_Some (py_err (xs_py st')) ∧ xs_heap st' = xs_heap st
     | Some p =>
         py_err (xs_py st') = None ∧ py_err (xs_py st) = None ∧
         xs_heap st !! p = None ∧
         ∃ a, xs_heap st' = <[p := Doubles a]> (xs_heap st) ∧
              (ds = true → w = Some (Z.of_nat (length a)))
     end).
Proof.
  split.
  - destruct (get_float_array_outcome data ds st)
      as (r & w & st' & Hrun & _ & _ & _ & Hm & Hr).
    by exists r, w, st'.
  - destruct (get_double_array_outcome data ds st)
      as (r & w & st' & Hrun & _ & _ & _ & Hm & Hr).
    by exists r, w, st'.
Qed.

Lemma release_three {B} (p1 p2 p3 : nat) (b1 b2 b3 : B) (m : gmap nat B) :
  p1 ≠ p2 → p1 ≠ p3 → p2 ≠ p3 →
  m !! p1 = None → m !! p2 = None → m !! p3 = None →
  release (Some p3) (release (Some p2) (release (Some p1)
    (<[p3 := b3]> (<[p2 := b2]> (<[p1 := b1]> m))))) = m.
Proof.
  intros H12 H13 H23 Hp1 Hp2 Hp3.
  rewrite (release_other p1 p3), (release_other p1 p2), (release_fresh p1) by done.
  rewrite (release_other p2 p3), (release_fresh p2) by done.
  by apply release_fresh.
Qed.

(** The run that loads the tiles, once the three arrays are there. *)
Lemma decompressData_early_tiles o1 o2 o3 bitpix tiles st l py :
  decompressData_arrays o1 o2 o3 (xs_py st) = Some (inl l, py) →
  bitpix = FLOAT_IMG ∨ bitpix = DOUBLE_IMG →
  decompressData_arguments o1 o2 o3 bitpix 1 tiles st
  = (if bool_decide (bitpix = FLOAT_IMG)
     then load_tiles get_float_array tiles (set_datatype TFLOAT l)
     else load_tiles get_double_array tiles (set_datatype TDOUBLE l)) (set_py py st).
Proof.
  intros Hrun Hbitpix. unfold decompressData_arguments.
  unfold xbind at 1. rewrite (lift_run _ _ _ _ Hrun).
  by destruct Hbitpix as [-> | ->].
Qed.

(** X18.  With uncompressed tiles to load ([cn_uncompressed == 1], a
    float or double image), a tile that fails to convert sends
    [compression_decompressData] to the label [error], where every
    element of [uncompressedData] is passed to [PyMem_Free].  When the
    failing tile is not the last, the elements after it were never
    written: the clean-up frees indeterminate pointers, which is
    undefined. *)
Theorem decompressData_tile_failure_undefined (naxesObj tileSizeObj zvalObj : PyObject)
    (bitpix : Z) (good : list PyObject) (bad : PyObject) (rest : list PyObject)
    (status : Z) (st : XState) (l : decompress_locals) (py : PyState) :
  decompressData_arrays naxesObj tileSizeObj zvalObj (xs_py st) = Some (inl l, py) →
  py_oom (xs_py st) = false →
  bitpix = FLOAT_IMG ∨ bitpix = DOUBLE_IMG →
  Z.of_nat (length (good ++ bad :: rest)) ≤ C.INT_MAX →
  Forall tile_ok good → tile_fails bad → rest ≠ [] →
  decompressData_early naxesObj tileSizeObj zvalObj bitpix 1 (good ++ bad :: rest)
    status st = None.
Proof.
  intros Hrun Hoom Hbitpix Hlen Hgood Hbad Hrest.
  destruct (decompressData_arrays_outcome naxesObj tileSizeObj zvalObj (xs_py st))
    as (r & py' & Hrun' & _ & Hoom' & _ & Hr).
  rewrite Hrun in Hrun'. injection Hrun' as <- <-.
  destruct Hr as (He & _).
  unfold decompressData_early. unfold xbind at 1.
  rewrite (decompressData_early_tiles _ _ _ _ _ _ _ _ Hrun Hbitpix).
  destruct (bool_decide (bitpix = FLOAT_IMG)).
  - apply (load_tiles_then_error_undefined get_float_array float_block
             get_float_array_ok get_float_array_fails); try done.
    cbn [xs_py set_py]. congruence.
  - apply (load_tiles_then_error_undefined get_double_array double_block
             get_double_array_ok get_double_array_fails); try done.
    cbn [xs_py set_py]. congruence.
Qed.

(** X19.  When the tile that fails to convert is the last one, the
    clean-up at [error] meets only pointers that were written: it frees
    the arrays of the tiles before it, the two arrays of the tile table
    and the three arrays of [long], so that both heaps are as before the
    call, with an exception pending; the result again follows the
    indeterminate value of [status]. *)
Theorem decompressData_last_tile_failure_releases
    (naxesObj tileSizeObj zvalObj : PyObject)
    (bitpix : Z) (good : list PyObject) (bad : PyObject)
    (status : Z) (st : XState) (l : decompress_locals) (py : PyState) :
  decompressData_arrays naxesObj tileSizeObj zvalObj (xs_py st) = Some (inl l, py) →
  py_oom (xs_py st) = false →
  bitpix = FLOAT_IMG ∨ bitpix = DOUBLE_IMG →
  Z.of_nat (length (good ++ [bad])) ≤ C.INT_MAX →
  Forall tile_ok good → tile_fails bad →
  ∃ st',
    decompressData_early naxesObj tileSizeObj zvalObj bitpix 1 (good ++ [bad]) status st
    = Some (Some (if bool_decide (status = 0) then Some (PyInt 0) else None), st') ∧
    is_Some (py_err (xs_py st')) ∧
    py_mem (xs_py st') = py_mem (xs_py st) ∧
    xs_heap st' = xs_heap st.
Proof.
  intros Hrun Hoom Hbitpix Hlen Hgood Hbad.
  destruct (decompressData_arrays_outcome naxesObj tileSizeObj zvalObj (xs_py st))
    as (r & py' & Hrun' & _ & Hoom' & _ & Hr).
  rewrite Hrun in Hrun'. injection Hrun' as <- <-.
  destruct Hr as (He & _ & _ & Hud & Hnv & _ & p1 & p2 & p3 & a1 & a2 & a3 &
                  Hl1 & Hl2 & Hl3 & _ & Hp1 & Hp2 & Hp3 & H12 & H13 & H23 & Hm).
  unfold decompressData_early. unfold xbind at 1.
  rewrite (decompressData_early_tiles _ _ _ _ _ _ _ _ Hrun Hbitpix).
  assert (∀ t, release (d_zval (set_datatype t l)) (release (d_tileSize (set_datatype t l))
                 (release (d_naxes (set_datatype t l)) (py_mem py)))
               = py_mem (xs_py st)) as Hrel.
  { intros t. cbn [d_zval d_tileSize d_naxes set_datatype].
    rewrite Hl1, Hl2, Hl3, Hm. by apply release_three. }
  assert ((if bool_decide (status ≠ 0) then None else Some (PyInt status))
          = (if bool_decide (status = 0) then Some (PyInt 0) else None)) as Hres.
  { repeat case_bool_decide; try done; by subst. }
  destruct (bool_decide (bitpix = FLOAT_IMG)).
  - destruct (load_tiles_then_error_releases get_float_array float_block
                get_float_array_ok get_float_array_fails good bad
                (set_datatype TFLOAT l) (set_py py st) status) as (py' & Hrun' & He');
      try done.
    { cbn [xs_py set_py]. congruence. }
    pose proof Hrun' as Hrun''. unfold xbind at 1 in Hrun''.
    eexists. split; [rewrite <- Hres; exact Hrun''|].
    cbn [xs_py xs_heap set_py py_err py_mem set_mem]. by rewrite Hrel.
  - destruct (load_tiles_then_error_releases get_double_array double_block
                get_double_array_ok get_double_array_fails good bad
                (set_datatype TDOUBLE l) (set_py py st) status) as (py' & Hrun' & He');
      try done.
    { cbn [xs_py set_py]. congruence. }
    pose proof Hrun' as Hrun''. unfold xbind at 1 in Hrun''.
    eexists. split; [rewrite <- Hres; exact Hrun''|].
    cbn [xs_py xs_heap set_py py_err py_mem set_mem]. by rewrite Hrel.
Qed.

(** X20.  When the three lists and every tile convert, the argument
    stage of [compression_decompressData] goes on to the set-up with the
    tile table filled: [uncompressedData[i]] points to the array of tile
    [i], an array of its own holding the tile's items as [float] or
    [double], [numUncompressedVals[i]] is the tile's length, [nUcTiles]
    the number of tiles, and nothing else in the heap has changed. *)
Theorem decompressData_tiles_loaded (naxesObj tileSizeObj zvalObj : PyObject)
    (bitpix : Z) (tiles : list PyObject)
    (st : XState) (l : decompress_locals) (py : PyState) :
  decompressData_arrays naxesObj tileSizeObj zvalObj (xs_py st) = Some (inl l, py) →
  py_oom (xs_py st) = false →
  bitpix = FLOAT_IMG ∨ bitpix = DOUBLE_IMG →
  Z.of_nat (length tiles) ≤ C.INT_MAX →
  Forall tile_ok tiles →
  ∃ l' st' ud nv ps,
    decompressData_arguments naxesObj tileSizeObj zvalObj bitpix 1 tiles st
    = Some (Fall_through l', st') ∧
    xs_py st' = py ∧ py_err py = None ∧
    d_datatype l' = Some (if bool_decide (bitpix = FLOAT_IMG) then TFLOAT else TDOUBLE) ∧
    d_nUcTiles l' = Z.of_nat (length tiles) ∧
    d_uncompressedData l' = Some ud ∧ d_numUncompressedVals l' = Some nv ∧
    d_naxes l' = d_naxes l ∧ d_tileSize l' = d_tileSize l ∧ d_zval l' = d_zval l ∧
    tiles_heap (if bool_decide (bitpix = FLOAT_IMG) then float_block else double_block)
      ud nv (xs_heap st) (xs_heap st') ps tiles 0.
Proof.
  intros Hrun Hoom Hbitpix Hlen Hall.
  destruct (decompressData_arrays_outcome naxesObj tileSizeObj zvalObj (xs_py st))
    as (r & py' & Hrun' & _ & Hoom' & _ & Hr).
  rewrite Hrun in Hrun'. injection Hrun' as <- <-.
  destruct Hr as (He & _).
  rewrite (decompressData_early_tiles _ _ _ _ _ _ _ _ Hrun Hbitpix).
  destruct (bool_decide (bitpix = FLOAT_IMG)).
  - destruct (load_tiles_all get_float_array float_block get_float_array_ok tiles
                (set_datatype TFLOAT l) (set_py py st))
      as (ud & nv & ps & h & Hload & Hinv); try done.
    { cbn [xs_py set_py]. congruence. }
    rewrite Hload. eexists _, _, ud, nv, ps. split; [done|].
    do 9 (split; [done|]). exact Hinv.
  - destruct (load_tiles_all get_double_array double_block get_double_array_ok tiles
                (set_datatype TDOUBLE l) (set_py py st))
      as (ud & nv & ps & h & Hload & Hinv); try done.
    { cbn [xs_py set_py]. congruence. }
    rewrite Hload. eexists _, _, ud, nv, ps. split; [done|].
    do 9 (split; [done|]). exact Hinv.
Qed.

Ltac tile_hyps :=
  repeat match goal with
  | |- Forall _ [] => constructor
  | |- Forall _ (_ :: _) => constructor
  | |- tile_ok _ =>
      eexists; split; [reflexivity|];
      split; [vm_compute; discriminate|]
  | |- tile_fails _ =>
      let items := fresh "items" in let H := fresh "H" in
      intros items H; first [discriminate H | injection H as <-];
      split; [vm_compute; discriminate|]
  | |- Exists _ _ => constructor
  | |- ∃ _, double_of _ = _ => eexists; reflexivity
  end.

Lemma decompressData_tile_failure_undefined_witness :
  decompressData_early (PyList [PyInt 2]) (PyList [PyInt 2]) (PyList []) DOUBLE_IMG 1
    [tile_of_two; PyNone; PyList []] 0 clean_xstate = None.
Proof.
  eapply (decompressData_tile_failure_undefined _ _ _ DOUBLE_IMG [tile_of_two] PyNone
            [PyList []]).
  - vm_compute. reflexivity.
  - reflexivity.
  - right. reflexivity.
  - vm_compute. discriminate.
  - tile_hyps.
  - intros items H. discriminate H.
  - discriminate.
Defined.

Lemma decompressData_last_tile_failure_releases_witness :
  ∃ st',
    decompressData_early (PyList [PyInt 2]) (PyList [PyInt 2]) (PyList []) FLOAT_IMG 1
      [tile_of_two; PyList [PyStr "x"]] 5 clean_xstate
    = Some (Some None, st') ∧
    is_Some (py_err (xs_py st')) ∧ py_mem (xs_py st') = ∅ ∧ xs_heap st' = ∅.
Proof.
  eapply (decompressData_last_tile_failure_releases _ _ _ FLOAT_IMG [tile_of_two]
            (PyList [PyStr "x"]) 5 clean_xstate).
  - vm_compute. reflexivity.
  - reflexivity.
  - left. reflexivity.
  - vm_compute. discriminate.
  - tile_hyps.
  - tile_hyps.
Defined.

Lemma decompressData_tiles_loaded_witness :
  ∃ l' st' ud nv ps,
    decompressData_arguments (PyList [PyInt 2]) (PyList [PyInt 2]) (PyList []) DOUBLE_IMG 1
      [tile_of_two; PyList []] clean_xstate
    = Some (Fall_through l', st') ∧
    d_nUcTiles l' = 2 ∧
    tiles_heap double_block ud nv ∅ (xs_heap st') ps [tile_of_two; PyList []] 0.
Proof.
  edestruct (decompressData_tiles_loaded (PyList [PyInt 2]) (PyList [PyInt 2]) (PyList [])
               DOUBLE_IMG [tile_of_two; PyList []] clean_xstate)
    as (l' & st' & ud & nv & ps & Hrun & _ & _ & _ & Hn & _ & _ & _ & _ & _ & Hheap).
  - vm_compute. reflexivity.
  - reflexivity.
  - right. reflexivity.
  - vm_compute. discriminate.
  - tile_hyps.
  - exists l', st', ud, nv, ps. split; [exact Hrun|]. split; [exact Hn|exact Hheap].
Defined.

(** ** [get_char_array] *)

Lemma string_item_run x py :
  PyString_AsString x py
  = Some (string_buffer x, set_err (string_err_after [x] (py_err py)) py) ∧
  ∀ py', py_err py' = string_err_after [x] (py_err py) →
    PyString_Size x py' = Some (string_size x, py').
Proof.
  destruct x; simpl; unfold ret, bind, PyErr_Set, modify; (split; [by destruct py|]);
    intros py' Hpy'; try done; destruct py'; simpl in *; by subst.
Qed.

Lemma string_err_after_pending items ex : is_Some (string_err_after items (Some ex)).
Proof.
  unfold string_err_after. revert ex.
  induction items as [|x items IH]; intros ex; [by eexists|].
  simpl. destruct x; apply IH.
Qed.

Lemma string_err_after_ok items e :
  Forall is_string items → string_err_after items e = e.
Proof.
  unfold string_err_after. intros Hall. revert e.
  induction Hall as [|x items [s ->] _ IH]; intros e; [done|]. simpl. apply IH.
Qed.

Lemma string_err_after_fails items e :
  Exists (λ x, ¬ is_string x) items → is_Some (string_err_after items e).
Proof.
  unfold string_err_after. intros Hex. revert e.
  induction Hex as [x items Hx|x items _ IH]; intros e.
  - simpl. destruct x; try apply string_err_after_pending.
    destruct Hx. by eexists.
  - simpl. apply IH.
Qed.

Lemma insert_pair_absorb {B} (p q : nat) (a b c d : B) (m : gmap nat B) :
  p ≠ q →
  <[q := a]> (<[p := b]> (<[q := c]> (<[p := d]> m))) = <[q := a]> (<[p := b]> m).
Proof.
  intros Hpq. rewrite (insert_insert_ne _ p q b c) by done.
  by rewrite !insert_insert_eq.
Qed.

Lemma fill_chars_run p q items : ∀ preS todoS preI todoI st,
  p ≠ q →
  xs_heap st !! p = Some (Strings (preS ++ todoS)) →
  xs_heap st !! q = Some (Ints (preI ++ todoI)) →
  length preS = length preI →
  length todoS = length items → length todoI = length items →
  fill_chars p q items (length preS) st
  = Some (tt,
      {| xs_py := set_err (string_err_after items (py_err (xs_py st))) (xs_py st);
         xs_heap :=
           <[q := Ints (preI ++ ((λ x, Some (C.to_int (string_size x))) <$> items))]>
             (<[p := Strings (preS ++ (string_buffer <$> items))]> (xs_heap st)) |}).
Proof.
  induction items as [|x items IH]; intros preS todoS preI todoI st Hpq Hp Hq Hpre HS HI.
  - destruct todoS; [|discriminate]. destruct todoI; [|discriminate].
    simpl. unfold xret. rewrite !app_nil_r in *.
    rewrite (insert_id _ p) by done. rewrite insert_id by done.
    by destruct st as [[] ?].
  - destruct todoS as [|s0 todoS]; [discriminate|].
    destruct todoI as [|i0 todoI]; [discriminate|].
    injection HS as HS. injection HI as HI.
    destruct (string_item_run x (xs_py st)) as [Hstr Hsize].
    cbn [fill_chars]. unfold xbind at 1. unfold lift at 1. rewrite Hstr.
    unfold xbind at 1. unfold poke_str. cbn [xs_heap set_py]. rewrite Hp.
    rewrite bool_decide_eq_true_2 by (rewrite length_app; simpl; lia).
    unfold xbind at 1. unfold lift at 1. cbn [xs_py set_heap set_py].
    rewrite Hsize by done.
    unfold xbind at 1. unfold poke_int. cbn [xs_heap set_heap set_py].
    rewrite lookup_insert_ne by done. rewrite Hq.
    rewrite bool_decide_eq_true_2 by (rewrite length_app; simpl; lia).
    rewrite !insert_app_r_alt by lia. rewrite <- Hpre, !Nat.sub_diag.
    cbn [list_insert insert].
    match goal with
    | |- fill_chars _ _ _ _ ?st1 = _ =>
        specialize (IH (preS ++ [string_buffer x]) todoS
                      (preI ++ [Some (C.to_int (string_size x))]) todoI st1)
    end.
    rewrite length_app in IH. cbn [length] in IH.
    replace (length preS + 1)%nat with (S (length preS)) in IH by lia.
    rewrite IH.
    + cbn [xs_py xs_heap set_heap set_py py_err set_err].
      rewrite insert_pair_absorb by done.
      rewrite <- !(assoc_L (++)). reflexivity.
    + done.
    + cbn [xs_heap set_heap]. rewrite lookup_insert_ne by done.
      rewrite lookup_insert_eq. by rewrite <- (assoc_L (++)).
    + cbn [xs_heap set_heap]. rewrite lookup_insert_eq.
      by rewrite <- (assoc_L (++)).
    + rewrite !length_app. simpl. lia.
    + done.
    + done.
Qed.

(** The run of [get_char_array] on a list whose [int] size is not
    negative. *)
Lemma get_char_array_take_run items (ds : bool) st :
  let size := C.to_int (Z.of_nat (length items)) in
  0 ≤ size → py_oom (xs_py st) = false →
  let its := take (Z.to_nat size) items in
  let p := fresh (dom (xs_heap st)) in
  let q := fresh (dom (<[p := Strings (replicate (Z.to_nat size) None)]> (xs_heap st))) in
  let e := string_err_after its (py_err (xs_py st)) in
  let written := if ds then Some size else None in
  p ≠ q ∧ xs_heap st !! p = None ∧ xs_heap st !! q = None ∧
  length its = Z.to_nat size ∧
  get_char_array (PyList items) ds st
  = Some (if bool_decide (is_Some e)
          then ((None, written, Some (Some q)), set_py (set_err e (xs_py st)) st)
          else ((Some p, written, Some (Some q)),
                {| xs_py := set_err e (xs_py st);
                   xs_heap :=
                     <[q := Ints ((λ x, Some (C.to_int (string_size x))) <$> its)]>
                       (<[p := Strings (string_buffer <$> its)]> (xs_heap st)) |})).
Proof.
  intros size Hsize Hoom its p q e written. unfold get_char_array. fold size.
  assert (size ≤ C.INT_MAX) as Hmax.
  { unfold size, C.to_int, C.signed. c_bounds.
    change (2 ^ (32 - 1)) with 2147483648.
    pose proof (Z.mod_pos_bound (Z.of_nat (length items) + 2147483648) 4294967296). lia. }
  assert (length its = Z.to_nat size) as Hlen.
  { unfold its. rewrite length_take.
    pose proof (to_int_le (Z.of_nat (length items)) ltac:(lia)). fold size in H. lia. }
  assert (xs_heap st !! p = None) as Hp by apply not_elem_of_dom, is_fresh.
  assert (<[p := Strings (replicate (Z.to_nat size) None)]> (xs_heap st) !! q = None)
    as Hq by apply not_elem_of_dom, is_fresh.
  assert (p ≠ q) as Hpq.
  { intros Heq. rewrite <- Heq in Hq. by rewrite lookup_insert_eq in Hq. }
  rewrite lookup_insert_ne in Hq by done.
  split; [done|]. split; [done|]. split; [done|]. split; [done|].
  rewrite bool_decide_eq_false_2 by lia. fold its.
  assert (∀ k, 0 ≤ k ≤ 8 → bool_decide (PY_SSIZE_T_MAX < C.to_size_t (size * k)) = false)
    as Hfits.
  { intros k Hk. apply bool_decide_eq_false_2.
    unfold PY_SSIZE_T_MAX, C.to_size_t, C.unsigned. c_bounds.
    rewrite Z.mod_small by nia. nia. }
  unfold xbind at 1. unfold xmalloc at 1. rewrite Hoom, Hfits by lia. cbn [orb]. fold p.
  unfold xbind at 1. unfold xmalloc at 1. cbn [xs_py xs_heap set_heap].
  rewrite Hoom, Hfits by lia. cbn [orb]. fold q.
  unfold xbind at 1.
  rewrite (fill_chars_run p q its [] (replicate (Z.to_nat size) None)
             [] (replicate (Z.to_nat size) None)); try done; cycle 1.
  { cbn [xs_heap set_heap]. rewrite lookup_insert_ne by done. by rewrite lookup_insert_eq. }
  { cbn [xs_heap set_heap]. by rewrite lookup_insert_eq. }
  { by rewrite length_replicate. }
  { by rewrite length_replicate. }
  cbn [app xs_py xs_heap set_heap set_py]. rewrite insert_pair_absorb by done. fold e.
  unfold xbind at 1. unfold lift at 1, PyErr_Occurred, gets. cbn [xs_py py_err set_err].
  destruct (bool_decide (is_Some e)); [|done].
  unfold xbind. rewrite !xfree_run. cbn [xs_py xs_heap set_heap set_py].
  unfold xret. do 2 f_equal.
  rewrite (release_other p q) by done. rewrite (release_fresh p) by done.
  rewrite (release_fresh q) by done. by destruct st as [[] ?].
Qed.

(** X21.  [get_char_array] returns for every argument and in every
    state; it returns NULL exactly when an exception is pending on
    return, and then the heap is as it was before the call.  With a
    pointer, no exception was pending before the call either, and the
    heap has gained exactly two blocks at two addresses that were free:
    the array of buffers, which is returned, and the array of sizes,
    whose address is stored in [*dataLen]; both have the length stored
    through [data_size]. *)
Theorem get_char_array_null_iff_exception (data : PyObject) (ds : bool) (st : XState) :
  ∃ r w dl st',
    get_char_array data ds st = Some ((r, w, dl), st') ∧
    py_mem (xs_py st') = py_mem (xs_py st) ∧
    match r with
    | None => is_Some (py_err (xs_py st')) ∧ xs_heap st' = xs_heap st
    | Some p =>
        py_err (xs_py st') = None ∧ py_err (xs_py st) = None ∧
        ∃ q bufs sizes,
          dl = Some (Some q) ∧ p ≠ q ∧
          xs_heap st !! p = None ∧ xs_heap st !! q = None ∧
          xs_heap st' = <[q := Ints sizes]> (<[p := Strings bufs]> (xs_heap st)) ∧
          length bufs = length sizes ∧
          (ds = true → w = Some (Z.of_nat (length bufs)))
    end.
Proof.
  assert (∀ ex, ∃ r w dl st',
    (run+ lift (PyErr_Set ex) then xret (None, None, None)) st
    = Some ((r : option nat, w : option Z, dl : option (option nat)), st') ∧
    py_mem (xs_py st') = py_mem (xs_py st) ∧
    match r with
    | None => is_Some (py_err (xs_py st')) ∧ xs_heap st' = xs_heap st
    | Some p =>
        py_err (xs_py st') = None ∧ py_err (xs_py st) = None ∧
        ∃ q bufs sizes,
          dl = Some (Some q) ∧ p ≠ q ∧
          xs_heap st !! p = None ∧ xs_heap st !! q = None ∧
          xs_heap st' = <[q := Ints sizes]> (<[p := Strings bufs]> (xs_heap st)) ∧
          length bufs = length sizes ∧
          (ds = true → w = Some (Z.of_nat (length bufs)))
    end) as Hraise.
  { intros ex. exists None, None, None, (set_py (set_err (Some ex) (xs_py st)) st).
    split; [done|]. split; [done|]. split; [by eexists|done]. }
  destruct data as [| | | |items|]; try apply Hraise.
  destruct (decide (C.to_int (Z.of_nat (length items)) < 0)) as [Hneg|Hsize].
  { unfold get_char_array. rewrite bool_decide_eq_true_2 by done. apply Hraise. }
  destruct (py_oom (xs_py st)) eqn:Hoom.
  { unfold get_char_array. rewrite bool_decide_eq_false_2 by done.
    unfold xbind at 1. unfold xmalloc. rewrite Hoom, orb_true_r.
    eexists None, _, _, (set_py (set_err (Some PyExc_MemoryError) (xs_py st)) st).
    split; [done|]. split; [done|]. split; [by eexists|done]. }
  destruct (get_char_array_take_run items ds st ltac:(lia) Hoom)
    as (Hpq & Hp & Hq & Hlen & Hrun).
  rewrite Hrun.
  set (size := C.to_int (Z.of_nat (length items))) in *.
  set (its := take (Z.to_nat size) items) in *.
  case_bool_decide as He.
  - eexists None, _, _, _. split; [done|]. split; [done|]. done.
  - eexists (Some _), _, _, _. split; [done|]. split; [done|].
    assert (string_err_after its (py_err (xs_py st)) = None) as Hnone.
    { destruct (string_err_after its (py_err (xs_py st))) eqn:E; [|done].
      destruct He. by eexists. }
    split; [done|].
    split.
    { destruct (py_err (xs_py st)) as [ex|] eqn:Hst; [|done].
      exfalso. apply He. apply string_err_after_pending. }
    eexists _, _, _. split; [done|]. split; [done|]. split; [done|]. split; [done|].
    split; [done|]. split; [by rewrite !length_fmap|].
    intros ->. rewrite length_fmap, Hlen. f_equal. lia.
Qed.

(** X22.  When an item of the list is no string, [get_char_array]
    frees both arrays and returns NULL, but [*dataLen] keeps the address
    of the array of sizes it has just freed: the caller is left with a
    pointer to no live block. *)
Theorem get_char_array_leaves_dangling_dataLen (items : list PyObject) (ds : bool)
    (st : XState) :
  Z.of_nat (length items) ≤ C.INT_MAX → py_oom (xs_py st) = false →
  Exists (λ x, ¬ is_string x) items →
  ∃ w q st',
    get_char_array (PyList items) ds st = Some ((None, w, Some (Some q)), st') ∧
    is_Some (py_err (xs_py st')) ∧
    xs_heap st' = xs_heap st ∧ xs_heap st' !! q = None.
Proof.
  intros Hlen Hoom Hex.
  destruct (get_char_array_take_run items ds st) as (Hpq & Hp & Hq & _ & Hrun);
    [rewrite to_int_small by (c_bounds; lia); lia|done|].
  rewrite to_int_small in Hrun, Hq by (c_bounds; lia).
  rewrite Nat2Z.id, take_ge in Hrun by done. rewrite Nat2Z.id in Hq.
  rewrite bool_decide_eq_true_2 in Hrun by (by apply string_err_after_fails).
  eexists _, _, _. split; [exact Hrun|].
  split; [by apply string_err_after_fails|]. split; [done|exact Hq].
Qed.

Lemma get_char_array_leaves_dangling_dataLen_witness :
  ∃ w q st',
    get_char_array (PyList [PyStr "abc"; PyInt 1]) true clean_xstate
    = Some ((None, w, Some (Some q)), st') ∧
    is_Some (py_err (xs_py st')) ∧ xs_heap st' !! q = None.
Proof.
  destruct (get_char_array_leaves_dangling_dataLen [PyStr "abc"; PyInt 1] true clean_xstate)
    as (w & q & st' & Hrun & He & _ & Hq).
  - vm_compute. discriminate.
  - reflexivity.
  - right. left. intros [s Hs]. discriminate Hs.
  - exists w, q, st'. split; [exact Hrun|]. split; [exact He|exact Hq].
Defined.

(** X23.  For a list of strings, of a length that fits an [int], with no
    exception pending and memory to be had, [get_char_array] returns a
    new array holding the buffer of each string in turn, stores in
    [*dataLen] a second new array holding each string's size as an
    [int], and stores the number of strings through [data_size]. *)
Theorem get_char_array_strings (items : list PyObject) (ds : bool) (st : XState) :
  Z.of_nat (length items) ≤ C.INT_MAX →
  py_err (xs_py st) = None → py_oom (xs_py st) = false →
  Forall is_string items →
  ∃ p q,
    p ≠ q ∧ xs_heap st !! p = None ∧ xs_heap st !! q = None ∧
    get_char_array (PyList items) ds st
    = Some ((Some p, if ds then Some (Z.of_nat (length items)) else None, Some (Some q)),
            set_heap
              (<[q := Ints ((λ x, Some (C.to_int (string_size x))) <$> items)]>
                 (<[p := Strings (string_buffer <$> items)]> (xs_heap st))) st).
Proof.
  intros Hlen He Hoom Hall.
  destruct (get_char_array_take_run items ds st) as (Hpq & Hp & Hq & _ & Hrun);
    [rewrite to_int_small by (c_bounds; lia); lia|done|].
  rewrite to_int_small in Hrun, Hq, Hpq by (c_bounds; lia).
  rewrite Nat2Z.id, take_ge in Hrun by done. rewrite Nat2Z.id in Hq, Hpq.
  rewrite string_err_after_ok, He in Hrun by done.
  rewrite bool_decide_eq_false_2 in Hrun by (by intros [? ?]).
  eexists _, _. split; [exact Hpq|]. split; [exact Hp|]. split; [exact Hq|].
  rewrite Hrun. unfold set_heap. do 3 f_equal.
  destruct st as [[] ?]; simpl in *; by subst.
Qed.

Lemma get_char_array_strings_witness :
  ∃ p q,
    p ≠ q ∧
    get_char_array (PyList [PyStr "abc"; PyStr ""]) true clean_xstate
    = Some ((Some p, Some 2, Some (Some q)),
            set_heap (<[q := Ints [Some 3; Some 0]]>
                        (<[p := Strings [Some "abc"%string; Some EmptyString]]> ∅))
              clean_xstate).
Proof.
  destruct (get_char_array_strings [PyStr "abc"; PyStr ""] true clean_xstate)
    as (p & q & Hpq & _ & _ & Hrun).
  - vm_compute. discriminate.
  - reflexivity.
  - reflexivity.
  - repeat constructor; eexists; reflexivity.
  - exists p, q. split; [exact Hpq|exact Hrun].
Defined.

(** ** The tiling set-up of [compression_decompressData] *)

Lemma decompress_tiling_loop_run suf_n : ∀ suf_t pre_n pre_t t m,
  length pre_n = length pre_t → length suf_n = length suf_t →
  (length suf_n ≤ m)%nat →
  (length pre_n + length suf_n ≤ MAX_COMPRESS_DIM)%nat →
  Forall extent suf_t →
  1 ≤ dt_maxtilelen t →
  dt_maxtilelen t * product suf_t ≤ C.LONG_MAX →
  dt_znaxis t = pre_n ++ replicate m 1 →
  dt_tilesize t = pre_t ++ replicate m 1 →
  ∃ t',
    decompress_tiling_loop (pre_n ++ suf_n) (pre_t ++ suf_t) (length suf_n)
      (length pre_n) t = Some t' ∧
    dt_znaxis t' = pre_n ++ suf_n ++ replicate (m - length suf_n) 1 ∧
    dt_tilesize t' = pre_t ++ suf_t ++ replicate (m - length suf_t) 1 ∧
    dt_maxtilelen t' = dt_maxtilelen t * product suf_t.
Proof.
  induction suf_n as [|n suf_n IH]; intros [|ts suf_t] pre_n pre_t t m
    Hpre Hsuf Hm Hdim Ht Hlen Hprod Hzn Hts; try discriminate.
  - exists t. simpl. rewrite Nat.sub_0_r. repeat split; [done|done|lia].
  - inversion Ht as [|? ? Ht1 Ht2]; subst.
    pose proof (product_extent suf_t Ht2) as Hp.
    simpl product in *. simpl length in *.
    cbn [decompress_tiling_loop]. unfold decompress_tiling_step.
    rewrite (list_lookup_middle pre_t suf_t ts (length pre_n)) by done.
    rewrite (list_lookup_middle pre_n suf_n n (length pre_n)) by done. simpl.
    rewrite bool_decide_eq_true_2 by lia.
    assert (1 ≤ ts ≤ C.LONG_MAX) as Hts1 by exact Ht1.
    rewrite long_result_in by (c_bounds; nia). simpl.
    destruct m as [|m]; [lia|].
    specialize (IH suf_t (pre_n ++ [n]) (pre_t ++ [ts])
      {| dt_znaxis := <[length pre_n := n]> (dt_znaxis t);
         dt_tilesize := <[length pre_n := ts]> (dt_tilesize t);
         dt_maxtilelen := dt_maxtilelen t * ts |} m).
    rewrite !length_app in IH. simpl in IH.
    rewrite <- !(assoc_L (++)) in IH. simpl in IH.
    replace (length pre_n + 1)%nat with (S (length pre_n)) in IH by lia.
    destruct IH as (t' & Hrun & Hzn' & Hts' & Hlen'); try done; try lia; try nia.
    + rewrite Hzn. rewrite insert_app_r_alt by lia. by rewrite Nat.sub_diag.
    + rewrite Hts, Hpre. rewrite insert_app_r_alt by lia. by rewrite Nat.sub_diag.
    + exists t'. rewrite Hrun. split; [done|]. split; [done|]. split; [done|].
      rewrite Hlen'. lia.
Qed.

(** X24.  The tiling set-up of [compression_decompressData] computes no
    tile count and divides by nothing: for tile extents that are at
    least 1 on [n] axes, [n] at most [MAX_COMPRESS_DIM], whose product
    fits a [long], it is defined whatever the image extents are, stores
    both lists in the first [n] entries of its arrays with 1 in the
    others, and leaves the product of the tile extents as the tile
    length. *)
Theorem decompressData_tiling_arrays (naxes tileSize : list Z) :
  length naxes = length tileSize →
  (length naxes ≤ MAX_COMPRESS_DIM)%nat →
  Forall extent tileSize →
  product tileSize ≤ C.LONG_MAX →
  ∃ t, decompressData_tiling (Z.of_nat (length naxes)) naxes tileSize = Some t ∧
       dt_znaxis t = naxes ++ replicate (MAX_COMPRESS_DIM - length naxes) 1 ∧
       dt_tilesize t = tileSize ++ replicate (MAX_COMPRESS_DIM - length naxes) 1 ∧
       dt_maxtilelen t = product tileSize.
Proof.
  intros Hlen Hdim Ht Hprod.
  unfold decompressData_tiling. rewrite Nat2Z.id.
  destruct (decompress_tiling_loop_run naxes tileSize [] []
              {| dt_znaxis := replicate MAX_COMPRESS_DIM 1;
                 dt_tilesize := replicate MAX_COMPRESS_DIM 1;
                 dt_maxtilelen := 1 |} MAX_COMPRESS_DIM)
    as (t' & Hrun & Hzn & Hts & Hmax); simpl; try done; try lia.
  simpl in Hrun, Hzn, Hts, Hmax. exists t'. split; [done|].
  rewrite Hzn, Hts, Hmax, <- Hlen. split; [done|]. split; [done|]. lia.
Qed.

Lemma decompressData_tiling_arrays_witness :
  ∃ t, decompressData_tiling 2 [0; -300] [100; 1] = Some t ∧
       dt_znaxis t = [0; -300; 1; 1; 1; 1] ∧
       dt_tilesize t = [100; 1; 1; 1; 1; 1] ∧
       dt_maxtilelen t = 100.
Proof.
  destruct (decompressData_tiling_arrays [0; -300] [100; 1])
    as (t & Hrun & Hzn & Hts & Hmax).
  - reflexivity.
  - vm_compute. lia.
  - repeat constructor; vm_compute; discriminate.
  - vm_compute. discriminate.
  - exists t. split; [exact Hrun|]. split; [exact Hzn|]. split; [exact Hts|exact Hmax].
Defined.
